(** * simple_server.py: a static-file HTTP server with CORS headers

    The program is one class, [CORSHTTPRequestHandler], derived from the
    interpreter's [http.server.SimpleHTTPRequestHandler], and a main block
    that runs it under [socketserver.TCPServer].  The class overrides
    [end_headers] and [log_message] and adds [do_OPTIONS]; everything else
    it does is inherited.  The development therefore has these layers:

    - [Py]: the operations on [str], [bytes] and [int] that the code uses;
    - [Base] and [Simple]: [BaseHTTPRequestHandler] and
      [SimpleHTTPRequestHandler] of CPython 3.11 ([Lib/http/server.py]),
      written over an explicit handler state, with the two methods the
      subclass overrides taken through a class, as Python resolves them
      through [self];
    - [CORS]: the handler of [simple_server.py];
    - [Main]: the main block over [socketserver.TCPServer].

    Conventions.  A [str] is a [string] holding one character per [ascii],
    which is exact for text decoded from the connection as iso-8859-1 (all a
    request line can hold).  Bytes are [string] too.  Library functions that
    compute text no property below depends on (MIME tables, RFC 2822 dates,
    percent-decoding, URL splitting, the e-mail header parser) are fields of
    a [platform] record, next to the file system and the clock.

    The system is a POSIX one ([os.path] is [posixpath]) and [sys.stdout]
    encodes text as UTF-8.  A percent-decoded path and the name of a file
    are taken with their characters below 256; what they may hold beyond
    that matters in one place, the encoding of a path for the operating
    system, which is the platform's [fsencodable].  The operating system
    follows symbolic links: [fs] is what a path leads to, [islink] and
    [realpath] say where a link is and where a path ends.  A client is the
    bytes it sends: a connection that breaks or stalls while it is served
    is not part of the model. *)

From Stdlib Require Import String Ascii List ZArith Lia Bool DecimalString.
Import ListNotations.
Local Open Scope list_scope.
Local Open Scope string_scope.

(** ** Python's [str], [bytes] and [int] operations *)

Module Py.

(** The double quote, which a literal here cannot hold. *)
Definition dq : string := String (ascii_of_nat 34) "".

Definition ord (c : ascii) : nat := nat_of_ascii c.
Definition chr (n : nat) : ascii := ascii_of_nat n.

(** [len(s)] *)
Definition len (s : string) : Z := Z.of_nat (String.length s).

(** [c.isspace()] for a character below 256: the characters 9..13, 28..32,
    133 and 160. *)
Definition isspace (c : ascii) : bool :=
  let n := ord c in
  ((9 <=? n)%nat && (n <=? 13)%nat) || ((28 <=? n)%nat && (n <=? 32)%nat)
  || (n =? 133)%nat || (n =? 160)%nat.

Definition isdigit (c : ascii) : bool :=
  let n := ord c in (48 <=? n)%nat && (n <=? 57)%nat.

Definition is_empty (s : string) : bool :=
  match s with EmptyString => true | _ => false end.

(** [c in s] for a character [c]. *)
Fixpoint contains (c : ascii) (s : string) : bool :=
  match s with
  | EmptyString => false
  | String d s' => Ascii.eqb c d || contains c s'
  end.

(** [s.split()]: the maximal runs of characters that are not white space.
    [word] is the run being read. *)
Fixpoint split_ws_from (s word : string) : list string :=
  match s with
  | EmptyString => if is_empty word then [] else [word]
  | String c s' =>
      if isspace c
      then (if is_empty word then split_ws_from s' ""
            else word :: split_ws_from s' "")
      else split_ws_from s' (word ++ String c "")
  end.

Definition split_ws (s : string) : list string := split_ws_from s "".

(** [s.split(sep)] for a one-character separator: never the empty list. *)
Fixpoint split (sep : ascii) (s : string) : list string :=
  match s with
  | EmptyString => [""]
  | String c s' =>
      if Ascii.eqb c sep then "" :: split sep s'
      else match split sep s' with
           | w :: ws => String c w :: ws
           | [] => [String c ""]
           end
  end.

(** [s.split(sep, 1)]: the text before the first [sep], and the text after
    it when there is one. *)
Fixpoint split1 (sep : ascii) (s : string) : string * option string :=
  match s with
  | EmptyString => ("", None)
  | String c s' =>
      if Ascii.eqb c sep then ("", Some s')
      else let (a, b) := split1 sep s' in (String c a, b)
  end.

(** [sep.join(l)] *)
Definition join (sep : string) (l : list string) : string :=
  String.concat sep l.

Definition startswith (s p : string) : bool := String.prefix p s.

Fixpoint rev (s acc : string) : string :=
  match s with
  | EmptyString => acc
  | String c s' => rev s' (String c acc)
  end.

Definition reverse (s : string) : string := rev s "".

Definition endswith (s p : string) : bool :=
  String.prefix (reverse p) (reverse s).

(** [s.lstrip(chars)] and [s.rstrip(chars)], the set of characters given
    by a predicate. *)
Fixpoint lstrip (p : ascii -> bool) (s : string) : string :=
  match s with
  | String c s' => if p c then lstrip p s' else s
  | EmptyString => ""
  end.

Definition rstrip (p : ascii -> bool) (s : string) : string :=
  reverse (lstrip p (reverse s)).

Definition is_crlf (c : ascii) : bool :=
  (ord c =? 13)%nat || (ord c =? 10)%nat.

Definition is_slash (c : ascii) : bool := (ord c =? 47)%nat.

(** [c.lower()] for a character below 256: A..Z and the letters 192..222
    other than the multiplication sign 215 move up by 32. *)
Definition lower_char (c : ascii) : ascii :=
  let n := ord c in
  if ((65 <=? n)%nat && (n <=? 90)%nat)
     || ((192 <=? n)%nat && (n <=? 222)%nat && negb (n =? 215)%nat)
  then chr (n + 32)%nat else c.

Fixpoint lower (s : string) : string :=
  match s with
  | EmptyString => ""
  | String c s' => String (lower_char c) (lower s')
  end.

(** [str(n)] and the [%d] conversion of an integer. *)
Definition str_int (z : Z) : string := NilZero.string_of_int (Z.to_int z).

(** [sys.get_int_max_str_digits()], as the interpreter starts with. *)
Definition int_max_str_digits : Z := 4300.

Fixpoint count_digits (s : string) : Z :=
  match s with
  | EmptyString => 0
  | String c s' => ((if isdigit c then 1 else 0) + count_digits s')%Z
  end.

(** [int(s)] for a [str] without white space: an optional sign, then
    decimal digits, single underscores allowed between two digits, and no
    more digits than [int_max_str_digits].  [None] stands for
    [ValueError]. *)
Fixpoint int_digits (s : string) (acc : Z) (after_digit : bool) : option Z :=
  match s with
  | EmptyString => if after_digit then Some acc else None
  | String c s' =>
      if isdigit c then int_digits s' (10 * acc + Z.of_nat (ord c - 48))%Z true
      else if (ord c =? 95)%nat && after_digit then
             match s' with
             | String d _ => if isdigit d then int_digits s' acc false else None
             | EmptyString => None
             end
           else None
  end.

Definition int (s : string) : option Z :=
  if (int_max_str_digits <? count_digits s)%Z then None
  else
    match s with
    | String c s' =>
        if (ord c =? 43)%nat then int_digits s' 0 false
        else if (ord c =? 45)%nat then option_map Z.opp (int_digits s' 0 false)
        else int_digits s 0 false
    | EmptyString => None
    end.

(** Two lowercase hexadecimal digits, as in [\xNN]. *)
Definition hex_digit (n : nat) : ascii :=
  if (n <? 10)%nat then chr (48 + n)%nat else chr (87 + n)%nat.

Definition hex2 (n : nat) : string :=
  String (hex_digit (n / 16)%nat) (String (hex_digit (n mod 16)%nat) "").

(** [c.isprintable()] for a character below 256. *)
Definition isprintable (c : ascii) : bool :=
  let n := ord c in
  ((32 <=? n)%nat && (n <=? 126)%nat) || ((161 <=? n)%nat && negb (n =? 173)%nat).

(** [repr(s)]: single quotes unless [s] holds one and no double quote;
    the quote in use and the backslash are escaped, tab, line feed and
    carriage return are written [\t], [\n], [\r], other characters that are
    not printable [\xNN]. *)
Definition repr_quote (s : string) : ascii :=
  if contains (chr 39) s && negb (contains (chr 34) s) then chr 34 else chr 39.

Fixpoint repr_body (q : ascii) (s : string) : string :=
  match s with
  | EmptyString => ""
  | String c s' =>
      let n := ord c in
      (if Ascii.eqb c q || (n =? 92)%nat then String (chr 92) (String c "")
       else if (n =? 9)%nat then "\t"
       else if (n =? 10)%nat then "\n"
       else if (n =? 13)%nat then "\r"
       else if isprintable c then String c ""
       else "\x" ++ hex2 n) ++ repr_body q s'
  end.

Definition repr (s : string) : string :=
  let q := repr_quote s in
  String q (repr_body q s ++ String q "").

(** [html.escape(s, quote=False)]: the ampersand first, then the two angle
    brackets; done here in one pass, which gives the same text. *)
Fixpoint html_escape (s : string) : string :=
  match s with
  | EmptyString => ""
  | String c s' =>
      (if (ord c =? 38)%nat then "&amp;"
       else if (ord c =? 60)%nat then "&lt;"
       else if (ord c =? 62)%nat then "&gt;"
       else String c "") ++ html_escape s'
  end.

(** [s.encode('UTF-8')] of a [str] of characters below 256: one byte under
    128, two bytes from there on. *)
Fixpoint encode_utf8 (s : string) : string :=
  match s with
  | EmptyString => ""
  | String c s' =>
      let n := ord c in
      (if (n <? 128)%nat then String c ""
       else String (chr (192 + n / 64)%nat) (String (chr (128 + n mod 64)%nat) ""))
      ++ encode_utf8 s'
  end.

End Py.

(** ** The world outside the handler *)

(** The fields of [time.struct_time] that the log line prints. *)
Record struct_time := {
  tm_year : Z; tm_mon : Z; tm_mday : Z;
  tm_hour : Z; tm_min : Z; tm_sec : Z
}.

(** What a path leads to, as [os.stat] and [open] find it: the operating
    system has followed the symbolic links on the way, the last component
    included.  [readable] and [listable] say whether [open] and
    [os.listdir] succeed; [mtime] is [st_mtime] in whole seconds; [names]
    is what [os.listdir] returns. *)
Inductive node :=
| NoEntry
| RegularFile (content : string) (mtime : Z) (readable : bool)
| Directory (names : list string) (listable : bool).

(** A [datetime.datetime] as [email.utils.parsedate_to_datetime] returns
    it: naive, or aware with the offset of its zone; [seconds] counts from
    the epoch, the fields read as UTC.  An offset of 0 is
    [datetime.timezone.utc] itself. *)
Inductive datetime :=
| Naive (seconds : Z)
| Aware (utcoffset : Z) (seconds : Z).

(** The interpreter, the operating system and the library functions whose
    text is not unfolded here.  [time_time n] is the [n]-th reading of the
    system clock.  [unquote_escapes] is [urllib.parse.unquote] on a text
    that holds a percent sign (with the handler's fallback on
    [UnicodeDecodeError]).  [urlsplit] is [urllib.parse.urlsplit]: the
    five parts, or the text of the [ValueError] it raises (for brackets
    that do not match after [//], for one).

    The file system: [fs p] is what the path [p] leads to, symbolic links
    followed; [islink p] is [os.path.islink], true when [p] itself names a
    symbolic link; [realpath p] is [os.path.realpath], the path without
    symbolic links of what [p] leads to.  [fsencodable p] says whether
    [os.fsencode] can encode the path: it cannot when the decoded path
    holds a lone surrogate (as [%ED%A0%80] decodes to).

    [guess_type] is the method of the handler: its own table, then
    [mimetypes.guess_type], which the first time it is called loads the
    MIME tables of the system ([/etc/mime.types] and the like); these
    reads, which do not depend on the request, are not among the calls
    recorded below.  [directory_page path url entries] is the page
    [list_directory] builds, encoded; an entry is a name with what
    [os.path.isdir] and [os.path.islink] said of it; [None] stands for the
    [UnicodeEncodeError] of a page that cannot be encoded (the path of the
    request, which the page shows, may hold a lone surrogate).

    Times, those of the clock and of the files, are within the years that
    [datetime] can hold. *)
Record platform := {
  sys_version : string;
  time_time : nat -> Z;
  localtime : Z -> struct_time;
  formatdate : Z -> string;
  getcwd : string;
  fs : string -> node;
  islink : string -> bool;
  realpath : string -> string;
  fsencodable : string -> bool;
  getfilesystemencoding : string;
  guess_type : string -> string;
  parsedate_to_datetime : string -> option datetime;
  email_parser : string -> list (string * string);
  unquote_escapes : string -> string;
  urlsplit :
    string -> (string * string * string * string * string) + string;
  urlunsplit : string * string * string * string * string -> string;
  directory_page :
    string -> string -> list (string * bool * bool) -> option string
}.

(** The calls the handler makes to the operating system on a path of the
    file system. *)
Inductive oscall :=
| IsDir (p : string)
| IsFile (p : string)
| IsLink (p : string)
| Open (p : string)
| ListDir (p : string).

(** [sys.stdout]: the bytes already handed to the operating system and the
    bytes still in the buffer of the text stream. *)
Record textio := { device : string; pending : string }.

Definition textio_write (s : string) (t : textio) : textio :=
  {| device := device t; pending := pending t ++ s |}.

Definition textio_flush (t : textio) : textio :=
  {| device := device t ++ pending t; pending := "" |}.

(** ** The handler's state *)

(** A line of the header block, as [send_response_only], [send_header]
    and [end_headers] append it to [_headers_buffer]. *)
Inductive hline :=
| StatusLine (version : string) (code : Z) (message : string)
| HeaderLine (keyword value : string)
| BlankLine.

Definition crlf : string := String (Py.chr 13) (String (Py.chr 10) "").

(** The bytes of a line: ["%s %d %s\r\n"], ["%s: %s\r\n"], ["\r\n"],
    encoded as latin-1. *)
Definition encode_hline (l : hline) : string :=
  match l with
  | StatusLine v c m => v ++ " " ++ Py.str_int c ++ " " ++ m ++ crlf
  | HeaderLine k v => k ++ ": " ++ v ++ crlf
  | BlankLine => crlf
  end.

(** One call of [wfile.write]: the joined header buffer, or body bytes.
    [wfile] is unbuffered ([wbufsize = 0]), so the writes are the wire. *)
Inductive wfile_write :=
| Head (lines : list hline)
| Body (data : string).

Definition encode_write (w : wfile_write) : string :=
  match w with
  | Head lines => String.concat "" (map encode_hline lines)
  | Body data => data
  end.

Definition wire (ws : list wfile_write) : string :=
  String.concat "" (map encode_write ws).

(** The attributes of a handler instance that the code reads and writes,
    the two streams of its connection, and the part of the world it acts
    on: [stdout], the number of clock readings so far, and the file-system
    calls made so far. *)
Record handler := {
  rfile : string;
  wfile : list wfile_write;
  raw_requestline : string;
  requestline : string;
  request_version : string;
  command : option string;
  path : string;
  headers : list (string * string);
  close_connection : bool;
  headers_buffer : list hline;
  stdout : textio;
  clock : nat;
  oscalls : list oscall
}.

Definition set_rfile (v : string) (h : handler) : handler :=
    {| rfile := v; wfile := wfile h; raw_requestline := raw_requestline h;
     requestline := requestline h; request_version := request_version h;
     command := command h; path := path h; headers := headers h;
     close_connection := close_connection h; headers_buffer := headers_buffer
     h; stdout := stdout h; clock := clock h; oscalls := oscalls h |}.

Definition set_wfile (v : list wfile_write) (h : handler) : handler :=
    {| rfile := rfile h; wfile := v; raw_requestline := raw_requestline h;
     requestline := requestline h; request_version := request_version h;
     command := command h; path := path h; headers := headers h;
     close_connection := close_connection h; headers_buffer := headers_buffer
     h; stdout := stdout h; clock := clock h; oscalls := oscalls h |}.

Definition set_raw_requestline (v : string) (h : handler) : handler :=
    {| rfile := rfile h; wfile := wfile h; raw_requestline := v; requestline
     := requestline h; request_version := request_version h; command :=
     command h; path := path h; headers := headers h; close_connection :=
     close_connection h; headers_buffer := headers_buffer h; stdout := stdout
     h; clock := clock h; oscalls := oscalls h |}.

Definition set_requestline (v : string) (h : handler) : handler :=
    {| rfile := rfile h; wfile := wfile h; raw_requestline := raw_requestline
     h; requestline := v; request_version := request_version h; command :=
     command h; path := path h; headers := headers h; close_connection :=
     close_connection h; headers_buffer := headers_buffer h; stdout := stdout
     h; clock := clock h; oscalls := oscalls h |}.

Definition set_request_version (v : string) (h : handler) : handler :=
    {| rfile := rfile h; wfile := wfile h; raw_requestline := raw_requestline
     h; requestline := requestline h; request_version := v; command := command
     h; path := path h; headers := headers h; close_connection :=
     close_connection h; headers_buffer := headers_buffer h; stdout := stdout
     h; clock := clock h; oscalls := oscalls h |}.

Definition set_command (v : option string) (h : handler) : handler :=
    {| rfile := rfile h; wfile := wfile h; raw_requestline := raw_requestline
     h; requestline := requestline h; request_version := request_version h;
     command := v; path := path h; headers := headers h; close_connection :=
     close_connection h; headers_buffer := headers_buffer h; stdout := stdout
     h; clock := clock h; oscalls := oscalls h |}.

Definition set_path (v : string) (h : handler) : handler :=
    {| rfile := rfile h; wfile := wfile h; raw_requestline := raw_requestline
     h; requestline := requestline h; request_version := request_version h;
     command := command h; path := v; headers := headers h; close_connection
     := close_connection h; headers_buffer := headers_buffer h; stdout :=
     stdout h; clock := clock h; oscalls := oscalls h |}.

Definition set_headers (v : list (string * string)) (h : handler) : handler :=
    {| rfile := rfile h; wfile := wfile h; raw_requestline := raw_requestline
     h; requestline := requestline h; request_version := request_version h;
     command := command h; path := path h; headers := v; close_connection :=
     close_connection h; headers_buffer := headers_buffer h; stdout := stdout
     h; clock := clock h; oscalls := oscalls h |}.

Definition set_close_connection (v : bool) (h : handler) : handler :=
    {| rfile := rfile h; wfile := wfile h; raw_requestline := raw_requestline
     h; requestline := requestline h; request_version := request_version h;
     command := command h; path := path h; headers := headers h;
     close_connection := v; headers_buffer := headers_buffer h; stdout :=
     stdout h; clock := clock h; oscalls := oscalls h |}.

Definition set_headers_buffer (v : list hline) (h : handler) : handler :=
    {| rfile := rfile h; wfile := wfile h; raw_requestline := raw_requestline
     h; requestline := requestline h; request_version := request_version h;
     command := command h; path := path h; headers := headers h;
     close_connection := close_connection h; headers_buffer := v; stdout :=
     stdout h; clock := clock h; oscalls := oscalls h |}.

Definition set_stdout (v : textio) (h : handler) : handler :=
    {| rfile := rfile h; wfile := wfile h; raw_requestline := raw_requestline
     h; requestline := requestline h; request_version := request_version h;
     command := command h; path := path h; headers := headers h;
     close_connection := close_connection h; headers_buffer := headers_buffer
     h; stdout := v; clock := clock h; oscalls := oscalls h |}.

Definition set_clock (v : nat) (h : handler) : handler :=
    {| rfile := rfile h; wfile := wfile h; raw_requestline := raw_requestline
     h; requestline := requestline h; request_version := request_version h;
     command := command h; path := path h; headers := headers h;
     close_connection := close_connection h; headers_buffer := headers_buffer
     h; stdout := stdout h; clock := v; oscalls := oscalls h |}.

Definition set_oscalls (v : list oscall) (h : handler) : handler :=
    {| rfile := rfile h; wfile := wfile h; raw_requestline := raw_requestline
     h; requestline := requestline h; request_version := request_version h;
     command := command h; path := path h; headers := headers h;
     close_connection := close_connection h; headers_buffer := headers_buffer
     h; stdout := stdout h; clock := clock h; oscalls := v |}.

(** ** Handler code: state and exceptions *)

(** The exceptions that leave the handler: [UnicodeEncodeError] for a
    path, or the page of a directory, that cannot be encoded;
    [ValueError] for a path that holds a null character and for a path of
    a request that [urlsplit] refuses.  None is an [OSError]. *)
Inductive exn :=
| ValueError (msg : string)
| UnicodeEncodeError.

Inductive result (A : Type) :=
| Ok (a : A)
| Raise (e : exn).
Arguments Ok {A} a.
Arguments Raise {A} e.

Definition M (A : Type) : Type := handler -> result A * handler.

Definition ret {A} (a : A) : M A := fun h => (Ok a, h).

Definition bind {A B} (m : M A) (k : A -> M B) : M B :=
  fun h => match m h with
           | (Ok a, h') => k a h'
           | (Raise e, h') => (Raise e, h')
           end.

Definition raise {A} (e : exn) : M A := fun h => (Raise e, h).
Definition gets {A} (f : handler -> A) : M A := fun h => (Ok (f h), h).
Definition modify (f : handler -> handler) : M unit := fun h => (Ok tt, f h).

Declare Scope handler_scope.
Delimit Scope handler_scope with handler.
Notation "x <- m ;; k" := (bind m (fun x => k))
  (at level 100, m at next level, right associativity) : handler_scope.
Notation "m ;; k" := (bind m (fun _ => k))
  (at level 100, right associativity) : handler_scope.
Local Open Scope handler_scope.

(** [self.path] *)
Definition get_path : M string := gets path.

(** The final state and the result of running handler code. *)
Definition exec {A} (m : M A) (h : handler) : handler := snd (m h).
Definition outcome {A} (m : M A) (h : handler) : result A := fst (m h).

(** The methods a subclass overrides and the base class calls through
    [self].  [self_log_message] receives [format % args]: every
    implementation formats first. *)
Class overrides := {
  self_end_headers : M unit;
  self_log_message : string -> M unit
}.

(** The method table: [getattr(self, 'do_' + command)], [None] when
    [hasattr] is false. *)
Class methods := {
  self_do : string -> option (M unit)
}.

(** ** [http.server.BaseHTTPRequestHandler] *)

Module Base.

Definition protocol_version : string := "HTTP/1.0".
Definition default_request_version : string := "HTTP/0.9".
Definition error_content_type : string := "text/html;charset=utf-8".
Definition nl : string := String (Py.chr 10) "".

(** [responses]: phrase and description of every [http.HTTPStatus]. *)
Definition responses_table : list (Z * (string * string)) :=
  Eval cbv in
  map (fun e => (Z.of_nat (fst e), snd e)) [
    (100, ("Continue", "Request received, please continue"));
    (101, ("Switching Protocols", "Switching to new protocol; obey Upgrade header"));
    (102, ("Processing", ""));
    (103, ("Early Hints", ""));
    (200, ("OK", "Request fulfilled, document follows"));
    (201, ("Created", "Document created, URL follows"));
    (202, ("Accepted", "Request accepted, processing continues off-line"));
    (203, ("Non-Authoritative Information", "Request fulfilled from cache"));
    (204, ("No Content", "Request fulfilled, nothing follows"));
    (205, ("Reset Content", "Clear input form for further input"));
    (206, ("Partial Content", "Partial content follows"));
    (207, ("Multi-Status", ""));
    (208, ("Already Reported", ""));
    (226, ("IM Used", ""));
    (300, ("Multiple Choices", "Object has several resources -- see URI list"));
    (301, ("Moved Permanently", "Object moved permanently -- see URI list"));
    (302, ("Found", "Object moved temporarily -- see URI list"));
    (303, ("See Other", "Object moved -- see Method and URL list"));
    (304, ("Not Modified", "Document has not changed since given time"));
    (305, ("Use Proxy", "You must use proxy specified in Location to access this resource"));
    (307, ("Temporary Redirect", "Object moved temporarily -- see URI list"));
    (308, ("Permanent Redirect", "Object moved permanently -- see URI list"));
    (400, ("Bad Request", "Bad request syntax or unsupported method"));
    (401, ("Unauthorized", "No permission -- see authorization schemes"));
    (402, ("Payment Required", "No payment -- see charging schemes"));
    (403, ("Forbidden", "Request forbidden -- authorization will not help"));
    (404, ("Not Found", "Nothing matches the given URI"));
    (405, ("Method Not Allowed", "Specified method is invalid for this resource"));
    (406, ("Not Acceptable", "URI not available in preferred format"));
    (407, ("Proxy Authentication Required", "You must authenticate with this proxy before proceeding"));
    (408, ("Request Timeout", "Request timed out; try again later"));
    (409, ("Conflict", "Request conflict"));
    (410, ("Gone", "URI no longer exists and has been permanently removed"));
    (411, ("Length Required", "Client must specify Content-Length"));
    (412, ("Precondition Failed", "Precondition in headers is false"));
    (413, ("Request Entity Too Large", "Entity is too large"));
    (414, ("Request-URI Too Long", "URI is too long"));
    (415, ("Unsupported Media Type", "Entity body in unsupported format"));
    (416, ("Requested Range Not Satisfiable", "Cannot satisfy request range"));
    (417, ("Expectation Failed", "Expect condition could not be satisfied"));
    (418, ("I'm a Teapot", "Server refuses to brew coffee because it is a teapot."));
    (421, ("Misdirected Request", "Server is not able to produce a response"));
    (422, ("Unprocessable Entity", ""));
    (423, ("Locked", ""));
    (424, ("Failed Dependency", ""));
    (425, ("Too Early", ""));
    (426, ("Upgrade Required", ""));
    (428, ("Precondition Required", "The origin server requires the request to be conditional"));
    (429, ("Too Many Requests", ("The user has sent too many requests in a given amount of time (" ++ Py.dq ++ "rate limiting" ++ Py.dq ++ ")")));
    (431, ("Request Header Fields Too Large", "The server is unwilling to process the request because its header fields are too large"));
    (451, ("Unavailable For Legal Reasons", "The server is denying access to the resource as a consequence of a legal demand"));
    (500, ("Internal Server Error", "Server got itself in trouble"));
    (501, ("Not Implemented", "Server does not support this operation"));
    (502, ("Bad Gateway", "Invalid responses from another server/proxy"));
    (503, ("Service Unavailable", "The server cannot process the request due to a high load"));
    (504, ("Gateway Timeout", "The gateway server did not receive a timely response"));
    (505, ("HTTP Version Not Supported", "Cannot fulfill request"));
    (506, ("Variant Also Negotiates", ""));
    (507, ("Insufficient Storage", ""));
    (508, ("Loop Detected", ""));
    (510, ("Not Extended", ""));
    (511, ("Network Authentication Required", "The client needs to authenticate to gain network access")) ].

Definition responses (code : Z) : option (string * string) :=
  option_map snd (find (fun e => Z.eqb (fst e) code) responses_table).

(** [DEFAULT_ERROR_MESSAGE % {'code': code, 'message': message,
    'explain': explain}] *)
Definition error_message_format (code : Z) (message explain : string)
  : string :=
  "<!DOCTYPE HTML>" ++ nl ++
  "<html lang=" ++ Py.dq ++ "en" ++ Py.dq ++ ">" ++ nl ++
  "    <head>" ++ nl ++
  "        <meta charset=" ++ Py.dq ++ "utf-8" ++ Py.dq ++ ">" ++ nl ++
  "        <title>Error response</title>" ++ nl ++
  "    </head>" ++ nl ++
  "    <body>" ++ nl ++
  "        <h1>Error response</h1>" ++ nl ++
  "        <p>Error code: " ++ Py.str_int code ++ "</p>" ++ nl ++
  "        <p>Message: " ++ message ++ ".</p>" ++ nl ++
  "        <p>Error code explanation: " ++ Py.str_int code ++ " - "
    ++ explain ++ ".</p>" ++ nl ++
  "    </body>" ++ nl ++
  "</html>" ++ nl.

(** [rfile.readline(limit)] on the bytes not yet read: the line with its
    line feed, or [limit] bytes, or what is left. *)
Fixpoint readline (limit : Z) (s : string) : string * string :=
  match s with
  | EmptyString => ("", "")
  | String c s' =>
      if (limit <=? 0)%Z then ("", s)
      else if (Py.ord c =? 10)%nat then (String c "", s')
      else let (l, r) := readline (limit - 1) s' in (String c l, r)
  end.

(** [headers.get(name, default)] and [name in headers] of an
    [email.message.Message]: the first field whose name matches, case
    ignored. *)
Definition headers_find (hs : list (string * string)) (name : string)
  : option string :=
  option_map snd
    (find (fun kv => Py.lower (fst kv) =? Py.lower name) hs).

Definition headers_get (hs : list (string * string)) (name default : string)
  : string :=
  match headers_find hs name with Some v => v | None => default end.

Definition headers_has (hs : list (string * string)) (name : string) : bool :=
  match headers_find hs name with Some _ => true | None => false end.

(** The version of a request line, as [parse_request] reads it:
    [base_version_number] and the pair of integers; [None] stands for the
    [ValueError] and [IndexError] it catches. *)
Definition parse_version (version : string) : option (string * (Z * Z)) :=
  if negb (Py.startswith version "HTTP/") then None
  else match snd (Py.split1 "/" version) with
       | None => None
       | Some base_version_number =>
           match Py.split "." base_version_number with
           | [a; b] =>
               match Py.int a, Py.int b with
               | Some major, Some minor =>
                   Some (base_version_number, (major, minor))
               | _, _ => None
               end
           | _ => None
           end
       end.

(** [v >= w] on pairs of integers. *)
Definition version_ge (v w : Z * Z) : bool :=
  (fst w <? fst v)%Z || ((fst v =? fst w)%Z && (snd w <=? snd v)%Z).

(** [a >= b] on [str]. *)
Definition str_ge (a b : string) : bool := String.leb b a.

Inductive headers_error := LineTooLong | TooManyHeaders.

Definition _MAXLINE : Z := 65536.
Definition _MAXHEADERS : nat := 100.

Section Handler.
Context (P : platform) {Ov : overrides}.

Definition wfile_write_bytes (w : wfile_write) : M unit :=
  modify (fun h => set_wfile (wfile h ++ [w]) h).

Definition rfile_readline (limit : Z) : M string :=
  fun h => let (l, r) := readline limit (rfile h) in (Ok l, set_rfile r h).

(** [time.time()] *)
Definition time_now : M Z :=
  fun h => (Ok (time_time P (clock h)), set_clock (S (clock h)) h).

Definition version_string : string :=
  "SimpleHTTP/0.6" ++ " " ++ sys_version P.

Definition date_time_string (timestamp : option Z) : M string :=
  match timestamp with
  | None => t <- time_now ;; ret (formatdate P t)
  | Some t => ret (formatdate P t)
  end.

Definition buffer_append (l : hline) : M unit :=
  modify (fun h => set_headers_buffer (headers_buffer h ++ [l]) h).

Definition send_response_only (code : Z) (message : option string) : M unit :=
  v <- gets request_version ;;
  if negb (v =? "HTTP/0.9") then
    let message :=
      match message with
      | Some m => m
      | None => match responses code with
                | Some (phrase, _) => phrase
                | None => ""
                end
      end in
    buffer_append (StatusLine protocol_version code message)
  else ret tt.

Definition send_header (keyword value : string) : M unit :=
  v <- gets request_version ;;
  (if negb (v =? "HTTP/0.9") then buffer_append (HeaderLine keyword value)
   else ret tt) ;;
  if Py.lower keyword =? "connection" then
    if Py.lower value =? "close" then modify (set_close_connection true)
    else if Py.lower value =? "keep-alive"
         then modify (set_close_connection false)
         else ret tt
  else ret tt.

Definition flush_headers : M unit :=
  modify (fun h => set_headers_buffer [] (set_wfile (wfile h ++ [Head (headers_buffer h)]) h)).

Definition end_headers : M unit :=
  v <- gets request_version ;;
  if negb (v =? "HTTP/0.9") then buffer_append BlankLine ;; flush_headers
  else ret tt.

(** [log_request(code, size)], both already passed through [str]. *)
Definition log_request (code size : string) : M unit :=
  r <- gets requestline ;;
  self_log_message (Py.dq ++ r ++ Py.dq ++ " " ++ code ++ " " ++ size).

Definition log_error (message : string) : M unit :=
  self_log_message message.

Definition send_response (code : Z) (message : option string) : M unit :=
  log_request (Py.str_int code) "-" ;;
  send_response_only code message ;;
  send_header "Server" version_string ;;
  d <- date_time_string None ;;
  send_header "Date" d.

Definition send_error (code : Z) (message explain : option string) : M unit :=
  let (shortmsg, longmsg) :=
    match responses code with Some p => p | None => ("???", "???") end in
  let message := match message with Some m => m | None => shortmsg end in
  let explain := match explain with Some e => e | None => longmsg end in
  log_error ("code " ++ Py.str_int code ++ ", message " ++ message) ;;
  send_response code (Some message) ;;
  send_header "Connection" "close" ;;
  body <- (if (200 <=? code)%Z
              && negb ((code =? 204)%Z || (code =? 205)%Z || (code =? 304)%Z)
           then
             let content :=
               error_message_format code (Py.html_escape message)
                                    (Py.html_escape explain) in
             let body := Py.encode_utf8 content in
             send_header "Content-Type" error_content_type ;;
             send_header "Content-Length" (Py.str_int (Py.len body)) ;;
             ret (Some body)
           else ret None) ;;
  self_end_headers ;;
  cmd <- gets command ;;
  match body with
  | Some b =>
      if negb (match cmd with Some c => c =? "HEAD" | None => false end)
         && negb (Py.is_empty b)
      then wfile_write_bytes (Body b)
      else ret tt
  | None => ret tt
  end.

(** [http.client._read_headers]: at most [_MAXHEADERS + 1] lines are
    read, so that much fuel is never used up. *)
Fixpoint read_headers (fuel : nat) (acc : list string)
  : M (headers_error + list string) :=
  match fuel with
  | O => ret (inl TooManyHeaders)
  | S fuel' =>
      line <- rfile_readline (_MAXLINE + 1) ;;
      if (_MAXLINE <? Py.len line)%Z then ret (inl LineTooLong)
      else
        let acc := (acc ++ [line])%list in
        if (_MAXHEADERS <? List.length acc)%nat then ret (inl TooManyHeaders)
        else if (line =? crlf) || (line =? nl) || (line =? "")
             then ret (inr acc)
             else read_headers fuel' acc
  end.

(** [http.client.parse_headers] *)
Definition parse_headers : M (headers_error + list (string * string)) :=
  r <- read_headers (S _MAXHEADERS) [] ;;
  match r with
  | inl e => ret (inl e)
  | inr lines => ret (inr (email_parser P (String.concat "" lines)))
  end.

Definition handle_expect_100 : M bool :=
  send_response_only 100 None ;;
  self_end_headers ;;
  ret true.

(** The end of [parse_request], from the reading of the headers on. *)
Definition parse_request_headers : M bool :=
  r <- parse_headers ;;
  match r with
  | inl LineTooLong =>
      send_error 431 (Some "Line too long")
        (Some "got more than 65536 bytes when reading header line") ;;
      ret false
  | inl TooManyHeaders =>
      send_error 431 (Some "Too many headers")
        (Some "got more than 100 headers") ;;
      ret false
  | inr hs =>
      modify (set_headers hs) ;;
      let conntype := headers_get hs "Connection" "" in
      (if Py.lower conntype =? "close" then modify (set_close_connection true)
       else if (Py.lower conntype =? "keep-alive")
               && str_ge protocol_version "HTTP/1.1"
            then modify (set_close_connection false)
            else ret tt) ;;
      let expect := headers_get hs "Expect" "" in
      v <- gets request_version ;;
      if (Py.lower expect =? "100-continue")
         && str_ge protocol_version "HTTP/1.1"
         && str_ge v "HTTP/1.1"
      then ok <- handle_expect_100 ;; if ok then ret true else ret false
      else ret true
  end.

Definition parse_request : M bool :=
  modify (set_command None) ;;
  modify (set_request_version default_request_version) ;;
  modify (set_close_connection true) ;;
  raw <- gets raw_requestline ;;
  let requestline := Py.rstrip Py.is_crlf raw in
  modify (set_requestline requestline) ;;
  let words := Py.split_ws requestline in
  if (List.length words =? 0)%nat then ret false
  else
    ok <- (if (3 <=? List.length words)%nat then
             let version := last words "" in
             match parse_version version with
             | None =>
                 send_error 400
                   (Some ("Bad request version (" ++ Py.repr version ++ ")"))
                   None ;;
                 ret false
             | Some (base_version_number, version_number) =>
                 (if version_ge version_number (1, 1)%Z
                     && str_ge protocol_version "HTTP/1.1"
                  then modify (set_close_connection false)
                  else ret tt) ;;
                 if version_ge version_number (2, 0)%Z then
                   send_error 505
                     (Some ("Invalid HTTP version (" ++ base_version_number
                            ++ ")"))
                     None ;;
                   ret false
                 else modify (set_request_version version) ;; ret true
             end
           else ret true) ;;
    if negb ok then ret false
    else if negb ((2 <=? List.length words)%nat
                  && (List.length words <=? 3)%nat) then
      send_error 400
        (Some ("Bad request syntax (" ++ Py.repr requestline ++ ")")) None ;;
      ret false
    else
      let command := nth 0 words "" in
      let path := nth 1 words "" in
      ok <- (if (List.length words =? 2)%nat then
               modify (set_close_connection true) ;;
               if negb (command =? "GET") then
                 send_error 400
                   (Some ("Bad HTTP/0.9 request type (" ++ Py.repr command
                          ++ ")"))
                   None ;;
                 ret false
               else ret true
             else ret true) ;;
      if negb ok then ret false
      else
        modify (set_command (Some command)) ;;
        modify (set_path path) ;;
        (if Py.startswith path "//"
         then modify (set_path ("/" ++ Py.lstrip Py.is_slash path))
         else ret tt) ;;
        parse_request_headers.

Section Dispatch.
Context {D : methods}.

(** [handle_one_request] up to the dispatch on the method: the request
    line is read and parsed; [false] where the source returns early. *)
Definition read_request : M bool :=
  raw <- rfile_readline 65537 ;;
  modify (set_raw_requestline raw) ;;
  if (65536 <? Py.len raw)%Z then
    modify (set_requestline "") ;;
    modify (set_request_version "") ;;
    modify (set_command (Some "")) ;;
    send_error 414 None None ;;
    ret false
  else if Py.is_empty raw then
    modify (set_close_connection true) ;; ret false
  else parse_request.

(** [getattr(self, 'do_' + self.command)] and the call. *)
Definition dispatch : M unit :=
  cmd <- gets command ;;
  let name := match cmd with Some c => c | None => "" end in
  match self_do name with
  | None =>
      send_error 501
        (Some ("Unsupported method (" ++ Py.repr name ++ ")")) None
  | Some method => method
  end.

Definition handle_one_request : M unit :=
  ok <- read_request ;;
  if negb ok then ret tt else dispatch.

(** [handle]: the loop runs while [close_connection] is false; a request
    that leaves it false has read at least one byte, so the bytes to read
    bound the number of turns. *)
Fixpoint handle_more (fuel : nat) : M unit :=
  match fuel with
  | O => ret tt
  | S fuel' =>
      c <- gets close_connection ;;
      if c then ret tt else handle_one_request ;; handle_more fuel'
  end.

Definition handle : M unit :=
  modify (set_close_connection true) ;;
  handle_one_request ;;
  n <- gets (fun h => String.length (rfile h)) ;;
  handle_more n.

End Dispatch.
End Handler.
End Base.

(** ** [posixpath] *)

Module Posixpath.

(** [posixpath.normpath] *)
Definition normpath (path : string) : string :=
  if Py.is_empty path then "."
  else
    let initial_slashes : nat :=
      if Py.startswith path "/" then
        if Py.startswith path "//" && negb (Py.startswith path "///")
        then 2 else 1
      else 0 in
    let comps := Py.split "/" path in
    let new_comps :=
      fold_left
        (fun new_comps comp =>
           if (comp =? "") || (comp =? ".") then new_comps
           else if negb (comp =? "..")
                   || ((initial_slashes =? 0)%nat
                       && (List.length new_comps =? 0)%nat)
                   || (negb (List.length new_comps =? 0)%nat
                       && (last new_comps "" =? ".."))
                then (new_comps ++ [comp])%list
                else removelast new_comps)
        comps [] in
    let path := Py.join "/" new_comps in
    let path := String.concat "" (repeat "/" initial_slashes) ++ path in
    if Py.is_empty path then "." else path.

(** [posixpath.join(a, b)] *)
Definition join (a b : string) : string :=
  if Py.startswith b "/" then b
  else if Py.is_empty a || Py.endswith a "/" then a ++ b
  else a ++ "/" ++ b.

(** [posixpath.dirname(p)]: the text up to the last slash, without its
    trailing slashes unless it is made of slashes only. *)
Definition dirname (p : string) : string :=
  match snd (Py.split1 "/" (Py.reverse p)) with
  | None => ""
  | Some r =>
      let head := Py.reverse r ++ "/" in
      if Py.is_empty (Py.lstrip Py.is_slash head) then head
      else Py.rstrip Py.is_slash head
  end.

End Posixpath.

(** ** [http.server.SimpleHTTPRequestHandler] *)

Module Simple.
Section Handler.
Context (P : platform) {Ov : overrides}.

(** [urllib.parse.unquote]: a text without a percent sign is returned as
    it is. *)
Definition unquote (s : string) : string :=
  if Py.contains "%" s then unquote_escapes P s else s.

(** [self.directory], set from [os.getcwd()] when the handler is made. *)
Definition directory : string := getcwd P.

Definition translate_path (path : string) : string :=
  let path := fst (Py.split1 "?" path) in
  let path := fst (Py.split1 "#" path) in
  let trailing_slash := Py.endswith (Py.rstrip Py.isspace path) "/" in
  let path := unquote path in
  let path := Posixpath.normpath path in
  let words := Py.split "/" path in
  let words := filter (fun w => negb (Py.is_empty w)) words in
  let path :=
    fold_left
      (fun path word =>
         if negb (Py.is_empty (Posixpath.dirname word))
            || (word =? ".") || (word =? "..")
         then path
         else Posixpath.join path word)
      words directory in
  if trailing_slash then path ++ "/" else path.

Definition has_nul (p : string) : bool := Py.contains (Py.chr 0) p.

(** A path that the interpreter does not pass to the operating system:
    it cannot be encoded, or it holds a null character. *)
Definition refused (p : string) : bool := negb (fsencodable P p) || has_nul p.

(** The conversion of a path for a system call: the path is encoded
    first, and the null character is looked for in the bytes. *)
Definition os_fspath (p : string) : M unit :=
  if negb (fsencodable P p) then raise UnicodeEncodeError
  else if has_nul p then raise (ValueError "embedded null byte")
  else ret tt.

Definition oscall_log (c : oscall) : M unit :=
  modify (fun h => set_oscalls (oscalls h ++ [c]) h).

(** [os.path.isdir], [os.path.isfile] and [os.path.islink]: false when
    [os.stat] or [os.lstat] fails with [OSError] or [ValueError], which
    [UnicodeEncodeError] is a kind of. *)
Definition os_path_isdir (p : string) : M bool :=
  oscall_log (IsDir p) ;;
  ret (negb (refused p)
       && match fs P p with Directory _ _ => true | _ => false end).

Definition os_path_isfile (p : string) : M bool :=
  oscall_log (IsFile p) ;;
  ret (negb (refused p)
       && match fs P p with RegularFile _ _ _ => true | _ => false end).

Definition os_path_islink (p : string) : M bool :=
  oscall_log (IsLink p) ;;
  ret (negb (refused p) && islink P p).

(** [open(p, 'rb')] followed by [os.fstat]: the content and [st_mtime] of
    the file that [p] leads to; [None] stands for [OSError]; a path that
    is refused raises its exception. *)
Definition os_open (p : string) : M (option (string * Z)) :=
  oscall_log (Open p) ;;
  os_fspath p ;;
  match fs P p with
  | RegularFile content mtime true => ret (Some (content, mtime))
  | _ => ret None
  end.

(** [os.listdir(p)], [None] for [OSError]. *)
Definition os_listdir (p : string) : M (option (list string)) :=
  oscall_log (ListDir p) ;;
  os_fspath p ;;
  match fs P p with
  | Directory names true => ret (Some names)
  | _ => ret None
  end.

(** [list.sort(key=lambda a: a.lower())]: the names in the order of
    their lowered texts, names with the same one in the order they had. *)
Fixpoint insert_name (a : string) (l : list string) : list string :=
  match l with
  | [] => [a]
  | b :: l' =>
      if String.leb (Py.lower a) (Py.lower b) then a :: l
      else b :: insert_name a l'
  end.

Definition sort_names (l : list string) : list string :=
  fold_right insert_name [] l.

(** The loop of [list_directory] over the names: [os.path.isdir] and
    [os.path.islink] are asked of each. *)
Fixpoint list_entries (path : string) (names : list string)
  : M (list (string * bool * bool)) :=
  match names with
  | [] => ret []
  | name :: names' =>
      let fullname := Posixpath.join path name in
      d <- os_path_isdir fullname ;;
      l <- os_path_islink fullname ;;
      entries <- list_entries path names' ;;
      ret ((name, d, l) :: entries)
  end.

Definition list_directory (path : string) : M (option string) :=
  l <- os_listdir path ;;
  match l with
  | None =>
      Base.send_error P 404 (Some "No permission to list directory") None ;;
      ret None
  | Some names =>
      let names := sort_names names in
      url <- get_path ;;
      let enc := getfilesystemencoding P in
      entries <- list_entries path names ;;
      match directory_page P path url entries with
      | None => raise UnicodeEncodeError
      | Some encoded =>
          Base.send_response P 200 None ;;
          Base.send_header "Content-type" ("text/html; charset=" ++ enc) ;;
          Base.send_header "Content-Length" (Py.str_int (Py.len encoded)) ;;
          self_end_headers ;;
          ret (Some encoded)
      end
  end.

(** The test of [send_head] on [If-Modified-Since]: true when a 304 is to
    be sent for a file last modified at [mtime]. *)
Definition not_modified (hs : list (string * string)) (mtime : Z) : bool :=
  if Base.headers_has hs "If-Modified-Since"
     && negb (Base.headers_has hs "If-None-Match")
  then match parsedate_to_datetime P
               (Base.headers_get hs "If-Modified-Since" "") with
       | None => false
       | Some (Naive ims) => (mtime <=? ims)%Z
       | Some (Aware utcoffset ims) =>
           (utcoffset =? 0)%Z && (mtime <=? ims)%Z
       end
  else false.

(** [send_head] from [ctype = self.guess_type(path)] on. *)
Definition send_head_file (path : string) : M (option string) :=
  let ctype := guess_type P path in
  if Py.endswith path "/" then
    Base.send_error P 404 (Some "File not found") None ;; ret None
  else
    f <- os_open path ;;
    match f with
    | None => Base.send_error P 404 (Some "File not found") None ;; ret None
    | Some (content, mtime) =>
        hs <- gets headers ;;
        if not_modified hs mtime then
          Base.send_response P 304 None ;;
          self_end_headers ;;
          ret None
        else
          Base.send_response P 200 None ;;
          Base.send_header "Content-type" ctype ;;
          Base.send_header "Content-Length" (Py.str_int (Py.len content)) ;;
          lm <- Base.date_time_string P (Some mtime) ;;
          Base.send_header "Last-Modified" lm ;;
          self_end_headers ;;
          ret (Some content)
    end.

(** [send_head]: the file object to copy, as its bytes, or [None]. *)
Definition send_head : M (option string) :=
  url <- get_path ;;
  let path := translate_path url in
  d <- os_path_isdir path ;;
  if d then
    match urlsplit P url with
    | inr msg => raise (ValueError msg)
    | inl (scheme, netloc, upath, query, fragment) =>
        if negb (Py.endswith upath "/") then
          Base.send_response P 301 None ;;
          let new_url :=
            urlunsplit P (scheme, netloc, upath ++ "/", query, fragment) in
          Base.send_header "Location" new_url ;;
          Base.send_header "Content-Length" "0" ;;
          self_end_headers ;;
          ret None
        else
          i1 <- os_path_isfile (Posixpath.join path "index.html") ;;
          if i1 then send_head_file (Posixpath.join path "index.html")
          else
            i2 <- os_path_isfile (Posixpath.join path "index.htm") ;;
            if i2 then send_head_file (Posixpath.join path "index.htm")
            else list_directory path
    end
  else send_head_file path.

(** [copyfile(f, self.wfile)]: [shutil.copyfileobj] writes the bytes in
    blocks, kept here as one write; nothing is written for no bytes. *)
Definition copyfile (data : string) : M unit :=
  if Py.is_empty data then ret tt else Base.wfile_write_bytes (Body data).

Definition do_GET : M unit :=
  f <- send_head ;;
  match f with
  | Some data => copyfile data
  | None => ret tt
  end.

Definition do_HEAD : M unit :=
  f <- send_head ;;
  ret tt.

(** The [do_] methods the class defines. *)
Definition lookup (name : string) : option (M unit) :=
  if name =? "GET" then Some do_GET
  else if name =? "HEAD" then Some do_HEAD
  else None.

End Handler.
End Simple.

(** ** [simple_server.py]: [CORSHTTPRequestHandler] *)

Module CORS.

(** [%m], [%d], [%H], [%M], [%S]: two digits. *)
Definition pad2 (n : Z) : string :=
  if (n <? 10)%Z then "0" ++ Py.str_int n else Py.str_int n.

(** [time.strftime('%Y-%m-%d %H:%M:%S')] of a local time. *)
Definition strftime (t : struct_time) : string :=
  Py.str_int (tm_year t) ++ "-" ++ pad2 (tm_mon t) ++ "-" ++ pad2 (tm_mday t)
  ++ " " ++ pad2 (tm_hour t) ++ ":" ++ pad2 (tm_min t) ++ ":"
  ++ pad2 (tm_sec t).

(** [sys.stdout.write(s)] for a [str] of the handler: the stream encodes
    as UTF-8. *)
Definition stdout_write (s : string) : M unit :=
  modify (fun h => set_stdout (textio_write (Py.encode_utf8 s) (stdout h)) h).

Definition stdout_flush : M unit :=
  modify (fun h => set_stdout (textio_flush (stdout h)) h).

Section Handler.
Context (P : platform).

Definition end_headers : M unit :=
  Base.send_header "Access-Control-Allow-Origin" "*" ;;
  Base.send_header "Access-Control-Allow-Methods"
                   "GET, POST, OPTIONS, PUT, DELETE" ;;
  Base.send_header "Access-Control-Allow-Headers"
                   "Content-Type, Authorization" ;;
  Base.end_headers.

(** [log_message(format, *args)], [message] being [format % args]. *)
Definition log_message (message : string) : M unit :=
  now <- Base.time_now P ;;
  let timestamp := strftime (localtime P now) in
  stdout_write ("[" ++ timestamp ++ "] " ++ message ++ Base.nl) ;;
  stdout_flush.

#[export] Instance handler_overrides : overrides := {|
  self_end_headers := end_headers;
  self_log_message := log_message
|}.

Definition do_OPTIONS : M unit :=
  Base.send_response P 200 None ;;
  self_end_headers.

#[export] Instance handler_methods : methods := {|
  self_do name :=
    if name =? "OPTIONS" then Some do_OPTIONS else Simple.lookup P name
|}.

(** The inherited methods, for this class. *)
Definition read_request : M bool := Base.read_request P.
Definition handle_one_request : M unit := Base.handle_one_request P.
Definition handle : M unit := Base.handle P.
Definition do_GET : M unit := Simple.do_GET P.
Definition do_HEAD : M unit := Simple.do_HEAD P.

End Handler.
End CORS.

(** ** [simple_server.py]: the main block *)

Module Main.

Definition PORT : Z := 8000.

(** What [socket.bind] and [listen] do in [TCPServer.__init__]: succeed,
    or raise [OSError] with the given text. *)
Inductive bind_result :=
| Bound
| BindError (oserror : string).

(** What happens while [serve_forever] runs: a client connects, sends
    bytes and sends no more, or the process receives an interrupt
    ([KeyboardInterrupt]).  The server is a [TCPServer] without threads
    and without a timeout: a client that stops in the middle of a line
    keeps it in [readline], and no other connection is served meanwhile;
    such a client is not an event here. *)
Inductive event :=
| Connection (client_bytes : string)
| Interrupt.

Inductive socket_state := Listening | Closed.

(** [Serving]: inside [serve_forever].  [Exited code]: the interpreter
    has left with that status.  [Blocked]: waiting for ever on the event
    [__is_shut_down]. *)
Inductive phase :=
| Serving
| Exited (code : Z)
| Blocked.

(** What the interpreter and [BaseServer.handle_error] print on
    [sys.stderr]. *)
Inductive report :=
| UncaughtTraceback (exception : string)
| RequestTraceback (exception : exn).

Record process := {
  state : phase;
  out : textio;
  err : list report;
  socket : socket_state;
  bind_calls : nat;
  shutdown_request : bool;
  is_shut_down : bool;
  sent : list (list wfile_write);
  ticks : nat;
  syscalls : list oscall
}.

(** [print(s)] for a literal given by its UTF-8 bytes. *)
Definition print (s : string) (t : textio) : textio :=
  textio_write (s ++ Base.nl) t.

(** [httpd.server_address] after [server_bind]: what [getsockname]
    returns for the address bound. *)
Definition server_address : string * Z := ("0.0.0.0", PORT).

(** [str] of that pair, as the f-string formats it. *)
Definition str_address (a : string * Z) : string :=
  "(" ++ Py.repr (fst a) ++ ", " ++ Py.str_int (snd a) ++ ")".

(** The lines printed before [serve_forever], and the flush. *)
Definition banner (t : textio) : textio :=
  let t := print ("🚀 OKR Phoenix Project Server starting on port "
                  ++ Py.str_int PORT) t in
  let t := print ("📂 Serving files from: " ++ str_address server_address) t in
  let t := print ("🌐 Access your application at: http://localhost:"
                  ++ Py.str_int PORT) t in
  let t := print ("🧪 Test API page: http://localhost:" ++ Py.str_int PORT
                  ++ "/test-api.html") t in
  let t := print ("🔐 Login page: http://localhost:" ++ Py.str_int PORT
                  ++ "/okr-login.html") t in
  let t := print (String.concat "" (repeat "=" 60)) t in
  textio_flush t.

Definition farewell : string := Base.nl ++ "👋 Server shutting down...".

(** The interpreter leaves: [sys.stdout] is flushed. *)
Definition exit (code : Z) (p : process) : process :=
  {| state := Exited code; out := textio_flush (out p); err := err p;
     socket := socket p; bind_calls := bind_calls p;
     shutdown_request := shutdown_request p; is_shut_down := is_shut_down p;
     sent := sent p; ticks := ticks p; syscalls := syscalls p |}.

(** The program up to the call of [serve_forever].  When the constructor
    of [TCPServer] raises, it has closed the socket; nothing catches the
    exception, so the interpreter prints the traceback and leaves with
    status 1.  Otherwise the banner is printed and [serve_forever] clears
    [__is_shut_down]. *)
Definition start (b : bind_result) : process :=
  let created :=
    {| state := Serving; out := {| device := ""; pending := "" |};
       err := []; socket := Listening; bind_calls := 1;
       shutdown_request := false; is_shut_down := false;
       sent := []; ticks := 0; syscalls := [] |} in
  match b with
  | BindError e =>
      exit 1
        {| state := Serving; out := out created;
           err := [UncaughtTraceback e]; socket := Closed;
           bind_calls := bind_calls created;
           shutdown_request := false; is_shut_down := false;
           sent := []; ticks := 0; syscalls := [] |}
  | Bound =>
      {| state := Serving; out := banner (out created); err := [];
         socket := Listening; bind_calls := bind_calls created;
         shutdown_request := false; is_shut_down := false;
         sent := []; ticks := 0; syscalls := [] |}
  end.

(** A fresh handler for the bytes a client sends. *)
Definition new_handler (client_bytes : string) (p : process) : handler :=
  {| rfile := client_bytes; wfile := []; raw_requestline := "";
     requestline := ""; request_version := ""; command := None; path := "";
     headers := []; close_connection := true; headers_buffer := [];
     stdout := out p; clock := ticks p; oscalls := syscalls p |}.

Section Serve.
Context (P : platform).

(** [_handle_request_noblock]: the handler is made and run; an exception
    of the handler is reported by [handle_error] and the loop goes on. *)
Definition handle_request (client_bytes : string) (p : process) : process :=
  let (r, h) := CORS.handle P (new_handler client_bytes p) in
  {| state := state p; out := stdout h;
     err := match r with
            | Ok _ => err p
            | Raise e => (err p ++ [RequestTraceback e])%list
            end;
     socket := socket p; bind_calls := bind_calls p;
     shutdown_request := shutdown_request p; is_shut_down := is_shut_down p;
     sent := (sent p ++ [wfile h])%list; ticks := clock h;
     syscalls := oscalls h |}.

(** The [finally] clause of [serve_forever]. *)
Definition serve_forever_finally (p : process) : process :=
  {| state := state p; out := out p; err := err p; socket := socket p;
     bind_calls := bind_calls p; shutdown_request := false;
     is_shut_down := true; sent := sent p; ticks := ticks p;
     syscalls := syscalls p |}.

(** [httpd.shutdown()]: sets [__shutdown_request] and waits for
    [__is_shut_down]. *)
Definition shutdown (p : process) : process :=
  {| state := if is_shut_down p then state p else Blocked;
     out := out p; err := err p; socket := socket p;
     bind_calls := bind_calls p; shutdown_request := true;
     is_shut_down := is_shut_down p; sent := sent p; ticks := ticks p;
     syscalls := syscalls p |}.

(** [__exit__] of the [with] block: [server_close]. *)
Definition server_close (p : process) : process :=
  {| state := state p; out := out p; err := err p; socket := Closed;
     bind_calls := bind_calls p; shutdown_request := shutdown_request p;
     is_shut_down := is_shut_down p; sent := sent p; ticks := ticks p;
     syscalls := syscalls p |}.

Definition print_out (s : string) (p : process) : process :=
  {| state := state p; out := print s (out p); err := err p;
     socket := socket p; bind_calls := bind_calls p;
     shutdown_request := shutdown_request p; is_shut_down := is_shut_down p;
     sent := sent p; ticks := ticks p; syscalls := syscalls p |}.

(** The [except KeyboardInterrupt] clause, the end of the [with] block
    and the end of the program. *)
Definition interrupted (p : process) : process :=
  let p := serve_forever_finally p in
  let p := print_out farewell p in
  let p := shutdown p in
  match state p with
  | Blocked => p
  | _ => exit 0 (server_close p)
  end.

Definition step (p : process) (e : event) : process :=
  match state p with
  | Serving =>
      match e with
      | Connection client_bytes => handle_request client_bytes p
      | Interrupt => interrupted p
      end
  | _ => p
  end.

(** The whole program, for the outcome of the bind and the events that
    follow. *)
Definition run (b : bind_result) (events : list event) : process :=
  fold_left step events (start b).

End Serve.
End Main.

(** ** A platform to run the examples on

    One directory, [/srv/www], with the file [test-api.html], last
    modified at the time 1700000000, which is also what the clock reads.
    The library functions are given on the texts the examples use, where
    they agree with CPython 3.11. *)

Module Demo.

Definition root : string := "/srv/www".
Definition page : string := "<h1>API test</h1>".

Definition demo_fs (p : string) : node :=
  if Py.rstrip Py.is_slash p =? root then Directory ["test-api.html"] true
  else if p =? "/srv/www/test-api.html" then RegularFile page 1700000000 true
  else if p =? "/srv/www/secret.txt" then RegularFile "s3cret" 1700000000 false
  else NoEntry.

(** One header field per line, [name: value]. *)
Definition demo_field (line : string) : list (string * string) :=
  match Py.split1 ":" (Py.rstrip Py.is_crlf line) with
  | (name, Some value) => [(name, Py.lstrip Py.isspace value)]
  | (_, None) => []
  end.

Definition demo_email_parser (text : string) : list (string * string) :=
  flat_map demo_field (Py.split (Py.chr 10) text).

Definition host : platform := {|
  sys_version := "Python/3.11.2";
  time_time := fun _ => 1700000000%Z;
  localtime := fun _ =>
    {| tm_year := 2023; tm_mon := 11; tm_mday := 14;
       tm_hour := 22; tm_min := 13; tm_sec := 20 |};
  formatdate := fun _ => "Tue, 14 Nov 2023 22:13:20 GMT";
  getcwd := root;
  fs := demo_fs;
  islink := fun _ => false;
  realpath := fun p => p;
  fsencodable := fun _ => true;
  getfilesystemencoding := "utf-8";
  guess_type := fun p =>
    if Py.endswith p ".html" then "text/html" else "application/octet-stream";
  parsedate_to_datetime := fun s =>
    if s =? "Sat, 01 Jan 2028 00:00:00 GMT"
    then Some (Aware 0 1830297600) else None;
  email_parser := demo_email_parser;
  unquote_escapes := fun s => s;
  urlsplit := fun u => inl ("", "", u, "", "");
  urlunsplit := fun '(_, _, p, _, _) => p;
  directory_page := fun _ _ _ => Some "<ul></ul>"
|}.

(** The same platform with one more entry in [/srv/www]: [hosts], a
    symbolic link to the file [/etc/hosts]. *)
Definition hosts : string := "127.0.0.1 localhost".

Definition linked_fs (p : string) : node :=
  if Py.rstrip Py.is_slash p =? root
  then Directory ["hosts"; "test-api.html"] true
  else if (p =? "/srv/www/hosts") || (p =? "/etc/hosts")
       then RegularFile hosts 1600000000 true
       else demo_fs p.

Definition linked : platform := {|
  sys_version := sys_version host;
  time_time := time_time host;
  localtime := localtime host;
  formatdate := formatdate host;
  getcwd := root;
  fs := linked_fs;
  islink := fun p => p =? "/srv/www/hosts";
  realpath := fun p => if p =? "/srv/www/hosts" then "/etc/hosts" else p;
  fsencodable := fun _ => true;
  getfilesystemencoding := getfilesystemencoding host;
  guess_type := guess_type host;
  parsedate_to_datetime := parsedate_to_datetime host;
  email_parser := email_parser host;
  unquote_escapes := unquote_escapes host;
  urlsplit := urlsplit host;
  urlunsplit := urlunsplit host;
  directory_page := directory_page host
|}.

(** The bytes of a request: the request line and the header lines, each
    ended by CR LF, and the empty line. *)
Definition request (line : string) (fields : list string) : string :=
  String.concat "" (map (fun l => l ++ crlf) (line :: fields)) ++ crlf.

Definition connect (client_bytes : string) : handler :=
  Main.new_handler client_bytes (Main.start Main.Bound).

End Demo.

(** ** What a client and an operator observe *)

Module Observe.

(** The status code of a response: that of the status line its bytes
    start with, when they start with one. *)
Definition status (ws : list wfile_write) : option Z :=
  match ws with
  | Head (StatusLine _ code _ :: _) :: _ => Some code
  | _ => None
  end.

(** The lines of the header blocks of a response. *)
Definition header_lines (ws : list wfile_write) : list hline :=
  flat_map (fun w => match w with Head l => l | Body _ => [] end) ws.

Definition is_header (keyword value : string) (l : hline) : bool :=
  match l with
  | HeaderLine k v => (k =? keyword) && (v =? value)
  | _ => false
  end.

Definition has_header (ws : list wfile_write) (keyword value : string)
  : bool :=
  existsb (is_header keyword value) (header_lines ws).

(** The bytes of a response that follow its header block. *)
Definition body (ws : list wfile_write) : string :=
  String.concat ""
    (map (fun w => match w with Body d => d | Head _ => "" end) ws).

(** The three headers, as [end_headers] of the handler sends them. *)
Definition cors_lines : list hline :=
  [ HeaderLine "Access-Control-Allow-Origin" "*";
    HeaderLine "Access-Control-Allow-Methods"
               "GET, POST, OPTIONS, PUT, DELETE";
    HeaderLine "Access-Control-Allow-Headers" "Content-Type, Authorization" ].

(** A header line whose name, case ignored, is one of the three. *)
Definition is_cors_line (l : hline) : bool :=
  match l with
  | HeaderLine k _ =>
      existsb (String.eqb (Py.lower k))
        [ "access-control-allow-origin"; "access-control-allow-methods";
          "access-control-allow-headers" ]
  | _ => false
  end.

(** A header block carries the three headers with exactly these values:
    its lines with one of the three names are the three lines, once each. *)
Definition carries_cors (w : wfile_write) : Prop :=
  match w with
  | Head lines => filter is_cors_line lines = cors_lines
  | Body _ => True
  end.

(** [YYYY-MM-DD HH:MM:SS] *)
Definition is_timestamp (s : string) : bool :=
  match list_ascii_of_string s with
  | [y1; y2; y3; y4; s1; m1; m2; s2; d1; d2; s3; h1; h2; s4; n1; n2; s5; c1; c2]
    => forallb Py.isdigit [y1; y2; y3; y4; m1; m2; d1; d2; h1; h2; n1; n2; c1; c2]
       && (String s1 (String s2 (String s3 (String s4 (String s5 "")))) =? "-- ::")
  | _ => false
  end.

(** The line [log_message] writes for a message, at the [tick]-th reading
    of the clock. *)
Definition log_line (P : platform) (tick : nat) (message : string) : string :=
  Py.encode_utf8
    ("[" ++ CORS.strftime (localtime P (time_time P tick)) ++ "] "
     ++ message ++ Base.nl).

(** The message of the access-log line and of the line [send_error]
    logs before it. *)
Definition access_message (requestline : string) (code : Z) : string :=
  Py.dq ++ requestline ++ Py.dq ++ " " ++ Py.str_int code ++ " -".

Definition error_message (code : Z) (message : string) : string :=
  "code " ++ Py.str_int code ++ ", message " ++ message.

(** What a stream holds after lines were logged: each entry is the
    reading of the clock and the message of a line, written and flushed. *)
Definition log_to (P : platform) (t : textio) (entry : nat * string)
  : textio :=
  textio_flush (textio_write (log_line P (fst entry) (snd entry)) t).

Definition log_all (P : platform) (entries : list (nat * string))
  (t : textio) : textio :=
  fold_left (log_to P) entries t.

(** The lines of an answer of status [code], the first at the reading
    [tick] of the clock: the access-log line, and before it, when the
    status is 400 or more, the line of the error. *)
Definition answer_log (tick : nat) (requestline : string) (code : Z)
  (message : string) : list (nat * string) :=
  if (400 <=? code)%Z
  then [ (tick, error_message code message);
         (S tick, access_message requestline code) ]
  else [ (tick, access_message requestline code) ].

(** A first line that is no request: nothing at all (the client sent
    nothing), or at most 65536 bytes that are white space only. *)
Definition blank_line (raw : string) : bool :=
  (Py.len raw <=? 65536)%Z
  && (List.length (Py.split_ws (Py.rstrip Py.is_crlf raw)) =? 0)%nat.

(** The request line as the handler keeps it: the first line without its
    end of line, or nothing when the line was too long to be read. *)
Definition request_line (raw : string) : string :=
  if (65536 <? Py.len raw)%Z then "" else Py.rstrip Py.is_crlf raw.

(** The number of ends of line in a text. *)
Fixpoint count_lines (s : string) : nat :=
  match s with
  | EmptyString => 0
  | String c s' => (if (Py.ord c =? 10)%nat then 1 else 0) + count_lines s'
  end.

(** A local time as [time.localtime] returns it, in a year of four
    digits. *)
Definition plausible (t : struct_time) : Prop :=
  (1000 <= tm_year t <= 9999 /\ 1 <= tm_mon t <= 12 /\ 1 <= tm_mday t <= 31
   /\ 0 <= tm_hour t <= 23 /\ 0 <= tm_min t <= 59 /\ 0 <= tm_sec t <= 61)%Z.

(** Where a path leads from the directory it starts in, as the operating
    system walks it when no component is a symbolic link: the names
    passed, [..] going back up. *)
Definition walk_step (dir : list string) (comp : string) : list string :=
  if (comp =? "") || (comp =? ".") then dir
  else if comp =? ".." then removelast dir
  else (dir ++ [comp])%list.

Definition resolve (p : string) : list string :=
  fold_left walk_step (Py.split "/" p) [].

(** The name of an entry of a directory. *)
Definition plain_name (w : string) : Prop :=
  w <> "" /\ w <> "." /\ w <> ".." /\ Py.contains "/" w = false.

(** A path that leads to the serving root or below it. *)
Definition confined (root p : string) : Prop :=
  exists names, resolve p = (resolve root ++ names)%list
                /\ Forall plain_name names.

(** What [os.listdir] returns is names of entries. *)
Definition plain_listings (P : platform) : Prop :=
  forall p names listable,
    fs P p = Directory names listable -> Forall plain_name names.

(** A path that the operating system takes and that names no file the
    server can read: nothing is there, or a file that [open] is refused. *)
Definition no_file (P : platform) (p : string) : Prop :=
  Simple.refused P p = false
  /\ (fs P p = NoEntry \/ exists c m, fs P p = RegularFile c m false).

(** A path that the operating system takes and that names a file the
    server can read, with its bytes and the time it was last modified. *)
Definition names_file (P : platform) (p content : string) (mtime : Z) : Prop :=
  Simple.refused P p = false /\ Py.endswith p "/" = false
  /\ fs P p = RegularFile content mtime true.

Definition oscall_path (c : oscall) : string :=
  match c with IsDir p | IsFile p | IsLink p | Open p | ListDir p => p end.

End Observe.

(** * Properties *)

Local Open Scope handler_scope.

(** ** The operations on text *)

Example split_ws_ex :
  Py.split_ws ("a b" ++ String (Py.chr 133) "c" ++ String (Py.chr 160) "d")
  = ["a"; "b"; "c"; "d"].
Proof. reflexivity. Qed.

Example rstrip_ex :
  Py.rstrip Py.is_crlf ("x" ++ String (Py.chr 13) (String (Py.chr 10) (String (Py.chr 13) ""))) = "x".
Proof. reflexivity. Qed.

Example int_ex :
  map Py.int ["+1"; "-1"; "1_0"; "_1"; "1_"; "0x1"; ""; "00"; "1__0"]
  = [Some 1%Z; Some (-1)%Z; Some 10%Z; None; None; None; None; Some 0%Z; None].
Proof. reflexivity. Qed.

Example int_limit_ex :
  Py.int (String.concat "" (repeat "1" 4300)) <> None
  /\ Py.int (String.concat "" (repeat "1" 4301)) = None
  /\ Py.int (String.concat "" (repeat "1_" 4300) ++ "1") = None.
Proof. repeat split; vm_compute; [discriminate | reflexivity..]. Qed.

Example repr_ex :
  Py.repr "a'b" = Py.dq ++ "a'b" ++ Py.dq /\ Py.repr "HTTP/x" = "'HTTP/x'"
  /\ Py.repr (String (Py.chr 127) (String (Py.chr 161) (String (Py.chr 173) "\")))
     = "'\x7f" ++ String (Py.chr 161) "\xad\\'".
Proof. repeat split; reflexivity. Qed.

(** ** The main block *)

Section MainFacts.
Context (P : platform).

Lemma exited_absorbs (p : Main.process) (events : list Main.event) :
  Main.state p <> Main.Serving -> fold_left (Main.step P) events p = p.
Proof.
  intros Hp. induction events as [|e events IH]; simpl; [reflexivity|].
  unfold Main.step at 2. destruct (Main.state p) eqn:E; try congruence; exact IH.
Qed.

(** A connection leaves the server as it was, apart from what the
    handler wrote, logged and looked up. *)
Lemma handle_request_frame (bytes : string) (p : Main.process) :
  let q := Main.handle_request P bytes p in
  Main.state q = Main.state p /\ Main.socket q = Main.socket p
  /\ Main.bind_calls q = Main.bind_calls p
  /\ Main.is_shut_down q = Main.is_shut_down p
  /\ Main.shutdown_request q = Main.shutdown_request p.
Proof.
  unfold Main.handle_request.
  destruct (CORS.handle P (Main.new_handler bytes p)) as [r h].
  simpl. repeat split.
Qed.

Lemma step_connection (r : string) (p : Main.process) :
  Main.state p = Main.Serving ->
  Main.step P p (Main.Connection r) = Main.handle_request P r p.
Proof. intros Hp. unfold Main.step. now rewrite Hp. Qed.

Lemma serving_after_connections (requests : list string) (p : Main.process) :
  Main.state p = Main.Serving ->
  let q := fold_left (Main.step P) (map Main.Connection requests) p in
  Main.state q = Main.Serving /\ Main.socket q = Main.socket p
  /\ Main.bind_calls q = Main.bind_calls p.
Proof.
  revert p. induction requests as [|r requests IH]; intros p Hp; cbn [map fold_left].
  - repeat split; assumption.
  - rewrite (step_connection r p Hp).
    destruct (handle_request_frame r p) as (Hs & Hk & Hb & _).
    destruct (IH (Main.handle_request P r p)) as (H1 & H2 & H3).
    + rewrite Hs. exact Hp.
    + cbv zeta in *. repeat split;
        [exact H1 | rewrite H2; exact Hk | rewrite H3; exact Hb].
Qed.

End MainFacts.


(** C8. When the bind fails the server never starts: whatever happens
    next, the process has left with status 1 after the one attempt, the
    error on the error stream, no banner printed and no request served. *)
Theorem C8_bind_failure_exits_nonzero
  (P : platform) (oserror : string) (events : list Main.event) :
  let q := Main.run P (Main.BindError oserror) events in
  Main.state q = Main.Exited 1
  /\ Main.err q = [Main.UncaughtTraceback oserror]
  /\ Main.bind_calls q = 1%nat
  /\ Main.out q = {| device := ""; pending := "" |}
  /\ Main.sent q = [].
Proof.
  unfold Main.run. rewrite exited_absorbs by (simpl; discriminate).
  repeat split.
Qed.

(** C9. The banner, as printed: the line that is labelled with the
    serving directory shows the address of the socket. *)
Theorem C9_banner_shows_socket_address :
  Main.out (Main.start Main.Bound)
  = {| device :=
         "🚀 OKR Phoenix Project Server starting on port 8000" ++ Base.nl ++
         "📂 Serving files from: ('0.0.0.0', 8000)" ++ Base.nl ++
         "🌐 Access your application at: http://localhost:8000" ++ Base.nl ++
         "🧪 Test API page: http://localhost:8000/test-api.html" ++ Base.nl ++
         "🔐 Login page: http://localhost:8000/okr-login.html" ++ Base.nl ++
         "============================================================"
         ++ Base.nl;
       pending := "" |}.
Proof. reflexivity. Qed.

(** ** Handler code: running it and what it preserves *)

(** The class of the handler is [CORSHTTPRequestHandler] throughout. *)
#[local] Hint Extern 0 overrides =>
  match goal with P : platform |- _ => exact (CORS.handler_overrides P) end
  : typeclass_instances.
#[local] Hint Extern 0 methods =>
  match goal with P : platform |- _ => exact (CORS.handler_methods P) end
  : typeclass_instances.

Lemma bind_ok {A B} (m : M A) (k : A -> M B) (h h' : handler) (a : A) :
  m h = (Ok a, h') -> bind m k h = k a h'.
Proof. intros E. unfold bind. now rewrite E. Qed.

Lemma bind_raise {A B} (m : M A) (k : A -> M B) (h h' : handler) (e : exn) :
  m h = (Raise e, h') -> bind m k h = (Raise e, h').
Proof. intros E. unfold bind. now rewrite E. Qed.

Lemma bind_ok_inv {A B} (m : M A) (k : A -> M B) (h h' : handler) (b : B) :
  bind m k h = (Ok b, h') ->
  exists a h0, m h = (Ok a, h0) /\ k a h0 = (Ok b, h').
Proof.
  unfold bind. destruct (m h) as [[a|e] h0]; intros E.
  - now exists a, h0.
  - discriminate.
Qed.

Section Preserves.
Context (R : handler -> handler -> Prop).
Hypothesis R_refl : forall h, R h h.
Hypothesis R_trans : forall a b c, R a b -> R b c -> R a c.

(** Handler code preserves [R] when every run takes a state to one that
    [R] relates to it, whether it returns or raises. *)
Definition preserves {A} (m : M A) : Prop := forall h, R h (exec m h).

Lemma preserves_ret {A} (a : A) : preserves (ret a).
Proof. intros h. apply R_refl. Qed.

Lemma preserves_gets {A} (f : handler -> A) : preserves (gets f).
Proof. intros h. apply R_refl. Qed.

Lemma preserves_raise {A} (e : exn) : preserves (@raise A e).
Proof. intros h. apply R_refl. Qed.

Lemma preserves_modify (f : handler -> handler) :
  (forall h, R h (f h)) -> preserves (modify f).
Proof. intros H h. apply H. Qed.

Lemma preserves_bind {A B} (m : M A) (k : A -> M B) :
  preserves m -> (forall a, preserves (k a)) -> preserves (bind m k).
Proof.
  intros Hm Hk h. unfold exec, bind.
  specialize (Hm h). unfold exec in Hm.
  destruct (m h) as [[a|e] h0]; simpl in *.
  - eapply R_trans; [exact Hm | apply Hk].
  - exact Hm.
Qed.

End Preserves.

(** The structure of handler code, taken apart: binds, returns, and the
    tests it branches on.  [calls] settles the calls and the changes of
    state, for the relation at hand. *)
Ltac pres_structure refl trans calls :=
  repeat first
    [ progress cbn [self_end_headers self_log_message self_do
                    CORS.handler_overrides CORS.handler_methods]
    | lazymatch goal with
      | |- preserves _ (ret _) => apply (preserves_ret _ refl)
      | |- preserves _ (gets _) => apply (preserves_gets _ refl)
      | |- preserves _ (raise _) => apply (preserves_raise _ refl)
      | |- preserves _ (bind _ _) => apply (preserves_bind _ trans); [| intros ]
      | |- preserves _ (if ?b then _ else _) => destruct b eqn:?
      | |- preserves _ (match ?x with _ => _ end) => destruct x eqn:?
      | |- preserves _ (let (_, _) := ?x in _) => destruct x eqn:?
      | |- preserves _ _ => solve [calls]
      end ].

(** ** Running the methods that build a response *)

Section Run.
Context (P : platform).

Definition is_http09 (h : handler) : bool := request_version h =? "HTTP/0.9".

(** A header other than [Connection]: appended to the buffer, unless the
    request is an HTTP/0.9 one. *)
Lemma send_header_run (keyword value : string) (h : handler) :
  (Py.lower keyword =? "connection") = false ->
  Base.send_header keyword value h
  = (Ok tt, if is_http09 h then h
            else set_headers_buffer
                   (headers_buffer h ++ [HeaderLine keyword value]) h).
Proof.
  intros Hk. unfold Base.send_header, Base.buffer_append, is_http09, bind, gets,
    modify, ret.
  rewrite Hk. now destruct (request_version h =? "HTTP/0.9").
Qed.

Lemma send_header_1x (keyword value : string) (h : handler) :
  is_http09 h = false ->
  (Py.lower keyword =? "connection") = false ->
  Base.send_header keyword value h
  = (Ok tt, set_headers_buffer
              (headers_buffer h ++ [HeaderLine keyword value]) h).
Proof. intros Hv Hk. rewrite send_header_run by exact Hk. now rewrite Hv. Qed.

Lemma send_header_09 (keyword value : string) (h : handler) :
  is_http09 h = true ->
  (Py.lower keyword =? "connection") = false ->
  Base.send_header keyword value h = (Ok tt, h).
Proof. intros Hv Hk. rewrite send_header_run by exact Hk. now rewrite Hv. Qed.

Lemma send_connection_close_1x (h : handler) :
  is_http09 h = false ->
  Base.send_header "Connection" "close" h
  = (Ok tt, set_close_connection true
              (set_headers_buffer
                 (headers_buffer h ++ [HeaderLine "Connection" "close"]) h)).
Proof.
  intros Hv. unfold is_http09 in Hv.
  unfold Base.send_header, Base.buffer_append, bind, gets, modify, ret.
  rewrite Hv. reflexivity.
Qed.

Lemma base_end_headers_1x (h : handler) :
  is_http09 h = false ->
  Base.end_headers h
  = (Ok tt, set_headers_buffer []
              (set_wfile (wfile h ++ [Head (headers_buffer h ++ [BlankLine])]) h)).
Proof.
  intros Hv. unfold is_http09 in Hv.
  unfold Base.end_headers, Base.flush_headers, Base.buffer_append, bind, gets,
    modify, ret.
  rewrite Hv. reflexivity.
Qed.

Lemma base_end_headers_09 (h : handler) :
  is_http09 h = true -> Base.end_headers h = (Ok tt, h).
Proof.
  intros Hv. unfold is_http09 in Hv.
  unfold Base.end_headers, bind, gets, ret. now rewrite Hv.
Qed.

(** [end_headers] of the handler, for a request that is not an HTTP/0.9
    one: the buffer, the three headers and the blank line are written as
    one block, and the buffer is emptied. *)
Lemma end_headers_1x (h : handler) :
  is_http09 h = false ->
  CORS.end_headers h
  = (Ok tt, set_headers_buffer []
              (set_wfile
                 (wfile h ++ [Head (headers_buffer h ++ Observe.cors_lines
                                    ++ [BlankLine])]) h)).
Proof.
  intros Hv. unfold CORS.end_headers.
  erewrite bind_ok by (apply send_header_1x; [exact Hv | reflexivity]).
  erewrite bind_ok by (apply send_header_1x; [exact Hv | reflexivity]).
  erewrite bind_ok by (apply send_header_1x; [exact Hv | reflexivity]).
  rewrite base_end_headers_1x by exact Hv.
  cbn. now rewrite <- !app_assoc.
Qed.

Lemma end_headers_09 (h : handler) :
  is_http09 h = true -> CORS.end_headers h = (Ok tt, h).
Proof.
  intros Hv. unfold CORS.end_headers.
  erewrite bind_ok by (apply send_header_09; [exact Hv | reflexivity]).
  erewrite bind_ok by (apply send_header_09; [exact Hv | reflexivity]).
  erewrite bind_ok by (apply send_header_09; [exact Hv | reflexivity]).
  now apply base_end_headers_09.
Qed.

End Run.

(** ** Reading a request *)

Lemma bind_modify {B} (f : handler -> handler) (k : unit -> M B) (h : handler) :
  bind (modify f) k h = k tt (f h).
Proof. reflexivity. Qed.

Lemma bind_gets {A B} (f : handler -> A) (k : A -> M B) (h : handler) :
  bind (gets f) k h = k (f h) h.
Proof. reflexivity. Qed.

Lemma bind_ret {A B} (a : A) (k : A -> M B) (h : handler) :
  bind (ret a) k h = k a h.
Proof. reflexivity. Qed.

(** The fields of a state that was built by setting fields. *)
Ltac state_fields :=
  cbn [rfile wfile raw_requestline requestline request_version command path
       headers close_connection headers_buffer stdout clock oscalls
       set_rfile set_wfile set_raw_requestline set_requestline
       set_request_version set_command set_path set_headers
       set_close_connection set_headers_buffer set_stdout set_clock
       set_oscalls].

(** Two states are the same when their fields are. *)
Lemma handler_eq (a b : handler) :
  rfile a = rfile b -> wfile a = wfile b ->
  raw_requestline a = raw_requestline b -> requestline a = requestline b ->
  request_version a = request_version b -> command a = command b ->
  path a = path b -> headers a = headers b ->
  close_connection a = close_connection b ->
  headers_buffer a = headers_buffer b -> stdout a = stdout b ->
  clock a = clock b -> oscalls a = oscalls b -> a = b.
Proof. destruct a, b; simpl; intros; subst; reflexivity. Qed.

(** One step of a run: the first action of a bind runs as [tac] shows. *)
Ltac run_by tac := erewrite bind_ok by tac; cbv beta.

(** A run that returned, taken apart along the code that ran. *)
Ltac inv_run :=
  repeat match goal with
    | H : bind (modify _) _ _ = _ |- _ => rewrite bind_modify in H
    | H : bind (gets _) _ _ = _ |- _ => rewrite bind_gets in H
    | H : bind (ret _) _ _ = _ |- _ => rewrite bind_ret in H
    | H : bind _ _ _ = (Ok _, _) |- _ =>
        apply bind_ok_inv in H; destruct H as (? & ? & ? & H)
    | H : ret _ _ = (_, _) |- _ => inversion H; subst; clear H
    | H : modify _ _ = (_, _) |- _ => inversion H; subst; clear H
    | H : gets _ _ = (_, _) |- _ => inversion H; subst; clear H
    | H : (if ?b then _ else _) _ = (_, _) |- _ => destruct b eqn:?
    | H : match ?x with _ => _ end _ = (_, _) |- _ => destruct x eqn:?
    end.

(** Two handler states that differ in what was read only: the request
    attributes and the bytes left on the connection. *)
Definition same_effects (h h' : handler) : Prop :=
  wfile h' = wfile h /\ headers_buffer h' = headers_buffer h
  /\ stdout h' = stdout h /\ clock h' = clock h /\ oscalls h' = oscalls h.

Section Request.
Context (P : platform).

Lemma rfile_readline_run (limit : Z) (h : handler) :
  exists line rest,
    Base.rfile_readline limit h = (Ok line, set_rfile rest h).
Proof.
  unfold Base.rfile_readline. destruct (Base.readline limit (rfile h)) as [l r].
  now exists l, r.
Qed.

Lemma read_headers_run (fuel : nat) (acc : list string) (h : handler) :
  exists r rest, Base.read_headers fuel acc h = (Ok r, set_rfile rest h).
Proof.
  revert acc h. induction fuel as [|fuel IH]; intros acc h; simpl.
  - exists (inl Base.TooManyHeaders), (rfile h). now destruct h.
  - destruct (rfile_readline_run (Base._MAXLINE + 1) h) as (line & rest & E).
    rewrite (bind_ok _ _ _ _ _ E).
    destruct (Base._MAXLINE <? Py.len line)%Z; [now eexists _, _|].
    destruct (Base._MAXHEADERS <? _)%nat; [now eexists _, _|].
    destruct ((line =? crlf) || (line =? Base.nl) || (line =? "")).
    + now eexists _, _.
    + destruct (IH (acc ++ [line])%list (set_rfile rest h)) as (r & rest' & E').
      exists r, rest'. exact E'.
Qed.

(** A request line and headers that [parse_request] accepts: nothing is
    written, logged or looked up, and the method is set. *)
Ltac absurd_tests :=
  try discriminate;
  try match goal with
      | H : _ = true |- _ =>
          rewrite andb_false_r in H; cbn [andb] in H; discriminate
      end.

Lemma parse_request_accepts (h h' : handler) :
  Base.parse_request P h = (Ok true, h') ->
  same_effects h h' /\ exists c, command h' = Some c.
Proof.
  intros H.
  unfold Base.parse_request, Base.parse_request_headers, Base.parse_headers in H.
  cbv zeta in H.
  change (Base.str_ge Base.protocol_version "HTTP/1.1") with false in H.
  repeat rewrite bind_modify in H.
  rewrite bind_gets in H. rewrite bind_modify in H.
  destruct (_ =? 0)%nat; [discriminate|].
  apply bind_ok_inv in H. destruct H as (ok & h1 & Hv & H).
  destruct ok; cbn [negb] in H; [|discriminate].
  destruct (negb _); [inv_run; discriminate|].
  apply bind_ok_inv in H. destruct H as (ok & h2 & Ht & H).
  destruct ok; cbn [negb] in H; [|discriminate].
  repeat rewrite bind_modify in H.
  apply bind_ok_inv in H. destruct H as (u & h3 & Hs & H).
  apply bind_ok_inv in H. destruct H as (r & h4 & Hr & H).
  apply bind_ok_inv in Hr. destruct Hr as (r0 & h5 & Hr & Hr').
  match type of Hr with
  | Base.read_headers ?f ?a ?h0 = _ =>
      destruct (read_headers_run f a h0) as (r1 & rest & Er)
  end.
  rewrite Er in Hr. inversion Hr; subst r1 h5; clear Hr Er.
  destruct r0 as [e|lines];
    [ destruct e; inv_run; discriminate | ].
  inv_run; absurd_tests.
  all: unfold same_effects; cbn; repeat split; eauto.
Qed.

(** A request that [read_request] accepts. *)
Lemma read_request_accepts (h h' : handler) :
  Base.read_request P h = (Ok true, h') ->
  same_effects h h' /\ exists c, command h' = Some c.
Proof.
  intros H. unfold Base.read_request in H.
  destruct (rfile_readline_run 65537 h) as (line & rest & E).
  rewrite (bind_ok _ _ _ _ _ E) in H. rewrite bind_modify in H.
  destruct (65536 <? Py.len line)%Z; [inv_run; discriminate|].
  destruct (Py.is_empty line); [inv_run; discriminate|].
  apply parse_request_accepts in H. destruct H as (Hs & Hc).
  split; [|exact Hc]. unfold same_effects in *. cbn in Hs. exact Hs.
Qed.

End Request.

(** ** The responses, state by state *)

Section Responses.
Context (P : platform).
Import Observe.

(** The state after [log_message]: one reading of the clock, one line
    written, the stream flushed. *)
Definition after_log (message : string) (h : handler) : handler :=
  set_stdout
    (textio_flush (textio_write (log_line P (clock h) message) (stdout h)))
    (set_clock (S (clock h)) h).

Lemma log_message_run (message : string) (h : handler) :
  CORS.log_message P message h = (Ok tt, after_log message h).
Proof. reflexivity. Qed.

(** The phrase [send_response_only] uses when it is given none. *)
Definition phrase (code : Z) : string :=
  match Base.responses code with Some (p, _) => p | None => "" end.

Definition or_phrase (code : Z) (message : option string) : string :=
  match message with Some m => m | None => phrase code end.

(** The state after [send_response], for a request that is not an
    HTTP/0.9 one: the access-log line, then the status line and the
    [Server] and [Date] headers in the buffer. *)
Definition after_status (code : Z) (message : string) (h : handler)
  : handler :=
  let h1 := after_log (access_message (requestline h) code) h in
  set_headers_buffer
    (headers_buffer h
     ++ [ StatusLine "HTTP/1.0" code message;
          HeaderLine "Server" (Base.version_string P);
          HeaderLine "Date" (formatdate P (time_time P (clock h1))) ])
    (set_clock (S (clock h1)) h1).

Lemma send_response_only_1x (code : Z) (message : option string) (h : handler) :
  is_http09 h = false ->
  Base.send_response_only code message h
  = (Ok tt, set_headers_buffer
              (headers_buffer h
               ++ [StatusLine "HTTP/1.0" code (or_phrase code message)]) h).
Proof.
  intros Hv. unfold is_http09 in Hv.
  unfold Base.send_response_only, Base.buffer_append. rewrite bind_gets.
  rewrite Hv. cbn [negb]. unfold or_phrase, phrase.
  destruct message; [reflexivity|].
  destruct (Base.responses code) as [[p d]|]; reflexivity.
Qed.

Lemma log_request_run (code : Z) (h : handler) :
  Base.log_request (Py.str_int code) "-" h
  = (Ok tt, after_log (access_message (requestline h) code) h).
Proof. reflexivity. Qed.

Lemma send_response_1x (code : Z) (message : option string) (h : handler) :
  is_http09 h = false ->
  Base.send_response P code message h
  = (Ok tt, after_status code (or_phrase code message) h).
Proof.
  intros Hv. unfold Base.send_response.
  run_by ltac:(apply log_request_run).
  run_by ltac:(apply send_response_only_1x; exact Hv).
  run_by ltac:(apply send_header_1x; [exact Hv | reflexivity]).
  run_by ltac:(unfold Base.date_time_string, Base.time_now; reflexivity).
  rewrite send_header_1x by (first [exact Hv | reflexivity]).
  unfold after_status. cbn. now rewrite <- !app_assoc.
Qed.

(** The page [send_error] sends. *)
Definition error_page (code : Z) (message explain : string) : string :=
  Py.encode_utf8
    (Base.error_message_format code (Py.html_escape message)
                               (Py.html_escape explain)).

Lemma error_page_not_empty (code : Z) (message explain : string) :
  Py.is_empty (error_page code message explain) = false.
Proof. reflexivity. Qed.

Definition is_head (h : handler) : bool :=
  match command h with Some c => c =? "HEAD" | None => false end.

(** The state after [send_error] with a message, for a code that has a
    body and a request that is not an HTTP/0.9 one: two log lines, one
    header block, and the page unless the method is [HEAD]. *)
Definition after_error (code : Z) (message : string) (h : handler) : handler :=
  let explain :=
    match Base.responses code with Some (_, d) => d | None => "???" end in
  let h1 := after_log (error_message code message) h in
  let h2 := after_status code message h1 in
  let page := error_page code message explain in
  let block :=
    Head (headers_buffer h2
          ++ [ HeaderLine "Connection" "close";
               HeaderLine "Content-Type" Base.error_content_type;
               HeaderLine "Content-Length" (Py.str_int (Py.len page)) ]
          ++ cors_lines ++ [BlankLine]) in
  set_wfile (wfile h ++ block :: (if is_head h then [] else [Body page]))
    (set_close_connection true (set_headers_buffer [] h2)).

Lemma send_error_1x (code : Z) (message : string) (h : handler) :
  is_http09 h = false ->
  ((200 <=? code)%Z
   && negb ((code =? 204)%Z || (code =? 205)%Z || (code =? 304)%Z)) = true ->
  Base.send_error P code (Some message) None h
  = (Ok tt, after_error code message h).
Proof.
  intros Hv Hc. unfold Base.send_error, Base.log_error, after_error.
  set (explain := match Base.responses code with
                  | Some (_, d) => d | None => "???" end).
  assert (Ex : forall A (k : string -> string -> A),
             (let (s, l) := match Base.responses code with
                            | Some p => p | None => ("???", "???") end
              in k s l)
             = k (match Base.responses code with
                  | Some (s, _) => s | None => "???" end) explain).
  { intros A k. subst explain.
    destruct (Base.responses code) as [[s l]|]; reflexivity. }
  rewrite Ex. clear Ex.
  fold (error_page code message explain).
  set (page := error_page code message explain).
  cbn [self_log_message self_end_headers CORS.handler_overrides].
  run_by ltac:(apply log_message_run).
  run_by ltac:(apply send_response_1x; exact Hv).
  run_by ltac:(apply send_connection_close_1x; exact Hv).
  rewrite Hc.
  run_by ltac:(
    run_by ltac:(apply send_header_1x; [exact Hv | reflexivity]);
    run_by ltac:(apply send_header_1x; [exact Hv | reflexivity]);
    reflexivity).
  run_by ltac:(apply end_headers_1x; exact Hv).
  rewrite bind_gets.
  assert (Hp : Py.is_empty page = false) by apply error_page_not_empty.
  rewrite Hp. unfold is_head, after_status, after_log. state_fields.
  destruct (command h) as [c|]; [destruct (c =? "HEAD")|];
    cbn [negb andb]; unfold Base.wfile_write_bytes, modify, ret, or_phrase;
    f_equal; apply handler_eq; state_fields;
    rewrite <- ?app_assoc; reflexivity.
Qed.

End Responses.

(** ** From the request to the method *)

Section Methods.
Context (P : platform).
Import Observe.

Lemma not_http09 (h : handler) :
  request_version h <> "HTTP/0.9" -> is_http09 h = false.
Proof. intros H. unfold is_http09. now apply String.eqb_neq. Qed.

(** A request that was read is handed to the method of its name. *)
Lemma handle_accepted (h h1 : handler) :
  Base.read_request P h = (Ok true, h1) ->
  CORS.handle_one_request P h = Base.dispatch P h1.
Proof.
  intros H. unfold CORS.handle_one_request, Base.handle_one_request.
  now rewrite (bind_ok _ _ _ _ _ H).
Qed.

Lemma dispatch_options (h : handler) :
  command h = Some "OPTIONS" -> Base.dispatch P h = CORS.do_OPTIONS P h.
Proof.
  intros H. unfold Base.dispatch. rewrite bind_gets, H. reflexivity.
Qed.

Lemma dispatch_get (h : handler) :
  command h = Some "GET" -> Base.dispatch P h = Simple.do_GET P h.
Proof.
  intros H. unfold Base.dispatch. rewrite bind_gets, H. reflexivity.
Qed.

Lemma dispatch_head (h : handler) :
  command h = Some "HEAD" -> Base.dispatch P h = Simple.do_HEAD P h.
Proof.
  intros H. unfold Base.dispatch. rewrite bind_gets, H. reflexivity.
Qed.

(** Any other name is not a method of the class. *)
Lemma dispatch_other (h : handler) (c : string) :
  command h = Some c -> c <> "GET" -> c <> "HEAD" -> c <> "OPTIONS" ->
  Base.dispatch P h
  = Base.send_error P 501
      (Some ("Unsupported method (" ++ Py.repr c ++ ")")) None h.
Proof.
  intros H Hg Hh Ho. unfold Base.dispatch. rewrite bind_gets, H.
  cbn [self_do CORS.handler_methods]. unfold Simple.lookup.
  apply String.eqb_neq in Hg, Hh, Ho. now rewrite Hg, Hh, Ho.
Qed.

(** [do_OPTIONS], for a request that is not an HTTP/0.9 one. *)
Lemma do_OPTIONS_1x (h : handler) :
  is_http09 h = false ->
  CORS.do_OPTIONS P h
  = (Ok tt,
     set_headers_buffer []
       (set_wfile
          (wfile h
           ++ [Head (headers_buffer (after_status P 200 "OK" h)
                     ++ cors_lines ++ [BlankLine])])
          (after_status P 200 "OK" h))).
Proof.
  intros Hv. unfold CORS.do_OPTIONS.
  run_by ltac:(apply send_response_1x; exact Hv).
  cbn [self_end_headers CORS.handler_overrides].
  rewrite end_headers_1x by exact Hv. reflexivity.
Qed.

End Methods.




(** ** Paths *)

Section Strings.

Lemma append_assoc (a b c : string) : (a ++ b) ++ c = a ++ (b ++ c).
Proof. induction a as [|x a IH]; simpl; [reflexivity | now rewrite IH]. Qed.

Lemma append_nil_r (a : string) : a ++ "" = a.
Proof. induction a as [|x a IH]; simpl; [reflexivity | now rewrite IH]. Qed.

Lemma concat_cons (x : string) (xs : list string) :
  String.concat "" (x :: xs) = x ++ String.concat "" xs.
Proof. destruct xs; simpl; [now rewrite append_nil_r | reflexivity]. Qed.

Lemma ascii_eqb_sym (a b : ascii) : Ascii.eqb a b = Ascii.eqb b a.
Proof.
  destruct (Ascii.eqb_spec a b) as [->|H].
  - now rewrite Ascii.eqb_refl.
  - symmetry. apply Ascii.eqb_neq. congruence.
Qed.

Lemma split_not_nil (c : ascii) (s : string) : Py.split c s <> [].
Proof.
  destruct s as [|d s]; simpl; [discriminate|].
  destruct (Ascii.eqb d c); [discriminate|].
  destruct (Py.split c s); discriminate.
Qed.

(** Splitting at a separator splits the text before it and the text
    after it. *)
Lemma split_app_sep (c : ascii) (a b : string) :
  Py.split c (a ++ String c b) = (Py.split c a ++ Py.split c b)%list.
Proof.
  induction a as [|d a IH]; simpl.
  - now rewrite Ascii.eqb_refl.
  - destruct (Ascii.eqb d c); [now rewrite IH|].
    rewrite IH. destruct (Py.split c a) as [|w ws] eqn:E; [|reflexivity].
    now destruct (split_not_nil c a).
Qed.

Lemma split_no_sep (c : ascii) (w : string) :
  Py.contains c w = false -> Py.split c w = [w].
Proof.
  induction w as [|d w IH]; simpl; [reflexivity|].
  intros H. apply orb_false_elim in H. destruct H as (Hd & Hw).
  rewrite ascii_eqb_sym, Hd. now rewrite (IH Hw).
Qed.

(** The pieces of a split do not hold the separator. *)
Lemma split_pieces (c : ascii) (s : string) :
  Forall (fun w => Py.contains c w = false) (Py.split c s).
Proof.
  induction s as [|d s IH]; simpl.
  - repeat constructor.
  - destruct (Ascii.eqb d c) eqn:E.
    + constructor; [reflexivity | exact IH].
    + destruct (Py.split c s) as [|w ws]; [repeat constructor; simpl|].
      * now rewrite ascii_eqb_sym, E.
      * inversion IH; subst. constructor; [|assumption].
        simpl. rewrite ascii_eqb_sym, E. assumption.
Qed.

Lemma rev_app (s acc : string) : Py.rev s acc = Py.reverse s ++ acc.
Proof.
  unfold Py.reverse. revert acc.
  induction s as [|c s IH]; intros acc; simpl; [reflexivity|].
  rewrite IH. rewrite (IH (String c "")).
  now rewrite append_assoc.
Qed.

Lemma reverse_cons (c : ascii) (s : string) :
  Py.reverse (String c s) = Py.reverse s ++ String c "".
Proof. unfold Py.reverse at 1. simpl. apply rev_app. Qed.

Lemma reverse_app (a b : string) :
  Py.reverse (a ++ b) = Py.reverse b ++ Py.reverse a.
Proof.
  induction a as [|c a IH]; simpl.
  - unfold Py.reverse at 2. simpl. now rewrite append_nil_r.
  - rewrite !reverse_cons, IH. now rewrite append_assoc.
Qed.

Lemma reverse_involutive (s : string) : Py.reverse (Py.reverse s) = s.
Proof.
  induction s as [|c s IH]; [reflexivity|].
  rewrite reverse_cons, reverse_app, IH. reflexivity.
Qed.

(** A text that ends with a slash is a text followed by a slash. *)
Lemma endswith_slash (a : string) :
  Py.endswith a "/" = true -> exists a', a = a' ++ "/".
Proof.
  unfold Py.endswith. change (Py.reverse "/") with "/".
  destruct (Py.reverse a) as [|c r] eqn:E; [discriminate|].
  change (String.prefix "/" (String c r))
    with (if ascii_dec "/" c then String.prefix "" r else false).
  destruct (ascii_dec "/" c) as [<-|]; [|intros; discriminate].
  intros _. exists (Py.reverse r).
  rewrite <- (reverse_involutive a), E. apply reverse_cons.
Qed.

Lemma startswith_slash_false (w : string) :
  Py.contains "/" w = false -> Py.startswith w "/" = false.
Proof.
  unfold Py.startswith. destruct w as [|c w]; [reflexivity|].
  cbn [Py.contains]. intros H. apply orb_false_elim in H. destruct H as (H & _).
  change (String.prefix "/" (String c w))
    with (if ascii_dec "/" c then String.prefix "" w else false).
  destruct (ascii_dec "/" c) as [<-|]; [|reflexivity].
  now rewrite Ascii.eqb_refl in H.
Qed.

End Strings.

Section Resolve.
Import Observe.

Lemma walk_plain (dir : list string) (w : string) :
  plain_name w -> walk_step dir w = (dir ++ [w])%list.
Proof.
  intros (H0 & H1 & H2 & _). unfold walk_step.
  apply String.eqb_neq in H0, H1, H2. now rewrite H0, H1, H2.
Qed.

Lemma resolve_app_sep (a b : string) :
  resolve (a ++ String "/" b)
  = fold_left walk_step (Py.split "/" b) (resolve a).
Proof. unfold resolve. now rewrite split_app_sep, fold_left_app. Qed.

(** A slash at the end of a path does not change where it leads. *)
Lemma resolve_trailing (p : string) : resolve (p ++ "/") = resolve p.
Proof. now rewrite resolve_app_sep. Qed.

(** Joining the name of an entry to a path leads one step down. *)
Lemma resolve_join (a w : string) :
  plain_name w -> resolve (Posixpath.join a w) = (resolve a ++ [w])%list.
Proof.
  intros Hw. pose proof Hw as (_ & _ & _ & Hs).
  assert (Hone : forall dir, fold_left walk_step (Py.split "/" w) dir
                             = (dir ++ [w])%list).
  { intros dir. rewrite (split_no_sep _ _ Hs). simpl. now apply walk_plain. }
  unfold Posixpath.join. rewrite (startswith_slash_false _ Hs).
  destruct (Py.is_empty a) eqn:Ea.
  - destruct a; [|discriminate]. simpl. unfold resolve at 1. apply Hone.
  - cbn [orb]. destruct (Py.endswith a "/") eqn:Ee.
    + destruct (endswith_slash a Ee) as (a' & ->).
      rewrite append_assoc. change ("/" ++ w) with (String "/" w).
      now rewrite resolve_app_sep, Hone, resolve_trailing.
    + change ("/" ++ w) with (String "/" w).
      now rewrite resolve_app_sep, Hone.
Qed.

Lemma confined_root (root : string) : confined root root.
Proof. exists []. split; [now rewrite app_nil_r | constructor]. Qed.

Lemma confined_join (root p w : string) :
  confined root p -> plain_name w -> confined root (Posixpath.join p w).
Proof.
  intros (names & E & F) Hw. exists (names ++ [w])%list. split.
  - now rewrite (resolve_join _ _ Hw), E, app_assoc.
  - apply Forall_app. split; [exact F | constructor; [exact Hw | constructor]].
Qed.

Lemma confined_trailing (root p : string) :
  confined root p -> confined root (p ++ "/").
Proof.
  intros (names & E & F). exists names. now rewrite resolve_trailing.
Qed.

Lemma index_plain : plain_name "index.html" /\ plain_name "index.htm".
Proof. repeat split; discriminate. Qed.

End Resolve.

Section Confinement.
Context (P : platform).
Import Observe.

(** The loop of [translate_path]: every word that is joined is the name
    of an entry. *)
Lemma translate_words (words : list string) (path : string) :
  Forall (fun w => Py.contains "/" w = false /\ w <> "") words ->
  confined (getcwd P) path ->
  confined (getcwd P)
    (fold_left
       (fun path word =>
          if negb (Py.is_empty (Posixpath.dirname word))
             || (word =? ".") || (word =? "..")
          then path
          else Posixpath.join path word)
       words path).
Proof.
  intros Hw. revert path.
  induction Hw as [|w words (Hs & Hn) _ IH]; intros path Hp; simpl.
  - exact Hp.
  - apply IH.
    destruct (negb (Py.is_empty (Posixpath.dirname w))); [exact Hp|].
    cbn [orb]. destruct (w =? ".") eqn:E1; [exact Hp|].
    cbn [orb]. destruct (w =? "..") eqn:E2; [exact Hp|].
    apply confined_join; [exact Hp|].
    apply String.eqb_neq in E1, E2. now repeat split.
Qed.

(** Whatever the path of the request, the path it is translated to leads
    to the serving root or below it. *)
Lemma translate_path_confined (url : string) :
  confined (getcwd P) (Simple.translate_path P url).
Proof.
  unfold Simple.translate_path.
  set (words := filter _ _).
  assert (Hw : Forall (fun w => Py.contains "/" w = false /\ w <> "") words).
  { apply Forall_forall. intros w Hin. subst words.
    apply filter_In in Hin. destruct Hin as (Hin & Hne). split.
    - pose proof (split_pieces "/"
        (Posixpath.normpath
           (Simple.unquote P (fst (Py.split1 "#" (fst (Py.split1 "?" url)))))))
        as Hp.
      rewrite Forall_forall in Hp. now apply Hp.
    - intros ->. discriminate. }
  pose proof (translate_words words (Simple.directory P) Hw
                (confined_root (getcwd P))) as H.
  destruct (Py.endswith _ "/"); [now apply confined_trailing | exact H].
Qed.

End Confinement.

(** ** One request for each connection *)

Section OneRequest.
Context (P : platform).

(** A connection that is to be closed stays so: the protocol of the
    handler is HTTP/1.0, and no header [Connection: keep-alive] is sent. *)
Definition stays_closed (h h' : handler) : Prop :=
  close_connection h = true -> close_connection h' = true.

Lemma stays_closed_refl (h : handler) : stays_closed h h.
Proof. intros H. exact H. Qed.

Lemma stays_closed_trans (a b c : handler) :
  stays_closed a b -> stays_closed b c -> stays_closed a c.
Proof. unfold stays_closed. auto. Qed.

Local Abbreviation closing := (preserves stays_closed).

Create HintDb closing discriminated.

Ltac closing_leaf :=
  first [ assumption
        | solve [auto with closing]
        | match goal with
          | H : _ && false = true |- _ =>
              rewrite andb_false_r in H; discriminate
          | H : _ && false && _ = true |- _ =>
              rewrite andb_false_r in H; discriminate
          | |- preserves _ (modify _) =>
              apply preserves_modify; intros ? Hc; first [exact Hc | reflexivity]
          end ].

Ltac closing :=
  pres_structure stays_closed_refl stays_closed_trans closing_leaf.

Lemma closing_time_now : closing (Base.time_now P).
Proof. intros h H. exact H. Qed.
#[local] Hint Resolve closing_time_now : closing.

Lemma closing_rfile_readline (limit : Z) : closing (Base.rfile_readline limit).
Proof.
  intros h. unfold exec, Base.rfile_readline.
  destruct (Base.readline limit (rfile h)). intros H. exact H.
Qed.
#[local] Hint Resolve closing_rfile_readline : closing.

Lemma closing_send_header (keyword value : string) :
  (Py.lower keyword =? "connection") && (Py.lower value =? "keep-alive") = false ->
  closing (Base.send_header keyword value).
Proof.
  intros Hk. unfold Base.send_header, Base.buffer_append. closing.
  discriminate Hk.
Qed.

#[local] Hint Extern 1 (preserves _ (Base.send_header _ _)) =>
  apply closing_send_header; reflexivity : closing.

Lemma closing_send_response_only (code : Z) (message : option string) :
  closing (Base.send_response_only code message).
Proof. unfold Base.send_response_only, Base.buffer_append. closing. Qed.
#[local] Hint Resolve closing_send_response_only : closing.

Lemma closing_log_message (message : string) :
  closing (CORS.log_message P message).
Proof.
  unfold CORS.log_message, CORS.stdout_write, CORS.stdout_flush. closing.
Qed.
#[local] Hint Resolve closing_log_message : closing.

Lemma closing_end_headers : closing CORS.end_headers.
Proof.
  unfold CORS.end_headers, Base.end_headers, Base.flush_headers,
    Base.buffer_append.
  closing.
Qed.
#[local] Hint Resolve closing_end_headers : closing.

Lemma closing_send_response (code : Z) (message : option string) :
  closing (Base.send_response P code message).
Proof.
  unfold Base.send_response, Base.log_request, Base.date_time_string. closing.
Qed.
#[local] Hint Resolve closing_send_response : closing.

Lemma closing_send_error (code : Z) (message explain : option string) :
  closing (Base.send_error P code message explain).
Proof.
  unfold Base.send_error, Base.log_error, Base.wfile_write_bytes. closing.
Qed.
#[local] Hint Resolve closing_send_error : closing.

Lemma closing_read_headers (fuel : nat) (acc : list string) :
  closing (Base.read_headers fuel acc).
Proof. revert acc. induction fuel as [|fuel IH]; intros acc; simpl; closing. Qed.
#[local] Hint Resolve closing_read_headers : closing.

Lemma closing_read_request : closing (Base.read_request P).
Proof.
  unfold Base.read_request, Base.parse_request, Base.parse_request_headers,
    Base.parse_headers, Base.handle_expect_100.
  change (Base.str_ge Base.protocol_version "HTTP/1.1") with false.
  closing.
Qed.

Lemma closing_list_entries (path : string) (names : list string) :
  closing (Simple.list_entries P path names).
Proof.
  induction names as [|name names IH]; simpl;
    unfold Simple.os_path_isdir, Simple.os_path_islink, Simple.oscall_log;
    closing.
Qed.
#[local] Hint Resolve closing_list_entries : closing.

Lemma closing_send_head : closing (Simple.send_head P).
Proof.
  unfold Simple.send_head, Simple.send_head_file, Simple.list_directory,
    Simple.os_path_isdir, Simple.os_path_isfile, Simple.os_open,
    Simple.os_listdir, Simple.os_fspath, Simple.oscall_log,
    Base.date_time_string, get_path.
  closing.
Qed.

Lemma closing_dispatch : closing (Base.dispatch P).
Proof.
  pose proof closing_send_head as Hs.
  unfold Base.dispatch. apply (preserves_bind _ stays_closed_trans);
    [apply (preserves_gets _ stays_closed_refl) | intros cmd].
  cbn [self_do CORS.handler_methods]. unfold Simple.lookup.
  repeat match goal with
         | |- context [if ?b then _ else _] => destruct b
         end;
    unfold Simple.do_GET, Simple.do_HEAD, Simple.copyfile, CORS.do_OPTIONS,
      Base.wfile_write_bytes;
    closing.
Qed.

Lemma closing_handle_one_request : closing (CORS.handle_one_request P).
Proof.
  pose proof closing_dispatch as Hd. pose proof closing_read_request as Hr.
  unfold CORS.handle_one_request, Base.handle_one_request. closing.
Qed.

(** [handle] is one call of [handle_one_request]: the loop that follows
    it has nothing to do. *)
Lemma handle_is_one_request (h : handler) :
  CORS.handle P h = CORS.handle_one_request P (set_close_connection true h).
Proof.
  unfold CORS.handle, Base.handle. rewrite bind_modify.
  pose proof (closing_handle_one_request (set_close_connection true h) eq_refl)
    as Hc.
  unfold exec, CORS.handle_one_request in Hc. unfold CORS.handle_one_request.
  unfold bind at 1.
  destruct (Base.handle_one_request P (set_close_connection true h))
    as [[[]|e] h1]; [|reflexivity].
  rewrite bind_gets. cbn [snd] in Hc.
  destruct (String.length (rfile h1)); cbn [Base.handle_more]; [reflexivity|].
  rewrite bind_gets, Hc. reflexivity.
Qed.

End OneRequest.

(** What a connection adds to the state of the server is what one call
    of [handle_one_request] writes, logs and looks up. *)
Lemma connection_is_one_request
  (P : platform) (client_bytes : string) (p : Main.process) :
  Main.state p = Main.Serving ->
  let q := Main.step P p (Main.Connection client_bytes) in
  let h := exec (CORS.handle_one_request P) (Main.new_handler client_bytes p) in
  Main.sent q = (Main.sent p ++ [wfile h])%list
  /\ Main.out q = stdout h
  /\ Main.syscalls q = oscalls h.
Proof.
  intros Hs q h. subst q h. unfold Main.step. rewrite Hs.
  unfold Main.handle_request. rewrite handle_is_one_request.
  change (set_close_connection true (Main.new_handler client_bytes p))
    with (Main.new_handler client_bytes p).
  unfold exec.
  destruct (CORS.handle_one_request P (Main.new_handler client_bytes p)) as [r h].
  repeat split.
Qed.

(** ** Code that does not look at the file system *)

Section Quiet.
Context (P : platform).

Definition same_calls (h h' : handler) : Prop := oscalls h' = oscalls h.

Lemma same_calls_refl (h : handler) : same_calls h h.
Proof. reflexivity. Qed.

Lemma same_calls_trans (a b c : handler) :
  same_calls a b -> same_calls b c -> same_calls a c.
Proof. unfold same_calls. congruence. Qed.

Local Abbreviation quiet := (preserves same_calls).

Create HintDb quiet discriminated.

Ltac quiet_leaf :=
  first [ assumption
        | solve [auto with quiet]
        | match goal with
          | |- preserves _ (modify _) =>
              apply preserves_modify; intros; reflexivity
          end ].

Ltac quiet := pres_structure same_calls_refl same_calls_trans quiet_leaf.

Lemma quiet_time_now : quiet (Base.time_now P).
Proof. intros h. reflexivity. Qed.
#[local] Hint Resolve quiet_time_now : quiet.

Lemma quiet_send_header (keyword value : string) :
  quiet (Base.send_header keyword value).
Proof. unfold Base.send_header, Base.buffer_append. quiet. Qed.
#[local] Hint Resolve quiet_send_header : quiet.

Lemma quiet_send_response_only (code : Z) (message : option string) :
  quiet (Base.send_response_only code message).
Proof. unfold Base.send_response_only, Base.buffer_append. quiet. Qed.
#[local] Hint Resolve quiet_send_response_only : quiet.

Lemma quiet_log_message (message : string) : quiet (CORS.log_message P message).
Proof.
  unfold CORS.log_message, CORS.stdout_write, CORS.stdout_flush. quiet.
Qed.
#[local] Hint Resolve quiet_log_message : quiet.

Lemma quiet_end_headers : quiet CORS.end_headers.
Proof.
  unfold CORS.end_headers, Base.end_headers, Base.flush_headers,
    Base.buffer_append.
  quiet.
Qed.
#[local] Hint Resolve quiet_end_headers : quiet.

Lemma quiet_send_response (code : Z) (message : option string) :
  quiet (Base.send_response P code message).
Proof.
  unfold Base.send_response, Base.log_request, Base.date_time_string. quiet.
Qed.
#[local] Hint Resolve quiet_send_response : quiet.

Lemma quiet_send_error (code : Z) (message explain : option string) :
  quiet (Base.send_error P code message explain).
Proof.
  unfold Base.send_error, Base.log_error, Base.wfile_write_bytes. quiet.
Qed.

#[local] Hint Resolve quiet_send_error : quiet.

Lemma quiet_do_OPTIONS : quiet (CORS.do_OPTIONS P).
Proof. unfold CORS.do_OPTIONS. quiet. Qed.

Lemma quiet_rfile_readline (limit : Z) : quiet (Base.rfile_readline limit).
Proof.
  intros h. unfold exec, Base.rfile_readline.
  now destruct (Base.readline limit (rfile h)).
Qed.
#[local] Hint Resolve quiet_rfile_readline : quiet.

Lemma quiet_read_headers (fuel : nat) (acc : list string) :
  quiet (Base.read_headers fuel acc).
Proof. revert acc. induction fuel as [|fuel IH]; intros acc; simpl; quiet. Qed.
#[local] Hint Resolve quiet_read_headers : quiet.

Lemma quiet_fspath (p : string) : quiet (Simple.os_fspath P p).
Proof. unfold Simple.os_fspath. quiet. Qed.
#[local] Hint Resolve quiet_fspath : quiet.

Lemma quiet_read_request : quiet (Base.read_request P).
Proof.
  unfold Base.read_request, Base.parse_request, Base.parse_request_headers,
    Base.parse_headers, Base.handle_expect_100.
  quiet.
Qed.

(** What is looked up in the file system leads to the serving root or
    below it. *)
Definition confined_call (c : oscall) : Prop :=
  Observe.confined (getcwd P) (Observe.oscall_path c).

Definition calls_ok (h h' : handler) : Prop :=
  exists cs, oscalls h' = (oscalls h ++ cs)%list /\ Forall confined_call cs.

Lemma calls_ok_refl (h : handler) : calls_ok h h.
Proof. exists []. split; [now rewrite app_nil_r | constructor]. Qed.

Lemma calls_ok_trans (a b c : handler) :
  calls_ok a b -> calls_ok b c -> calls_ok a c.
Proof.
  intros (cs1 & E1 & F1) (cs2 & E2 & F2). exists (cs1 ++ cs2)%list. split.
  - rewrite E2, E1. now rewrite app_assoc.
  - apply Forall_app. now split.
Qed.

Lemma quiet_calls_ok {A} (m : M A) : quiet m -> preserves calls_ok m.
Proof.
  intros H h. exists []. split; [|constructor].
  rewrite app_nil_r. apply H.
Qed.

Local Abbreviation tame := (preserves calls_ok).

Create HintDb tame discriminated.

Ltac tame_leaf :=
  first [ assumption
        | solve [auto with tame]
        | solve [apply quiet_calls_ok; auto with quiet]
        | match goal with
          | |- preserves _ (modify _) =>
              apply preserves_modify; intros; apply calls_ok_refl
          end ].

Ltac tame := pres_structure calls_ok_refl calls_ok_trans tame_leaf.

Lemma tame_oscall_log (c : oscall) :
  confined_call c -> tame (Simple.oscall_log c).
Proof.
  intros Hc h. exists [c]. split; [reflexivity | now repeat constructor].
Qed.

Lemma tame_isdir (p : string) :
  Observe.confined (getcwd P) p -> tame (Simple.os_path_isdir P p).
Proof. intros Hp. unfold Simple.os_path_isdir. tame. now apply tame_oscall_log. Qed.

Lemma tame_isfile (p : string) :
  Observe.confined (getcwd P) p -> tame (Simple.os_path_isfile P p).
Proof. intros Hp. unfold Simple.os_path_isfile. tame. now apply tame_oscall_log. Qed.

Lemma tame_islink (p : string) :
  Observe.confined (getcwd P) p -> tame (Simple.os_path_islink P p).
Proof. intros Hp. unfold Simple.os_path_islink. tame. now apply tame_oscall_log. Qed.

Lemma tame_open (p : string) :
  Observe.confined (getcwd P) p -> tame (Simple.os_open P p).
Proof. intros Hp. unfold Simple.os_open. tame. all: now apply tame_oscall_log. Qed.

Lemma tame_listdir (p : string) :
  Observe.confined (getcwd P) p -> tame (Simple.os_listdir P p).
Proof. intros Hp. unfold Simple.os_listdir. tame. all: now apply tame_oscall_log. Qed.

(** The names of a listing, sorted, are the names of the listing. *)
Lemma insert_name_Forall (Q : string -> Prop) (a : string) (l : list string) :
  Q a -> Forall Q l -> Forall Q (Simple.insert_name a l).
Proof.
  intros Ha Hl. induction Hl as [|b l Hb Hl IH]; simpl.
  - now repeat constructor.
  - destruct (String.leb (Py.lower a) (Py.lower b)); now repeat constructor.
Qed.

Lemma sort_names_Forall (Q : string -> Prop) (l : list string) :
  Forall Q l -> Forall Q (Simple.sort_names l).
Proof.
  intros Hl. induction Hl as [|a l Ha Hl IH]; simpl; [constructor|].
  now apply insert_name_Forall.
Qed.

Lemma tame_list_entries (p : string) (names : list string) :
  Observe.confined (getcwd P) p -> Forall Observe.plain_name names ->
  tame (Simple.list_entries P p names).
Proof.
  intros Hp Hn. induction Hn as [|name names Hname Hn IH]; simpl; tame.
  - apply tame_isdir. now apply confined_join.
  - apply tame_islink. now apply confined_join.
Qed.

(** What [os.listdir] returns comes from the directory. *)
Lemma os_listdir_names (p : string) (h h' : handler) (names : list string) :
  Simple.os_listdir P p h = (Ok (Some names), h') ->
  exists listable, fs P p = Directory names listable.
Proof.
  unfold Simple.os_listdir, Simple.os_fspath, Simple.oscall_log.
  rewrite bind_modify.
  destruct (negb (fsencodable P p)); [discriminate|].
  destruct (Simple.has_nul p); [discriminate|].
  rewrite bind_ret.
  destruct (fs P p) as [| |ns [|]]; try discriminate.
  intros E. inversion E. now exists true.
Qed.

Lemma tame_send_head_file (p : string) :
  Observe.confined (getcwd P) p -> tame (Simple.send_head_file P p).
Proof.
  intros Hp. unfold Simple.send_head_file, Base.date_time_string.
  tame. all: now apply tame_open.
Qed.

Hypothesis listings : Observe.plain_listings P.

Lemma tame_list_directory (p : string) :
  Observe.confined (getcwd P) p -> tame (Simple.list_directory P p).
Proof.
  intros Hp h. unfold Simple.list_directory, exec, bind at 1.
  pose proof (tame_listdir p Hp h) as H1. unfold exec in H1.
  destruct (Simple.os_listdir P p h) as [[[names|]|e] h1] eqn:E;
    cbn [snd] in H1 |- *; [| |exact H1].
  - destruct (os_listdir_names _ _ _ _ E) as (listable & Ef).
    apply (calls_ok_trans _ _ _ H1).
    assert (T : tame (Simple.list_entries P p (Simple.sort_names names))).
    { apply tame_list_entries; [exact Hp|].
      apply sort_names_Forall. exact (listings _ _ _ Ef). }
    cbv beta iota.
    lazymatch goal with
    | |- calls_ok ?a (snd (?m ?a)) =>
        let T2 := fresh "T" in assert (T2 : tame m); [| exact (T2 a)]
    end.
    unfold get_path. tame.
  - apply (calls_ok_trans _ _ _ H1).
    cbv beta iota.
    lazymatch goal with
    | |- calls_ok ?a (snd (?m ?a)) =>
        let T2 := fresh "T" in assert (T2 : tame m); [| exact (T2 a)]
    end.
    tame.
Qed.

Lemma tame_send_head : tame (Simple.send_head P).
Proof.
  pose proof (translate_path_confined P) as Ht.
  pose proof index_plain as (H1 & H2).
  unfold Simple.send_head, get_path. tame.
  all: first [ apply tame_isdir | apply tame_isfile | apply tame_send_head_file
             | apply tame_list_directory ];
    first [ apply Ht | apply confined_join; [apply Ht | assumption] ].
Qed.

Lemma tame_dispatch : tame (Base.dispatch P).
Proof.
  pose proof tame_send_head as Hs.
  unfold Base.dispatch. apply (preserves_bind _ calls_ok_trans);
    [apply (preserves_gets _ calls_ok_refl) | intros cmd].
  cbn [self_do CORS.handler_methods]. unfold Simple.lookup.
  repeat match goal with
         | |- context [if ?b then _ else _] => destruct b
         end;
    unfold Simple.do_GET, Simple.do_HEAD, Simple.copyfile, CORS.do_OPTIONS,
      Base.wfile_write_bytes;
    tame.
Qed.

Lemma tame_handle_one_request : tame (CORS.handle_one_request P).
Proof.
  pose proof tame_dispatch as Hd. pose proof quiet_read_request as Hr.
  unfold CORS.handle_one_request, Base.handle_one_request. tame.
Qed.

End Quiet.




(** ** Serving a file *)

Section Files.
Context (P : platform).
Import Observe.

(** The state after calls to the operating system. *)
Definition with_calls (cs : list oscall) (h : handler) : handler :=
  set_oscalls (oscalls h ++ cs) h.

Lemma with_calls_nil (h : handler) : with_calls [] h = h.
Proof.
  apply handler_eq; unfold with_calls; state_fields; try reflexivity.
  apply app_nil_r.
Qed.

Lemma with_calls_app (cs cs' : list oscall) (h : handler) :
  with_calls cs' (with_calls cs h) = with_calls (cs ++ cs') h.
Proof.
  apply handler_eq; unfold with_calls; state_fields; try reflexivity.
  now rewrite app_assoc.
Qed.

Lemma os_path_isdir_run (p : string) (h : handler) :
  Simple.os_path_isdir P p h
  = (Ok (negb (Simple.refused P p)
         && match fs P p with Directory _ _ => true | _ => false end),
     with_calls [IsDir p] h).
Proof. reflexivity. Qed.

Lemma os_fspath_run (p : string) (h : handler) :
  Simple.refused P p = false -> Simple.os_fspath P p h = (Ok tt, h).
Proof.
  unfold Simple.refused, Simple.os_fspath. intros H.
  apply orb_false_elim in H. destruct H as (He & Hn).
  now rewrite He, Hn.
Qed.

Lemma os_open_run (p : string) (h : handler) :
  Simple.refused P p = false ->
  Simple.os_open P p h
  = (Ok match fs P p with
        | RegularFile content mtime true => Some (content, mtime)
        | _ => None
        end,
     with_calls [Open p] h).
Proof.
  intros Hn. unfold Simple.os_open, Simple.oscall_log. rewrite bind_modify.
  rewrite (bind_ok _ _ _ _ _ (os_fspath_run p _ Hn)).
  destruct (fs P p) as [|c m [|]|]; reflexivity.
Qed.

Lemma not_found (h : handler) :
  is_http09 h = false ->
  Base.send_error P 404 (Some "File not found") None h
  = (Ok tt, after_error P 404 "File not found" h).
Proof. intros Hv. now apply send_error_1x. Qed.

(** No file to read: the answer is the 404 page. *)
Lemma send_head_file_missing (p : string) (h : handler) :
  is_http09 h = false ->
  no_file P p ->
  exists cs, Simple.send_head_file P p h
             = (Ok None, after_error P 404 "File not found" (with_calls cs h)).
Proof.
  intros Hv (Hn & Hf). unfold Simple.send_head_file.
  destruct (Py.endswith p "/").
  - exists []. rewrite with_calls_nil.
    now run_by ltac:(apply not_found; exact Hv).
  - exists [Open p].
    run_by ltac:(apply os_open_run; exact Hn).
    assert (E : match fs P p with
                | RegularFile content mtime true => Some (content, mtime)
                | _ => None
                end = None).
    { destruct Hf as [E|(c & m & E)]; now rewrite E. }
    rewrite E.
    now run_by ltac:(apply not_found; exact Hv).
Qed.

Lemma isdir_false (p : string) :
  (forall names listable, fs P p <> Directory names listable) ->
  negb (Simple.refused P p)
  && match fs P p with Directory _ _ => true | _ => false end = false.
Proof.
  intros H. destruct (fs P p) as [| | names listable];
    [apply andb_false_r | apply andb_false_r | now destruct (H names listable)].
Qed.

Lemma send_head_missing (h : handler) :
  is_http09 h = false ->
  no_file P (Simple.translate_path P (path h)) ->
  exists cs, Simple.send_head P h
             = (Ok None, after_error P 404 "File not found" (with_calls cs h)).
Proof.
  intros Hv Hf. unfold Simple.send_head, get_path. rewrite bind_gets.
  set (p := Simple.translate_path P (path h)) in *.
  run_by ltac:(apply os_path_isdir_run).
  rewrite isdir_false.
  - destruct (send_head_file_missing p (with_calls [IsDir p] h) Hv Hf)
      as (cs & E).
    exists ([IsDir p] ++ cs)%list. rewrite E. now rewrite with_calls_app.
  - destruct Hf as (_ & [E|(c & m & E)]); intros ? ?; rewrite E; discriminate.
Qed.

(** A file to read, and no [If-Modified-Since] that holds: status 200,
    the headers of the file, and the file to copy. *)
Definition after_file (p content : string) (mtime : Z) (h : handler)
  : handler :=
  let h1 := after_status P 200 "OK" (with_calls [Open p] h) in
  set_headers_buffer []
    (set_wfile
       (wfile h
        ++ [Head (headers_buffer h1
                  ++ [ HeaderLine "Content-type" (guess_type P p);
                       HeaderLine "Content-Length"
                                  (Py.str_int (Py.len content));
                       HeaderLine "Last-Modified" (formatdate P mtime) ]
                  ++ cors_lines ++ [BlankLine])])
       h1).

Lemma send_head_file_found (p content : string) (mtime : Z) (h : handler) :
  is_http09 h = false ->
  names_file P p content mtime ->
  Simple.not_modified P (headers h) mtime = false ->
  Simple.send_head_file P p h
  = (Ok (Some content), after_file p content mtime h).
Proof.
  intros Hv (Hn & He & Hf) Hm. unfold Simple.send_head_file.
  rewrite He.
  run_by ltac:(apply os_open_run; exact Hn).
  rewrite Hf. rewrite bind_gets.
  change (headers (with_calls [Open p] h)) with (headers h). rewrite Hm.
  run_by ltac:(apply send_response_1x; exact Hv).
  run_by ltac:(apply send_header_1x; [exact Hv | reflexivity]).
  run_by ltac:(apply send_header_1x; [exact Hv | reflexivity]).
  unfold Base.date_time_string. rewrite bind_ret.
  run_by ltac:(apply send_header_1x; [exact Hv | reflexivity]).
  cbn [self_end_headers CORS.handler_overrides].
  run_by ltac:(apply end_headers_1x; exact Hv).
  unfold ret, after_file, or_phrase. f_equal.
  apply handler_eq; unfold after_status, after_log, with_calls; state_fields;
    rewrite <- ?app_assoc; reflexivity.
Qed.

Lemma send_head_found (content : string) (mtime : Z) (h : handler) :
  is_http09 h = false ->
  names_file P (Simple.translate_path P (path h)) content mtime ->
  Simple.not_modified P (headers h) mtime = false ->
  Simple.send_head P h
  = (Ok (Some content),
     after_file (Simple.translate_path P (path h)) content mtime
       (with_calls [IsDir (Simple.translate_path P (path h))] h)).
Proof.
  intros Hv Hf Hm. unfold Simple.send_head, get_path. rewrite bind_gets.
  set (p := Simple.translate_path P (path h)) in *.
  run_by ltac:(apply os_path_isdir_run).
  rewrite isdir_false.
  - now apply send_head_file_found.
  - destruct Hf as (_ & _ & E). intros ? ?. rewrite E. discriminate.
Qed.

End Files.

(** ** From the calls of a method to the method

    What the calls that build a response preserve, the methods preserve,
    and so does the answer to a request. *)

(** The end of [send_error]: the page is written unless the method is
    [HEAD]. *)
Definition write_error_body (body : option string) : M unit :=
  cmd <- gets command ;;
  match body with
  | Some b =>
      if negb (match cmd with Some c => c =? "HEAD" | None => false end)
         && negb (Py.is_empty b)
      then Base.wfile_write_bytes (Body b)
      else ret tt
  | None => ret tt
  end.

(** A relation on states that the calls of the methods preserve. *)
Record response_calls (P : platform) (R : handler -> handler -> Prop)
  : Prop := {
  rc_refl : forall h, R h h;
  rc_trans : forall a b c, R a b -> R b c -> R a c;
  rc_time_now : preserves R (Base.time_now P);
  rc_send_header : forall keyword value,
    (Py.lower keyword =? "connection") = false ->
    preserves R (Base.send_header keyword value);
  rc_connection_close : preserves R (Base.send_header "Connection" "close");
  rc_send_response_only : forall code message,
    preserves R (Base.send_response_only code message);
  rc_log_message : forall message, preserves R (CORS.log_message P message);
  rc_end_headers : preserves R CORS.end_headers;
  rc_error_body : forall body, preserves R (write_error_body body);
  rc_oscall : forall c, preserves R (Simple.oscall_log c)
}.

(** The changes of state that reading a request makes. *)
Inductive sets_attribute : (handler -> handler) -> Prop :=
| sets_raw_requestline v : sets_attribute (set_raw_requestline v)
| sets_requestline v : sets_attribute (set_requestline v)
| sets_request_version v : sets_attribute (set_request_version v)
| sets_command v : sets_attribute (set_command v)
| sets_path v : sets_attribute (set_path v)
| sets_headers v : sets_attribute (set_headers v)
| sets_close_connection : sets_attribute (set_close_connection true).

Record request_calls (P : platform) (R : handler -> handler -> Prop)
  : Prop := {
  rq_response : response_calls P R;
  rq_copyfile : forall data, preserves R (Simple.copyfile data);
  rq_readline : forall limit, preserves R (Base.rfile_readline limit);
  rq_attribute : forall f, sets_attribute f -> preserves R (modify f)
}.

Section Response.
Context (P : platform) (R : handler -> handler -> Prop).
Hypothesis calls : response_calls P R.

Ltac by_hypothesis c :=
  lazymatch goal with H : context [c] |- _ => apply H end.

Ltac response_leaf :=
  idtac;
  lazymatch goal with
  | H : preserves R ?m |- preserves R ?m => exact H
  | |- preserves _ (Base.time_now _) => apply (rc_time_now _ _ calls)
  | |- preserves _ (Base.send_header "Connection" "close") =>
      apply (rc_connection_close _ _ calls)
  | |- preserves _ (Base.send_header _ _) =>
      apply (rc_send_header _ _ calls); reflexivity
  | |- preserves _ (Base.send_response_only _ _) =>
      apply (rc_send_response_only _ _ calls)
  | |- preserves _ (CORS.log_message _ _) => apply (rc_log_message _ _ calls)
  | |- preserves _ CORS.end_headers => apply (rc_end_headers _ _ calls)
  | |- preserves _ (write_error_body _) => apply (rc_error_body _ _ calls)
  | |- preserves _ (Simple.copyfile _) => by_hypothesis Simple.copyfile
  | |- preserves _ (Simple.oscall_log _) => apply (rc_oscall _ _ calls)
  | |- preserves _ (Base.send_response _ _ _) =>
      by_hypothesis Base.send_response
  | |- preserves _ (Base.send_error _ _ _ _) => by_hypothesis Base.send_error
  | |- preserves _ (Simple.os_path_isdir _ _) =>
      by_hypothesis Simple.os_path_isdir
  | |- preserves _ (Simple.os_path_isfile _ _) =>
      by_hypothesis Simple.os_path_isfile
  | |- preserves _ (Simple.os_path_islink _ _) =>
      by_hypothesis Simple.os_path_islink
  | |- preserves _ (Simple.os_fspath _ _) => by_hypothesis Simple.os_fspath
  | |- preserves _ (Simple.os_open _ _) => by_hypothesis Simple.os_open
  | |- preserves _ (Simple.os_listdir _ _) => by_hypothesis Simple.os_listdir
  | |- preserves _ (Simple.list_entries _ _ _) =>
      by_hypothesis Simple.list_entries
  | |- preserves _ (Simple.send_head_file _ _) =>
      by_hypothesis Simple.send_head_file
  | |- preserves _ (Simple.list_directory _ _) =>
      by_hypothesis Simple.list_directory
  end.

Ltac response :=
  pres_structure (rc_refl _ _ calls) (rc_trans _ _ calls) response_leaf.

Lemma response_send_response (code : Z) (message : option string) :
  preserves R (Base.send_response P code message).
Proof.
  unfold Base.send_response, Base.log_request, Base.date_time_string.
  response.
Qed.

Lemma response_send_error (code : Z) (message explain : option string) :
  preserves R (Base.send_error P code message explain).
Proof.
  pose proof response_send_response as Hs.
  unfold Base.send_error, Base.log_error.
  destruct (match Base.responses code with
            | Some p => p | None => ("???", "???") end) as [shortmsg longmsg].
  do 5 (lazymatch goal with
        | |- preserves _ (bind ?m ?k) =>
            apply (preserves_bind R (rc_trans _ _ calls) m k);
            [response | intros]
        end).
  apply (rc_error_body _ _ calls).
Qed.

(** The calls to the operating system leave a trace and nothing else. *)
Lemma response_isdir (p : string) : preserves R (Simple.os_path_isdir P p).
Proof. unfold Simple.os_path_isdir. response. Qed.

Lemma response_isfile (p : string) : preserves R (Simple.os_path_isfile P p).
Proof. unfold Simple.os_path_isfile. response. Qed.

Lemma response_islink (p : string) : preserves R (Simple.os_path_islink P p).
Proof. unfold Simple.os_path_islink. response. Qed.

Lemma response_fspath (p : string) : preserves R (Simple.os_fspath P p).
Proof. unfold Simple.os_fspath. response. Qed.

Lemma response_open (p : string) : preserves R (Simple.os_open P p).
Proof. pose proof response_fspath as Hf. unfold Simple.os_open. response. Qed.

Lemma response_listdir (p : string) : preserves R (Simple.os_listdir P p).
Proof.
  pose proof response_fspath as Hf. unfold Simple.os_listdir. response.
Qed.

Lemma response_list_entries (path : string) (names : list string) :
  preserves R (Simple.list_entries P path names).
Proof.
  pose proof response_isdir as H1. pose proof response_islink as H2.
  induction names as [|name names IH]; simpl; response.
Qed.

Lemma response_send_head_file (path : string) :
  preserves R (Simple.send_head_file P path).
Proof.
  pose proof response_send_response as Hs.
  pose proof response_send_error as He.
  pose proof response_open as H3.
  unfold Simple.send_head_file, Base.date_time_string.
  response.
Qed.

Lemma response_list_directory (path : string) :
  preserves R (Simple.list_directory P path).
Proof.
  pose proof response_send_response as Hs.
  pose proof response_send_error as He.
  pose proof response_listdir as H4.
  pose proof response_list_entries as H5.
  unfold Simple.list_directory, get_path.
  response.
Qed.

Lemma response_send_head : preserves R (Simple.send_head P).
Proof.
  pose proof response_send_response as Hs.
  pose proof response_isdir as H1. pose proof response_isfile as H2.
  pose proof response_send_head_file as H3.
  pose proof response_list_directory as H4.
  unfold Simple.send_head, get_path.
  response.
Qed.

Lemma response_do_OPTIONS : preserves R (CORS.do_OPTIONS P).
Proof.
  pose proof response_send_response as Hs.
  unfold CORS.do_OPTIONS. response.
Qed.

(** Whatever the method named in the request. *)
Lemma response_dispatch :
  (forall data, preserves R (Simple.copyfile data)) ->
  preserves R (Base.dispatch P).
Proof.
  intros Hc.
  pose proof response_send_head as Hs.
  pose proof response_send_error as He.
  pose proof response_do_OPTIONS as Ho.
  unfold Base.dispatch. apply (preserves_bind _ (rc_trans _ _ calls));
    [apply (preserves_gets _ (rc_refl _ _ calls)) | intros cmd].
  cbn [self_do CORS.handler_methods]. unfold Simple.lookup.
  repeat match goal with
         | |- context [if ?b then _ else _] => destruct b
         end;
    unfold Simple.do_GET, Simple.do_HEAD; response.
Qed.

End Response.

Section Request.
Context (P : platform) (R : handler -> handler -> Prop).
Hypothesis calls : request_calls P R.

Let R_refl := rc_refl _ _ (rq_response _ _ calls).
Let R_trans := rc_trans _ _ (rq_response _ _ calls).

Ltac request_leaf :=
  idtac;
  lazymatch goal with
  | H : preserves R ?m |- preserves R ?m => exact H
  | H : _ && false = true |- _ => rewrite andb_false_r in H; discriminate H
  | H : _ && false && _ = true |- _ =>
      rewrite andb_false_r in H; discriminate H
  | |- preserves _ (Base.rfile_readline _) => apply (rq_readline _ _ calls)
  | |- preserves _ (modify _) =>
      apply (rq_attribute _ _ calls); constructor
  | |- preserves _ (Base.send_error _ _ _ _) =>
      apply (response_send_error _ _ (rq_response _ _ calls))
  | |- preserves _ (Base.read_headers _ _) =>
      lazymatch goal with H : context [Base.read_headers] |- _ => apply H end
  | |- preserves _ (Base.dispatch _) =>
      apply (response_dispatch _ _ (rq_response _ _ calls)
               (rq_copyfile _ _ calls))
  | |- preserves _ (Base.handle_more _ _) =>
      lazymatch goal with H : context [Base.handle_more] |- _ => apply H end
  end.

Ltac request := pres_structure R_refl R_trans request_leaf.

Lemma request_read_headers (fuel : nat) (acc : list string) :
  preserves R (Base.read_headers fuel acc).
Proof. revert acc. induction fuel as [|fuel IH]; intros acc; simpl; request. Qed.

Lemma request_read_request : preserves R (Base.read_request P).
Proof.
  pose proof request_read_headers as Hh.
  unfold Base.read_request, Base.parse_request, Base.parse_request_headers,
    Base.parse_headers, Base.handle_expect_100.
  change (Base.str_ge Base.protocol_version "HTTP/1.1") with false.
  request.
Qed.

(** The answer to a request, and to a connection. *)
Lemma request_handle_one_request : preserves R (CORS.handle_one_request P).
Proof.
  pose proof request_read_request as Hr.
  unfold CORS.handle_one_request, Base.handle_one_request. request.
Qed.

Lemma request_handle : preserves R (CORS.handle P).
Proof.
  pose proof request_handle_one_request as H1.
  unfold CORS.handle_one_request in H1.
  unfold CORS.handle, Base.handle.
  assert (Hmore : forall n, preserves R (Base.handle_more P n)).
  { induction n as [|n IH]; simpl; request. }
  request.
Qed.

End Request.

(** ** The answers to the methods *)

Section Answers.
Context (P : platform).
Import Observe.

Lemma fresh_accepted (client_bytes : string) (p : Main.process) (h1 : handler) :
  CORS.read_request P (Main.new_handler client_bytes p) = (Ok true, h1) ->
  wfile h1 = [] /\ headers_buffer h1 = [] /\ stdout h1 = Main.out p
  /\ clock h1 = Main.ticks p /\ oscalls h1 = Main.syscalls p.
Proof.
  intros Hr. destruct (read_request_accepts P _ _ Hr) as (H & _). exact H.
Qed.

(** The answer that [send_error] writes starts with the status line. *)
Lemma status_after_error (code : Z) (message : string) (h : handler) :
  wfile h = [] -> headers_buffer h = [] ->
  status (wfile (after_error P code message h)) = Some code.
Proof.
  intros Ew Eb. unfold after_error, after_status, after_log. state_fields.
  rewrite Ew, Eb. reflexivity.
Qed.

Lemma body_after_error (code : Z) (message : string) (h : handler) :
  wfile h = [] ->
  body (wfile (after_error P code message h))
  = if is_head h then ""
    else error_page code message
           match Base.responses code with Some (_, d) => d | None => "???" end.
Proof.
  intros Ew. unfold after_error. state_fields. rewrite Ew.
  destruct (is_head h); reflexivity.
Qed.

Lemma do_GET_missing (h : handler) :
  is_http09 h = false ->
  no_file P (Simple.translate_path P (path h)) ->
  exists cs, Simple.do_GET P h
             = (Ok tt, after_error P 404 "File not found" (with_calls cs h)).
Proof.
  intros Hv Hf. destruct (send_head_missing P h Hv Hf) as (cs & E).
  exists cs. unfold Simple.do_GET. now rewrite (bind_ok _ _ _ _ _ E).
Qed.

Lemma do_HEAD_missing (h : handler) :
  is_http09 h = false ->
  no_file P (Simple.translate_path P (path h)) ->
  exists cs, Simple.do_HEAD P h
             = (Ok tt, after_error P 404 "File not found" (with_calls cs h)).
Proof.
  intros Hv Hf. destruct (send_head_missing P h Hv Hf) as (cs & E).
  exists cs. unfold Simple.do_HEAD. now rewrite (bind_ok _ _ _ _ _ E).
Qed.

Lemma do_GET_found (content : string) (mtime : Z) (h : handler) :
  is_http09 h = false ->
  names_file P (Simple.translate_path P (path h)) content mtime ->
  Simple.not_modified P (headers h) mtime = false ->
  let p := Simple.translate_path P (path h) in
  let h1 := after_file P p content mtime (with_calls [IsDir p] h) in
  Simple.do_GET P h
  = (Ok tt, if Py.is_empty content then h1
            else set_wfile (wfile h1 ++ [Body content]) h1).
Proof.
  intros Hv Hf Hm p h1. unfold Simple.do_GET.
  rewrite (bind_ok _ _ _ _ _ (send_head_found P content mtime h Hv Hf Hm)).
  unfold Simple.copyfile. fold p. fold h1.
  destruct (Py.is_empty content); reflexivity.
Qed.

End Answers.

Section FileAnswers.
Context (P : platform).
Import Observe.

(** The calls to the operating system are recorded in the order they are
    made: code only adds to them. *)
Definition more_calls (h h' : handler) : Prop :=
  exists cs, oscalls h' = (oscalls h ++ cs)%list.

Lemma more_calls_refl (h : handler) : more_calls h h.
Proof. exists []. now rewrite app_nil_r. Qed.

Lemma more_calls_trans (a b c : handler) :
  more_calls a b -> more_calls b c -> more_calls a c.
Proof.
  intros (cs1 & E1) (cs2 & E2). exists (cs1 ++ cs2)%list.
  rewrite E2, E1. now rewrite app_assoc.
Qed.

Lemma more_calls_quiet {A} (m : M A) :
  preserves same_calls m -> preserves more_calls m.
Proof. intros H h. exists []. rewrite app_nil_r. apply H. Qed.

Lemma more_calls_response_calls : response_calls P more_calls.
Proof.
  constructor.
  - apply more_calls_refl.
  - apply more_calls_trans.
  - apply more_calls_quiet, quiet_time_now.
  - intros. apply more_calls_quiet, (quiet_send_header P).
  - apply more_calls_quiet, (quiet_send_header P).
  - intros. apply more_calls_quiet, (quiet_send_response_only P).
  - intros. apply more_calls_quiet, quiet_log_message.
  - apply more_calls_quiet, (quiet_end_headers P).
  - intros body. apply more_calls_quiet.
    unfold write_error_body, Base.wfile_write_bytes.
    pres_structure same_calls_refl same_calls_trans
      ltac:(apply preserves_modify; intros; reflexivity).
  - intros c h. now exists [c].
Qed.

(** File serving starts by asking the operating system what the
    translated path of the request is. *)
Lemma send_head_first_call (h : handler) :
  exists cs,
    oscalls (exec (Simple.send_head P) h)
    = (oscalls h ++ IsDir (Simple.translate_path P (path h)) :: cs)%list.
Proof.
  pose proof more_calls_response_calls as C.
  unfold Simple.send_head, get_path.
  unfold exec. rewrite bind_gets.
  rewrite (bind_ok _ _ _ _ _ (os_path_isdir_run P _ h)).
  lazymatch goal with
  | |- exists cs, oscalls (snd (?m ?h1)) = _ =>
      assert (T : preserves more_calls m)
  end.
  { pres_structure more_calls_refl more_calls_trans
      ltac:(first [ apply (response_send_head_file P _ C)
                  | apply (response_list_directory P _ C)
                  | apply (response_isfile P _ C)
                  | apply (response_send_response P _ C)
                  | apply (rc_send_header _ _ C); reflexivity
                  | apply (rc_end_headers _ _ C) ]). }
  lazymatch goal with
  | |- exists cs, oscalls (snd (?m ?h1)) = _ => destruct (T h1) as (cs & E)
  end.
  exists cs. unfold exec in E. rewrite E. unfold with_calls. state_fields.
  now rewrite <- app_assoc.
Qed.

(** A file to read and an [If-Modified-Since] that holds: status 304 and
    no file to copy. *)
Definition after_not_modified (p : string) (h : handler) : handler :=
  let h1 := after_status P 304 "Not Modified" (with_calls [Open p] h) in
  set_headers_buffer []
    (set_wfile
       (wfile h ++ [Head (headers_buffer h1 ++ cors_lines ++ [BlankLine])])
       h1).

Lemma send_head_file_not_modified
  (p content : string) (mtime : Z) (h : handler) :
  is_http09 h = false ->
  names_file P p content mtime ->
  Simple.not_modified P (headers h) mtime = true ->
  Simple.send_head_file P p h = (Ok None, after_not_modified p h).
Proof.
  intros Hv (Hn & He & Hf) Hm. unfold Simple.send_head_file.
  rewrite He.
  run_by ltac:(apply os_open_run; exact Hn).
  rewrite Hf. rewrite bind_gets.
  change (headers (with_calls [Open p] h)) with (headers h). rewrite Hm.
  run_by ltac:(apply send_response_1x; exact Hv).
  cbn [self_end_headers CORS.handler_overrides].
  run_by ltac:(apply end_headers_1x; exact Hv).
  reflexivity.
Qed.

Lemma send_head_not_modified (content : string) (mtime : Z) (h : handler) :
  is_http09 h = false ->
  names_file P (Simple.translate_path P (path h)) content mtime ->
  Simple.not_modified P (headers h) mtime = true ->
  Simple.send_head P h
  = (Ok None,
     after_not_modified (Simple.translate_path P (path h))
       (with_calls [IsDir (Simple.translate_path P (path h))] h)).
Proof.
  intros Hv Hf Hm. unfold Simple.send_head, get_path. rewrite bind_gets.
  set (p := Simple.translate_path P (path h)) in *.
  run_by ltac:(apply os_path_isdir_run).
  rewrite isdir_false.
  - now apply (send_head_file_not_modified p content mtime).
  - destruct Hf as (_ & _ & E). intros ? ?. rewrite E. discriminate.
Qed.

(** The answers of [GET] and [HEAD] on a state in which nothing is
    written yet. *)
Lemma answer_found (content : string) (mtime : Z) (h : handler) :
  wfile h = [] -> headers_buffer h = [] ->
  let h1 := after_file P (Simple.translate_path P (path h)) content mtime
              (with_calls [IsDir (Simple.translate_path P (path h))] h) in
  status (wfile h1) = Some 200%Z
  /\ body (wfile h1) = ""
  /\ has_header (wfile h1) "Content-Length" (Py.str_int (Py.len content))
     = true.
Proof.
  intros Ew Eb h1. subst h1.
  unfold after_file, after_status, after_log, with_calls. state_fields.
  rewrite Ew, Eb. cbn [app status body map]. repeat split.
  unfold has_header, header_lines.
  cbn [flat_map app existsb is_header].
  rewrite (String.eqb_refl (Py.str_int (Py.len content))).
  cbn. now rewrite ?orb_true_r.
Qed.

Lemma answer_not_modified (h : handler) :
  wfile h = [] -> headers_buffer h = [] ->
  let h1 := after_not_modified (Simple.translate_path P (path h))
              (with_calls [IsDir (Simple.translate_path P (path h))] h) in
  status (wfile h1) = Some 304%Z /\ body (wfile h1) = "".
Proof.
  intros Ew Eb h1. subst h1.
  unfold after_not_modified, after_status, after_log, with_calls.
  state_fields. rewrite Ew, Eb. now split.
Qed.

Lemma concat_app_one (l : list string) (d : string) :
  String.concat "" (l ++ [d]) = String.concat "" l ++ d.
Proof.
  induction l as [|x l IH]; [reflexivity|].
  cbn [app]. rewrite !concat_cons, IH. now rewrite append_assoc.
Qed.

Lemma body_app (ws : list wfile_write) (data : string) :
  body (ws ++ [Body data]) = body ws ++ data.
Proof. unfold body. rewrite map_app. apply concat_app_one. Qed.

Lemma status_app (ws ws' : list wfile_write) (code : Z) :
  status ws = Some code -> status (ws ++ ws') = Some code.
Proof.
  destruct ws as [|[[|[v c m| |] ls]|d] ws]; simpl; intros E;
    try discriminate; exact E.
Qed.

Lemma has_header_app (ws ws' : list wfile_write) (k v : string) :
  has_header ws k v = true -> has_header (ws ++ ws') k v = true.
Proof.
  unfold has_header, header_lines. rewrite flat_map_app, existsb_app.
  intros ->. reflexivity.
Qed.

End FileAnswers.

(** C3, as the code has it.  Of the requests the server accepts (the
    request line and the headers pass [parse_request]), those of method
    [GET] and [HEAD] go to the file serving of the base class: the path is
    translated to a path under the working directory, which is the first
    thing the operating system is asked about; when the version is not
    HTTP/0.9, a file that can be read is answered with status 200 (with
    its bytes for [GET], without for [HEAD]) unless the request holds an
    [If-Modified-Since] that holds for it, and a path that leads to
    nothing, or to a file that may not be read, with status 404.  Those of
    any other method but [OPTIONS] ([POST], [PUT] and [DELETE] among them)
    are refused: the file system is not looked at, and the answer, when
    the version is not HTTP/0.9, has status 501. *)
Theorem C3_only_get_and_head_serve_files
  (P : platform) (client_bytes : string) (p : Main.process)
  (h1 : handler) (c : string) :
  CORS.read_request P (Main.new_handler client_bytes p) = (Ok true, h1) ->
  command h1 = Some c ->
  let h0 := Main.new_handler client_bytes p in
  let h' := exec (CORS.handle_one_request P) h0 in
  let file := Simple.translate_path P (path h1) in
  (c = "GET" \/ c = "HEAD" ->
   (exists cs, oscalls h' = (Main.syscalls p ++ IsDir file :: cs)%list)
   /\ (request_version h1 <> "HTTP/0.9" ->
       (forall content mtime,
          Observe.names_file P file content mtime ->
          Simple.not_modified P (headers h1) mtime = false ->
          Observe.status (wfile h') = Some 200%Z
          /\ Observe.body (wfile h') = (if c =? "GET" then content else ""))
       /\ (Observe.no_file P file ->
           Observe.status (wfile h') = Some 404%Z)))
  /\ (c <> "GET" -> c <> "HEAD" -> c <> "OPTIONS" ->
      oscalls h' = Main.syscalls p
      /\ (request_version h1 <> "HTTP/0.9" ->
          Observe.status (wfile h') = Some 501%Z)).
Proof.
  intros Hr Hc h0 h' file. subst h0 h' file. unfold exec.
  rewrite (handle_accepted P _ _ Hr).
  destruct (fresh_accepted P _ _ _ Hr) as (Ew & Eb & _ & _ & Eo).
  split.
  - intros Hm.
    assert (Ed : Base.dispatch P h1 = Simple.do_GET P h1 /\ c = "GET"
                 \/ Base.dispatch P h1 = Simple.do_HEAD P h1 /\ c = "HEAD").
    { destruct Hm as [-> | ->];
        [left; split; [now apply dispatch_get | reflexivity]
        |right; split; [now apply dispatch_head | reflexivity]]. }
    split; [|intros Hv; apply not_http09 in Hv; split].
    + destruct (send_head_first_call P h1) as (cs & E). unfold exec in E.
      rewrite <- Eo.
      destruct Ed as [(-> & _) | (-> & _)];
        unfold Simple.do_GET, Simple.do_HEAD, bind;
        destruct (Simple.send_head P h1) as [[[data|]|e] h2];
        cbn [snd] in E |- *; try (now exists cs).
      unfold Simple.copyfile.
      destruct (Py.is_empty data); now exists cs.
    + intros content mtime Hf Hn.
      destruct (answer_found P content mtime h1 Ew Eb) as (Hs & Hb & _).
      destruct Ed as [(-> & ->) | (-> & ->)].
      * rewrite (do_GET_found P content mtime h1 Hv Hf Hn). cbn [snd].
        destruct (Py.is_empty content) eqn:Ee.
        -- destruct content; [|discriminate]. now split.
        -- cbn [wfile set_wfile]. split; [now apply status_app|].
           rewrite body_app, Hb. reflexivity.
      * unfold Simple.do_HEAD.
        rewrite (bind_ok _ _ _ _ _ (send_head_found P content mtime h1 Hv Hf Hn)).
        now split.
    + intros Hf.
      assert (E : exists cs, Base.dispatch P h1
                    = (Ok tt, after_error P 404 "File not found"
                                (with_calls cs h1))).
      { destruct Ed as [(-> & _) | (-> & _)];
          [now apply do_GET_missing | now apply do_HEAD_missing]. }
      destruct E as (cs & ->). now apply status_after_error.
  - intros Hg Hh Ho.
    rewrite (dispatch_other P _ _ Hc Hg Hh Ho). split.
    + rewrite <- Eo. apply (quiet_send_error P).
    + intros Hv. rewrite send_error_1x by (first [now apply not_http09 | reflexivity]).
      now apply status_after_error.
Qed.

(** C3 at work: [DELETE] on a file that is there. *)
Lemma C3_only_get_and_head_serve_files_witness :
  let bytes := Demo.request "DELETE /test-api.html HTTP/1.1" [] in
  let h1 := exec (CORS.read_request Demo.host) (Demo.connect bytes) in
  let h0 := Main.new_handler bytes (Main.start Main.Bound) in
  let h' := exec (CORS.handle_one_request Demo.host) h0 in
  let file := Simple.translate_path Demo.host (path h1) in
  ("DELETE" = "GET" \/ "DELETE" = "HEAD" ->
   (exists cs,
      oscalls h'
      = (Main.syscalls (Main.start Main.Bound) ++ IsDir file :: cs)%list)
   /\ (request_version h1 <> "HTTP/0.9" ->
       (forall content mtime,
          Observe.names_file Demo.host file content mtime ->
          Simple.not_modified Demo.host (headers h1) mtime = false ->
          Observe.status (wfile h') = Some 200%Z
          /\ Observe.body (wfile h')
             = (if "DELETE" =? "GET" then content else ""))
       /\ (Observe.no_file Demo.host file ->
           Observe.status (wfile h') = Some 404%Z)))
  /\ ("DELETE" <> "GET" -> "DELETE" <> "HEAD" -> "DELETE" <> "OPTIONS" ->
      oscalls h' = Main.syscalls (Main.start Main.Bound)
      /\ (request_version h1 <> "HTTP/0.9" ->
          Observe.status (wfile h') = Some 501%Z)).
Proof.
  apply (C3_only_get_and_head_serve_files Demo.host
           (Demo.request "DELETE /test-api.html HTTP/1.1" [])
           (Main.start Main.Bound)
           (exec (CORS.read_request Demo.host)
              (Demo.connect (Demo.request "DELETE /test-api.html HTTP/1.1" [])))
           "DELETE").
  - vm_compute. reflexivity.
  - vm_compute. reflexivity.
Defined.

(** C3, as stated, fails: [POST] on a file that is there is answered
    with status 501, and the file is not even looked for. *)
Lemma C3_post_is_not_served :
  let h := Demo.connect (Demo.request "POST /test-api.html HTTP/1.1" []) in
  Observe.names_file Demo.host "/srv/www/test-api.html" Demo.page 1700000000
  /\ Observe.status (wfile (exec (CORS.handle_one_request Demo.host) h))
     = Some 501%Z
  /\ oscalls (exec (CORS.handle_one_request Demo.host) h) = [].
Proof. repeat split; vm_compute; reflexivity. Qed.

(** C4, as the code has it.  A [GET] request that the server accepts, of
    a version other than HTTP/0.9, whose path leads to a file the server
    can read, is answered with status 200 and the bytes of the file,
    unless the test of [send_head] on [If-Modified-Since] holds: then the
    answer has status 304 and no body.  The test holds when the request
    has a header [If-Modified-Since] and no header [If-None-Match], the
    date parses, it has no zone or the offset 0 from UTC, and the file was
    last modified, in whole seconds, no later than that date. *)
Theorem C4_get_serves_the_file
  (P : platform) (client_bytes : string) (p : Main.process)
  (h1 : handler) (content : string) (mtime : Z) :
  CORS.read_request P (Main.new_handler client_bytes p) = (Ok true, h1) ->
  command h1 = Some "GET" ->
  request_version h1 <> "HTTP/0.9" ->
  Observe.names_file P (Simple.translate_path P (path h1)) content mtime ->
  let h' := exec (CORS.handle_one_request P) (Main.new_handler client_bytes p) in
  (Simple.not_modified P (headers h1) mtime = false ->
   Observe.status (wfile h') = Some 200%Z
   /\ Observe.body (wfile h') = content
   /\ Observe.has_header (wfile h') "Content-Length"
        (Py.str_int (Py.len content)) = true)
  /\ (Simple.not_modified P (headers h1) mtime = true ->
      Observe.status (wfile h') = Some 304%Z
      /\ Observe.body (wfile h') = "")
  /\ (Simple.not_modified P (headers h1) mtime = true <->
      exists date,
        Base.headers_find (headers h1) "If-Modified-Since" = Some date
        /\ Base.headers_find (headers h1) "If-None-Match" = None
        /\ exists seconds,
             (parsedate_to_datetime P date = Some (Naive seconds)
              \/ parsedate_to_datetime P date = Some (Aware 0 seconds))
             /\ (mtime <= seconds)%Z).
Proof.
  intros Hr Hc Hv Hf h'. subst h'. unfold exec.
  rewrite (handle_accepted P _ _ Hr), (dispatch_get P _ Hc).
  destruct (fresh_accepted P _ _ _ Hr) as (Ew & Eb & _ & _ & _).
  apply not_http09 in Hv.
  split; [|split].
  - intros Hm.
    destruct (answer_found P content mtime h1 Ew Eb) as (Hs & Hb & Hl).
    rewrite (do_GET_found P content mtime h1 Hv Hf Hm). cbn [snd].
    destruct (Py.is_empty content) eqn:Ee.
    + destruct content; [|discriminate]. now repeat split.
    + cbn [wfile set_wfile]. repeat split.
      * now apply status_app.
      * rewrite body_app, Hb. reflexivity.
      * now apply has_header_app.
  - intros Hm. unfold Simple.do_GET.
    rewrite (bind_ok _ _ _ _ _ (send_head_not_modified P content mtime h1 Hv Hf Hm)).
    now apply answer_not_modified.
  - unfold Simple.not_modified, Base.headers_has, Base.headers_get.
    destruct (Base.headers_find (headers h1) "If-Modified-Since") as [date|];
      [|split; [discriminate | intros (d & E & _); discriminate]].
    destruct (Base.headers_find (headers h1) "If-None-Match") as [tag|];
      cbn [negb andb];
      [split; [discriminate | intros (d & _ & E & _); discriminate]|].
    split.
    + intros H. exists date. split; [reflexivity|]. split; [reflexivity|].
      destruct (parsedate_to_datetime P date) as [[s|o s]|];
        [| |discriminate].
      * exists s. split; [now left | now apply Z.leb_le].
      * apply andb_prop in H. destruct H as (Ho & Hs).
        apply Z.eqb_eq in Ho. subst o.
        exists s. split; [now right | now apply Z.leb_le].
    + intros (d & Ed & _ & s & Hp & Hle). inversion Ed. subst d.
      apply Z.leb_le in Hle.
      destruct Hp as [-> | ->]; [exact Hle | now rewrite Hle].
Qed.

(** C4 at work: [GET /test-api.html]. *)
Lemma C4_get_serves_the_file_witness :
  let bytes := Demo.request "GET /test-api.html HTTP/1.1" ["Host: localhost"] in
  let h1 := exec (CORS.read_request Demo.host) (Demo.connect bytes) in
  let h' := exec (CORS.handle_one_request Demo.host)
                 (Main.new_handler bytes (Main.start Main.Bound)) in
  (Simple.not_modified Demo.host (headers h1) 1700000000 = false ->
   Observe.status (wfile h') = Some 200%Z
   /\ Observe.body (wfile h') = Demo.page
   /\ Observe.has_header (wfile h') "Content-Length"
        (Py.str_int (Py.len Demo.page)) = true)
  /\ (Simple.not_modified Demo.host (headers h1) 1700000000 = true ->
      Observe.status (wfile h') = Some 304%Z
      /\ Observe.body (wfile h') = "")
  /\ (Simple.not_modified Demo.host (headers h1) 1700000000 = true <->
      exists date,
        Base.headers_find (headers h1) "If-Modified-Since" = Some date
        /\ Base.headers_find (headers h1) "If-None-Match" = None
        /\ exists seconds,
             (parsedate_to_datetime Demo.host date = Some (Naive seconds)
              \/ parsedate_to_datetime Demo.host date = Some (Aware 0 seconds))
             /\ (1700000000 <= seconds)%Z).
Proof.
  apply (C4_get_serves_the_file Demo.host
           (Demo.request "GET /test-api.html HTTP/1.1" ["Host: localhost"])
           (Main.start Main.Bound)
           (exec (CORS.read_request Demo.host)
              (Demo.connect
                 (Demo.request "GET /test-api.html HTTP/1.1" ["Host: localhost"])))
           Demo.page 1700000000).
  - vm_compute. reflexivity.
  - vm_compute. reflexivity.
  - vm_compute. discriminate.
  - repeat split; vm_compute; reflexivity.
Defined.

(** C4, as stated, fails: a [GET] for a file that is there, sent with an
    [If-Modified-Since] later than the file, is answered with status 304
    and no byte of the file. *)
Lemma C4_conditional_get_is_not_served :
  let h :=
    Demo.connect
      (Demo.request "GET /test-api.html HTTP/1.1"
         ["If-Modified-Since: Sat, 01 Jan 2028 00:00:00 GMT"]) in
  Observe.names_file Demo.host
    (Simple.translate_path Demo.host "/test-api.html") Demo.page 1700000000
  /\ Observe.status (wfile (exec (CORS.handle_one_request Demo.host) h))
     = Some 304%Z
  /\ Observe.body (wfile (exec (CORS.handle_one_request Demo.host) h)) = "".
Proof. repeat split; vm_compute; reflexivity. Qed.

(** C5, as the code has it.  A [GET] or [HEAD] request that the server
    accepts, of a version other than HTTP/0.9, whose path is translated
    to a path that the operating system takes (it can be encoded and holds
    no null character) and that leads to nothing, or to a file that may
    not be read, is answered with status 404, the handler returning
    without an exception; and a server that is serving is still serving
    after the connection. *)
Theorem C5_missing_file_is_404
  (P : platform) (client_bytes : string) (p : Main.process)
  (h1 : handler) (c : string) :
  CORS.read_request P (Main.new_handler client_bytes p) = (Ok true, h1) ->
  command h1 = Some c ->
  c = "GET" \/ c = "HEAD" ->
  request_version h1 <> "HTTP/0.9" ->
  Observe.no_file P (Simple.translate_path P (path h1)) ->
  let h0 := Main.new_handler client_bytes p in
  outcome (CORS.handle_one_request P) h0 = Ok tt
  /\ Observe.status (wfile (exec (CORS.handle_one_request P) h0)) = Some 404%Z
  /\ (Main.state p = Main.Serving ->
      Main.state (Main.step P p (Main.Connection client_bytes)) = Main.Serving).
Proof.
  intros Hr Hc Hm Hv Hf h0. subst h0. unfold exec, outcome.
  rewrite (handle_accepted P _ _ Hr).
  destruct (fresh_accepted P _ _ _ Hr) as (Ew & Eb & _ & _ & _).
  assert (E : exists cs, Base.dispatch P h1
                = (Ok tt, after_error P 404 "File not found"
                            (with_calls cs h1))).
  { destruct Hm as [-> | ->].
    - rewrite (dispatch_get P _ Hc).
      now apply do_GET_missing; [apply not_http09|].
    - rewrite (dispatch_head P _ Hc).
      now apply do_HEAD_missing; [apply not_http09|]. }
  destruct E as (cs & E). rewrite E. cbn [fst snd].
  split; [reflexivity|]. split.
  - now apply status_after_error.
  - intros Hs. rewrite (step_connection P _ _ Hs).
    destruct (handle_request_frame P client_bytes p) as (H & _).
    now rewrite H.
Qed.

(** C5 at work: [GET /missing]. *)
Lemma C5_missing_file_is_404_witness :
  let bytes := Demo.request "GET /missing HTTP/1.1" [] in
  let p := Main.start Main.Bound in
  let h0 := Main.new_handler bytes p in
  outcome (CORS.handle_one_request Demo.host) h0 = Ok tt
  /\ Observe.status (wfile (exec (CORS.handle_one_request Demo.host) h0))
     = Some 404%Z
  /\ (Main.state p = Main.Serving ->
      Main.state (Main.step Demo.host p (Main.Connection bytes))
      = Main.Serving).
Proof.
  apply (C5_missing_file_is_404 Demo.host
           (Demo.request "GET /missing HTTP/1.1" [])
           (Main.start Main.Bound)
           (exec (CORS.read_request Demo.host)
              (Demo.connect (Demo.request "GET /missing HTTP/1.1" [])))
           "GET").
  - vm_compute. reflexivity.
  - vm_compute. reflexivity.
  - left. reflexivity.
  - vm_compute. discriminate.
  - split; [vm_compute; reflexivity | left; vm_compute; reflexivity].
Defined.

(** C5, as stated, fails: a [POST] request for a path that leads to
    nothing is answered with status 501, which is not a 4xx status. *)
Lemma C5_post_to_missing_file_is_501 :
  let h := Demo.connect (Demo.request "POST /missing HTTP/1.1" []) in
  Observe.no_file Demo.host (Simple.translate_path Demo.host "/missing")
  /\ Observe.status (wfile (exec (CORS.handle_one_request Demo.host) h))
     = Some 501%Z
  /\ (400 <=? 501)%Z && (501 <? 500)%Z = false.
Proof.
  split; [split; [vm_compute; reflexivity | left; vm_compute; reflexivity]|].
  split; vm_compute; reflexivity.
Qed.

(** ** The lines on standard output *)

Section Logging.
Context (P : platform).
Import Observe.

(** Code that writes nothing to standard output. *)
Definition same_log (h h' : handler) : Prop := stdout h' = stdout h.

Lemma same_log_refl (h : handler) : same_log h h.
Proof. reflexivity. Qed.

Lemma same_log_trans (a b c : handler) :
  same_log a b -> same_log b c -> same_log a c.
Proof. unfold same_log. congruence. Qed.

Local Abbreviation silent := (preserves same_log).

Create HintDb silent discriminated.

Ltac silent_leaf :=
  first [ assumption
        | solve [auto with silent]
        | match goal with
          | |- preserves _ (modify _) =>
              apply preserves_modify; intros; reflexivity
          end ].

Ltac silent := pres_structure same_log_refl same_log_trans silent_leaf.

Lemma silent_time_now : silent (Base.time_now P).
Proof. intros h. reflexivity. Qed.
#[local] Hint Resolve silent_time_now : silent.

Lemma silent_send_header (keyword value : string) :
  silent (Base.send_header keyword value).
Proof. unfold Base.send_header, Base.buffer_append. silent. Qed.
#[local] Hint Resolve silent_send_header : silent.

Lemma silent_send_response_only (code : Z) (message : option string) :
  silent (Base.send_response_only code message).
Proof. unfold Base.send_response_only, Base.buffer_append. silent. Qed.
#[local] Hint Resolve silent_send_response_only : silent.

Lemma silent_end_headers : silent CORS.end_headers.
Proof.
  unfold CORS.end_headers, Base.end_headers, Base.flush_headers,
    Base.buffer_append.
  silent.
Qed.
#[local] Hint Resolve silent_end_headers : silent.

Lemma stdout_after_log (message : string) (h : handler) :
  stdout (after_log P message h)
  = log_all P [(clock h, message)] (stdout h).
Proof. reflexivity. Qed.

Lemma exec_bind_ok {A B} (m : M A) (k : A -> M B) (h h1 : handler) (a : A) :
  m h = (Ok a, h1) -> exec (bind m k) h = exec (k a) h1.
Proof. intros E. unfold exec. now rewrite (bind_ok _ _ _ _ _ E). Qed.

End Logging.

(** ** The form of a log line *)

Section Timestamp.
Import Observe.

Definition two_digits (s : string) : bool :=
  match s with
  | String a (String b EmptyString) => Py.isdigit a && Py.isdigit b
  | _ => false
  end.

Definition four_digits (s : string) : bool :=
  match s with
  | String a (String b (String c (String d EmptyString))) =>
      Py.isdigit a && Py.isdigit b && Py.isdigit c && Py.isdigit d
  | _ => false
  end.

Lemma pad2_table :
  forallb (fun k => two_digits (CORS.pad2 (Z.of_nat k))) (seq 0 100) = true.
Proof. vm_compute. reflexivity. Qed.

Lemma year_table :
  forallb (fun k => four_digits (Py.str_int (Z.of_nat k)))
    (seq 1000 (Z.to_nat 9000))
  = true.
Proof. vm_compute. reflexivity. Qed.

Lemma pad2_two_digits (n : Z) :
  (0 <= n <= 99)%Z -> two_digits (CORS.pad2 n) = true.
Proof.
  intros H. pose proof pad2_table as T. rewrite forallb_forall in T.
  rewrite <- (Z2Nat.id n) by lia. apply T. apply in_seq. lia.
Qed.

Lemma year_four_digits (n : Z) :
  (1000 <= n <= 9999)%Z -> four_digits (Py.str_int n) = true.
Proof.
  intros H. pose proof year_table as T. rewrite forallb_forall in T.
  rewrite <- (Z2Nat.id n) by lia. apply T. apply in_seq. lia.
Qed.

(** The text [strftime] gives for a local time is of the form
    [YYYY-MM-DD HH:MM:SS]. *)
Lemma strftime_is_timestamp (t : struct_time) :
  plausible t -> is_timestamp (CORS.strftime t) = true.
Proof.
  intros (Hy & Hm & Hd & Hh & Hn & Hs). unfold CORS.strftime.
  pose proof (year_four_digits (tm_year t) Hy) as Ey.
  pose proof (pad2_two_digits (tm_mon t) ltac:(lia)) as Em.
  pose proof (pad2_two_digits (tm_mday t) ltac:(lia)) as Ed.
  pose proof (pad2_two_digits (tm_hour t) ltac:(lia)) as Eh.
  pose proof (pad2_two_digits (tm_min t) ltac:(lia)) as En.
  pose proof (pad2_two_digits (tm_sec t) ltac:(lia)) as Es.
  destruct (Py.str_int (tm_year t)) as [|y1 [|y2 [|y3 [|y4 [|]]]]];
    try discriminate.
  destruct (CORS.pad2 (tm_mon t)) as [|m1 [|m2 [|]]]; try discriminate.
  destruct (CORS.pad2 (tm_mday t)) as [|d1 [|d2 [|]]]; try discriminate.
  destruct (CORS.pad2 (tm_hour t)) as [|h1 [|h2 [|]]]; try discriminate.
  destruct (CORS.pad2 (tm_min t)) as [|n1 [|n2 [|]]]; try discriminate.
  destruct (CORS.pad2 (tm_sec t)) as [|s1 [|s2 [|]]]; try discriminate.
  cbn [two_digits four_digits] in *.
  repeat match goal with
         | H : _ && _ = true |- _ => apply andb_prop in H; destruct H
         end.
  unfold is_timestamp.
  cbn [append list_ascii_of_string forallb].
  repeat match goal with
         | H : Py.isdigit _ = true |- _ => rewrite H; clear H
         end.
  reflexivity.
Qed.

End Timestamp.

Section LogLines.
Context (P : platform).
Import Observe.

(** Lines logged on a flushed stream: the stream is flushed, and holds
    the lines after what it held. *)
Lemma log_all_flushed (entries : list (nat * string)) (t : textio) :
  pending t = "" ->
  log_all P entries t
  = {| device :=
         device t
         ++ String.concat ""
              (map (fun e => log_line P (fst e) (snd e)) entries);
       pending := "" |}.
Proof.
  revert t. induction entries as [|e es IH]; intros t Ht.
  - simpl. rewrite append_nil_r. destruct t; simpl in *. now subst.
  - cbn [log_all fold_left map]. fold (log_all P es (log_to P t e)).
    rewrite IH by reflexivity. rewrite concat_cons.
    unfold log_to, textio_flush, textio_write. cbn [device pending].
    rewrite Ht. cbn [append]. now rewrite append_assoc.
Qed.

End LogLines.

(** ** Code that returns *)

(** Handler code that raises no exception, whatever the state. *)
Definition returns {A} (m : M A) : Prop :=
  forall h, exists a h', m h = (Ok a, h').

Lemma returns_ret {A} (a : A) : returns (ret a).
Proof. intros h. now exists a, h. Qed.

Lemma returns_gets {A} (f : handler -> A) : returns (gets f).
Proof. intros h. now exists (f h), h. Qed.

Lemma returns_modify (f : handler -> handler) : returns (modify f).
Proof. intros h. now exists tt, (f h). Qed.

Lemma returns_bind {A B} (m : M A) (k : A -> M B) :
  returns m -> (forall a, returns (k a)) -> returns (bind m k).
Proof.
  intros Hm Hk h. destruct (Hm h) as (a & h1 & E).
  destruct (Hk a h1) as (b & h2 & E'). exists b, h2.
  now rewrite (bind_ok _ _ _ _ _ E).
Qed.

Ltac returns_structure leaf :=
  repeat first
    [ progress cbn [self_end_headers self_log_message self_do
                    CORS.handler_overrides CORS.handler_methods]
    | lazymatch goal with
      | |- returns (ret _) => apply returns_ret
      | |- returns (gets _) => apply returns_gets
      | |- returns (modify _) => apply returns_modify
      | |- returns (bind _ _) => apply returns_bind; [| intros ]
      | |- returns (if ?b then _ else _) => destruct b
      | |- returns (match ?x with _ => _ end) => destruct x
      | |- returns (let (_, _) := ?x in _) => destruct x
      | |- returns _ => solve [leaf]
      end ].

Section Returns.
Context (P : platform).

Ltac returns_leaf :=
  idtac;
  lazymatch goal with
  | H : returns ?m |- returns ?m => exact H
  | |- returns (Base.time_now _) =>
      intros h; now eexists _, _
  | |- returns (Base.rfile_readline ?limit) =>
      let h := fresh "h" in
      intros h; destruct (rfile_readline_run limit h) as (? & ? & ?);
      eexists _, _; eassumption
  | |- returns (Base.read_headers ?fuel ?acc) =>
      let h := fresh "h" in
      intros h; destruct (read_headers_run fuel acc h) as (? & ? & ?);
      eexists _, _; eassumption
  | |- returns (CORS.log_message _ _) =>
      intros h; rewrite log_message_run; now eexists _, _
  | |- returns (Base.send_header _ _) =>
      lazymatch goal with H : context [Base.send_header] |- _ => apply H end
  | |- returns CORS.end_headers =>
      lazymatch goal with H : context [CORS.end_headers] |- _ => apply H end
  | |- returns (Base.send_error _ _ _ _) =>
      lazymatch goal with H : context [Base.send_error] |- _ => apply H end
  | |- returns (Base.send_response _ _ _) =>
      lazymatch goal with H : context [Base.send_response] |- _ => apply H end
  end.

Ltac returning := returns_structure returns_leaf.

Lemma returns_send_header (keyword value : string) :
  returns (Base.send_header keyword value).
Proof. unfold Base.send_header, Base.buffer_append. returning. Qed.

Lemma returns_end_headers : returns CORS.end_headers.
Proof.
  pose proof returns_send_header as Hh.
  unfold CORS.end_headers, Base.end_headers, Base.flush_headers,
    Base.buffer_append.
  returning.
Qed.

Lemma returns_send_response (code : Z) (message : option string) :
  returns (Base.send_response P code message).
Proof.
  pose proof returns_send_header as Hh.
  unfold Base.send_response, Base.log_request, Base.date_time_string,
    Base.send_response_only, Base.buffer_append.
  returning.
Qed.

Lemma returns_send_error (code : Z) (message explain : option string) :
  returns (Base.send_error P code message explain).
Proof.
  pose proof returns_send_header as Hh.
  pose proof returns_end_headers as Hn.
  pose proof returns_send_response as Hs.
  unfold Base.send_error, Base.log_error, Base.wfile_write_bytes.
  returning.
Qed.

(** Reading a request raises no exception. *)
Lemma returns_read_request : returns (Base.read_request P).
Proof.
  pose proof returns_send_error as He.
  pose proof returns_end_headers as Hn.
  unfold Base.read_request, Base.parse_request, Base.parse_request_headers,
    Base.parse_headers, Base.handle_expect_100, Base.send_response_only,
    Base.buffer_append.
  returning.
Qed.

End Returns.

(** ** The outcome of a request

    The answer to a request is built in steps: [send_response] logs the
    access-log line and starts the header block, [send_header] adds to
    it, [end_headers] writes it, and the body follows; [send_error] logs
    its own line first.  The steps are followed here through the methods
    of the handler. *)

Section Outcome.
Context (P : platform).
Import Observe.

(** Header lines none of which has one of the three names. *)
Definition no_cors (lines : list hline) : Prop :=
  filter is_cors_line lines = [].

(** How far the answer has got: nothing yet; the line of an error is
    logged; the header block is started; the header block is written. *)
Inductive progress :=
| Unanswered
| Failing (code : Z) (message : string)
| Started
| Finished.

(** The header block of an answer. *)
Definition block (code : Z) (message : string) (hdrs : list hline)
  : wfile_write :=
  Head (StatusLine "HTTP/1.0" code message :: hdrs ++ cors_lines ++ [BlankLine]).

(** The state [h] that code has reached, from a state [h0] in which the
    answer was not begun. *)
Definition reached (h0 : handler) (s : progress) (h : handler) : Prop :=
  match s with
  | Unanswered =>
      wfile h = wfile h0 /\ headers_buffer h = []
      /\ stdout h = stdout h0 /\ clock h = clock h0
  | Failing code message =>
      wfile h = wfile h0 /\ headers_buffer h = []
      /\ stdout h
         = log_all P [(clock h0, error_message code message)] (stdout h0)
      /\ clock h = S (clock h0) /\ (400 <=? code)%Z = true
  | Started =>
      exists code message hdrs,
        wfile h = wfile h0
        /\ headers_buffer h
           = (if is_http09 h then []
              else StatusLine "HTTP/1.0" code message :: hdrs)
        /\ no_cors hdrs
        /\ stdout h
           = log_all P (answer_log (clock h0) (requestline h) code message)
               (stdout h0)
  | Finished =>
      exists code message hdrs bodies,
        wfile h
        = (wfile h0
           ++ (if is_http09 h then [] else [block code message hdrs])
           ++ map Body bodies)%list
        /\ headers_buffer h = []
        /\ no_cors hdrs
        /\ stdout h
           = log_all P (answer_log (clock h0) (requestline h) code message)
               (stdout h0)
  end.

(** Code moves the answer from [s] to [t]; code that raises does so
    before the answer is begun. *)
Definition moves (s t : progress) {A} (m : M A) : Prop :=
  forall h0 h, reached h0 s h ->
    match m h with
    | (Ok _, h') => reached h0 t h'
    | (Raise _, h') => reached h0 Unanswered h'
    end.

Lemma moves_ret (s : progress) {A} (a : A) : moves s s (ret a).
Proof. intros h0 h H. exact H. Qed.

Lemma moves_gets (s : progress) {A} (f : handler -> A) : moves s s (gets f).
Proof. intros h0 h H. exact H. Qed.

Lemma moves_raise (t : progress) {A} (e : exn) :
  moves Unanswered t (@raise A e).
Proof. intros h0 h H. exact H. Qed.

Lemma moves_bind (s u t : progress) {A B} (m : M A) (k : A -> M B) :
  moves s u m -> (forall a, moves u t (k a)) -> moves s t (bind m k).
Proof.
  intros Hm Hk h0 h H. specialize (Hm h0 h H). unfold bind.
  destruct (m h) as [[a|e] h1]; [apply Hk; exact Hm | exact Hm].
Qed.

(** A change of state that leaves the answer and the request line as
    they are. *)
Definition untouched (h h' : handler) : Prop :=
  wfile h' = wfile h /\ headers_buffer h' = headers_buffer h
  /\ stdout h' = stdout h /\ clock h' = clock h
  /\ requestline h' = requestline h
  /\ request_version h' = request_version h.

Lemma reached_untouched (h0 : handler) (s : progress) (h h' : handler) :
  untouched h h' -> reached h0 s h -> reached h0 s h'.
Proof.
  intros (Ew & Eb & Es & Ec & Er & Ev).
  assert (E9 : is_http09 h' = is_http09 h) by (unfold is_http09; now rewrite Ev).
  destruct s as [|code message| |]; unfold reached;
    rewrite ?Ew, ?Eb, ?Es, ?Ec, ?Er, ?E9; intros H; exact H.
Qed.

Lemma moves_modify (s : progress) (f : handler -> handler) :
  (forall h, untouched h (f h)) -> moves s s (modify f).
Proof. intros Hf h0 h H. apply (reached_untouched h0 s h); [apply Hf | exact H]. Qed.

Lemma moves_oscall (s : progress) (c : oscall) :
  moves s s (Simple.oscall_log c).
Proof. apply moves_modify. intros h. now repeat split. Qed.

(** [send_response], whatever the version of the request. *)
Definition after_status09 (code : Z) (h : handler) : handler :=
  let h1 := after_log P (access_message (requestline h) code) h in
  set_clock (S (clock h1)) h1.

Lemma send_response_09 (code : Z) (message : option string) (h : handler) :
  is_http09 h = true ->
  Base.send_response P code message h = (Ok tt, after_status09 code h).
Proof.
  intros Hv. unfold Base.send_response.
  run_by ltac:(apply log_request_run).
  run_by ltac:(unfold Base.send_response_only; rewrite bind_gets;
               change (request_version (after_log P _ h) =? "HTTP/0.9")
                 with (is_http09 h);
               rewrite Hv; reflexivity).
  run_by ltac:(apply send_header_09; [exact Hv | reflexivity]).
  run_by ltac:(unfold Base.date_time_string, Base.time_now; reflexivity).
  rewrite send_header_09 by (first [exact Hv | reflexivity]).
  reflexivity.
Qed.

Lemma no_cors_server_date (d : string) :
  no_cors [HeaderLine "Server" (Base.version_string P); HeaderLine "Date" d].
Proof. reflexivity. Qed.

Lemma moves_send_response (code : Z) (message : option string) :
  (400 <=? code)%Z = false ->
  moves Unanswered Started (Base.send_response P code message).
Proof.
  intros Hc h0 h (Ew & Eb & Es & Ec).
  destruct (is_http09 h) eqn:Hv.
  - rewrite send_response_09 by exact Hv.
    exists code, (or_phrase code message), [].
    unfold after_status09, after_log, is_http09 in *. state_fields.
    rewrite Hv, Ew, Eb, Es, Ec. unfold answer_log. rewrite Hc.
    repeat split.
  - rewrite send_response_1x by exact Hv.
    exists code, (or_phrase code message),
      [ HeaderLine "Server" (Base.version_string P);
        HeaderLine "Date" (formatdate P (time_time P (S (clock h)))) ].
    unfold after_status, after_log, is_http09 in *. state_fields.
    rewrite Hv, Ew, Eb, Es, Ec. unfold answer_log. rewrite Hc.
    repeat split.
Qed.

(** The line of an error, and the [send_response] that follows it. *)
Lemma moves_log_error (code : Z) (message : string) :
  (400 <=? code)%Z = true ->
  moves Unanswered (Failing code message)
    (CORS.log_message P (error_message code message)).
Proof.
  intros Hc h0 h (Ew & Eb & Es & Ec). rewrite log_message_run.
  unfold reached, after_log. state_fields. rewrite Ew, Eb, Es, Ec.
  repeat split. exact Hc.
Qed.

Lemma moves_send_response_error (code : Z) (message : string) :
  moves (Failing code message) Started
    (Base.send_response P code (Some message)).
Proof.
  intros h0 h (Ew & Eb & Es & Ec & Hc).
  destruct (is_http09 h) eqn:Hv.
  - rewrite send_response_09 by exact Hv.
    exists code, message, [].
    unfold after_status09, after_log, is_http09 in *. state_fields.
    rewrite Hv, Ew, Eb, Es, Ec. unfold answer_log. rewrite Hc.
    repeat split.
  - rewrite send_response_1x by exact Hv.
    exists code, message,
      [ HeaderLine "Server" (Base.version_string P);
        HeaderLine "Date" (formatdate P (time_time P (S (clock h)))) ].
    unfold after_status, after_log, is_http09, or_phrase in *. state_fields.
    rewrite Hv, Ew, Eb, Es, Ec. unfold answer_log. rewrite Hc.
    repeat split.
Qed.

(** A header is added to the block that is started. *)
Lemma no_cors_app (hdrs : list hline) (l : hline) :
  no_cors hdrs -> is_cors_line l = false -> no_cors (hdrs ++ [l]).
Proof.
  unfold no_cors. intros H Hl. rewrite filter_app, H. simpl. now rewrite Hl.
Qed.

Lemma started_header (h0 h : handler) (l : hline) :
  is_http09 h = false -> is_cors_line l = false ->
  reached h0 Started h ->
  reached h0 Started (set_headers_buffer (headers_buffer h ++ [l]) h).
Proof.
  intros Hv Hl (code & message & hdrs & Ew & Eb & Hn & Es).
  exists code, message, (hdrs ++ [l])%list.
  unfold is_http09 in *. state_fields. rewrite Hv in *. rewrite Eb.
  repeat split; [exact Ew | now apply no_cors_app | exact Es].
Qed.

Lemma moves_send_header (keyword value : string) :
  (Py.lower keyword =? "connection") = false ->
  is_cors_line (HeaderLine keyword value) = false ->
  moves Started Started (Base.send_header keyword value).
Proof.
  intros Hk Hl h0 h H. rewrite send_header_run by exact Hk.
  destruct (is_http09 h) eqn:Hv; [exact H|].
  now apply started_header.
Qed.

Lemma send_connection_close_09 (h : handler) :
  is_http09 h = true ->
  Base.send_header "Connection" "close" h
  = (Ok tt, set_close_connection true h).
Proof.
  intros Hv. unfold is_http09 in Hv.
  unfold Base.send_header, bind, gets, modify, ret.
  rewrite Hv. reflexivity.
Qed.

Lemma moves_connection_close :
  moves Started Started (Base.send_header "Connection" "close").
Proof.
  intros h0 h H. destruct (is_http09 h) eqn:Hv.
  - rewrite send_connection_close_09 by exact Hv.
    apply (reached_untouched h0 Started h); [now repeat split | exact H].
  - rewrite send_connection_close_1x by exact Hv.
    apply (reached_untouched h0 Started
             (set_headers_buffer
                (headers_buffer h ++ [HeaderLine "Connection" "close"]) h));
      [now repeat split|].
    now apply started_header.
Qed.

(** [end_headers] writes the block with the three headers. *)
Lemma moves_end_headers : moves Started Finished CORS.end_headers.
Proof.
  intros h0 h (code & message & hdrs & Ew & Eb & Hn & Es).
  destruct (is_http09 h) eqn:Hv.
  - rewrite end_headers_09 by exact Hv.
    exists code, message, hdrs, []. rewrite Hv.
    cbn [map app]. rewrite app_nil_r. now repeat split.
  - rewrite end_headers_1x by exact Hv.
    exists code, message, hdrs, [].
    unfold is_http09 in *. state_fields. rewrite Hv, Ew, Eb.
    cbn [map]. rewrite app_nil_r. now repeat split.
Qed.

(** Body bytes follow the block. *)
Lemma moves_body (data : string) :
  moves Finished Finished (Base.wfile_write_bytes (Body data)).
Proof.
  intros h0 h (code & message & hdrs & bodies & Ew & Eb & Hn & Es).
  exists code, message, hdrs, (bodies ++ [data])%list.
  unfold Base.wfile_write_bytes, modify, is_http09 in *. state_fields.
  rewrite Ew, map_app. cbn [map]. rewrite <- !app_assoc.
  now repeat split.
Qed.


(** The structure of handler code, for the steps of an answer. *)
Ltac moves_structure leaf :=
  repeat first
    [ progress cbn [self_end_headers self_log_message self_do
                    CORS.handler_overrides CORS.handler_methods]
    | lazymatch goal with
      | |- moves _ _ (ret _) => apply moves_ret
      | |- moves _ _ (gets _) => apply moves_gets
      | |- moves _ _ (raise _) => apply moves_raise
      | |- moves _ _ (bind _ _) => eapply moves_bind; [| intros ]
      | |- moves _ _ (if ?b then _ else _) => destruct b
      | |- moves _ _ (match ?x with _ => _ end) => destruct x
      | |- moves _ _ _ => solve [leaf]
      end ].

Ltac answer_leaf :=
  idtac;
  lazymatch goal with
  | H : context [moves _ _ ?m] |- moves _ _ ?m => apply H
  | |- moves _ _ (Simple.oscall_log _) => apply moves_oscall
  | |- moves _ _ (Base.send_response _ _ (Some _)) =>
      first [ apply moves_send_response_error
            | apply moves_send_response; reflexivity ]
  | |- moves _ _ (Base.send_response _ _ _) =>
      apply moves_send_response; reflexivity
  | |- moves _ _ (CORS.log_message _ _) =>
      apply moves_log_error; assumption
  | |- moves _ _ (Base.send_header "Connection" "close") =>
      apply moves_connection_close
  | |- moves _ _ (Base.send_header _ _) =>
      apply moves_send_header; reflexivity
  | |- moves _ _ CORS.end_headers => apply moves_end_headers
  | |- moves _ _ (Base.wfile_write_bytes (Body _)) => apply moves_body
  | |- moves _ _ (Base.send_error _ _ _ _) =>
      lazymatch goal with
      | H : context [Base.send_error] |- _ => apply H; reflexivity
      end
  | |- moves _ _ (Simple.os_path_isdir _ _) =>
      lazymatch goal with H : context [Simple.os_path_isdir] |- _ => apply H end
  | |- moves _ _ (Simple.os_path_isfile _ _) =>
      lazymatch goal with H : context [Simple.os_path_isfile] |- _ => apply H end
  | |- moves _ _ (Simple.os_path_islink _ _) =>
      lazymatch goal with H : context [Simple.os_path_islink] |- _ => apply H end
  | |- moves _ _ (Simple.os_fspath _ _) =>
      lazymatch goal with H : context [Simple.os_fspath] |- _ => apply H end
  | |- moves _ _ (Simple.os_open _ _) =>
      lazymatch goal with H : context [Simple.os_open] |- _ => apply H end
  | |- moves _ _ (Simple.os_listdir _ _) =>
      lazymatch goal with H : context [Simple.os_listdir] |- _ => apply H end
  | |- moves _ _ (Simple.list_entries _ _ _) =>
      lazymatch goal with H : context [Simple.list_entries] |- _ => apply H end
  | |- moves _ _ (Simple.send_head_file _ _) =>
      lazymatch goal with H : context [Simple.send_head_file] |- _ => apply H end
  | |- moves _ _ (Simple.list_directory _ _) =>
      lazymatch goal with H : context [Simple.list_directory] |- _ => apply H end
  | |- moves _ _ (Simple.send_head _) =>
      lazymatch goal with H : context [Simple.send_head] |- _ => apply H end
  end.

Ltac answer := moves_structure answer_leaf.

(** [send_error]: the line of the error, the answer, and its page unless
    the method is [HEAD]. *)
Lemma moves_send_error (code : Z) (message explain : option string) :
  (400 <=? code)%Z = true ->
  moves Unanswered Finished (Base.send_error P code message explain).
Proof.
  intros Hc. unfold Base.send_error, Base.log_error.
  destruct (match Base.responses code with
            | Some p => p | None => ("???", "???") end) as [shortmsg longmsg].
  cbv zeta.
  change (fun m : string => "code " ++ Py.str_int code ++ ", message " ++ m)
    with (error_message code).
  answer.
Qed.

(** The calls to the operating system. *)
Lemma moves_isdir (s : progress) (p : string) :
  moves s s (Simple.os_path_isdir P p).
Proof. unfold Simple.os_path_isdir. answer. Qed.

Lemma moves_isfile (s : progress) (p : string) :
  moves s s (Simple.os_path_isfile P p).
Proof. unfold Simple.os_path_isfile. answer. Qed.

Lemma moves_islink (s : progress) (p : string) :
  moves s s (Simple.os_path_islink P p).
Proof. unfold Simple.os_path_islink. answer. Qed.

Lemma moves_fspath (p : string) :
  moves Unanswered Unanswered (Simple.os_fspath P p).
Proof. unfold Simple.os_fspath. answer. Qed.

Lemma moves_open (p : string) :
  moves Unanswered Unanswered (Simple.os_open P p).
Proof.
  pose proof moves_fspath as Hf.
  unfold Simple.os_open. answer.
Qed.

Lemma moves_listdir (p : string) :
  moves Unanswered Unanswered (Simple.os_listdir P p).
Proof.
  pose proof moves_fspath as Hf.
  unfold Simple.os_listdir. answer.
Qed.

Lemma moves_list_entries (s : progress) (path : string) (names : list string) :
  moves s s (Simple.list_entries P path names).
Proof.
  pose proof moves_isdir as H1. pose proof moves_islink as H2.
  induction names as [|name names IH]; simpl; answer.
Qed.

(** File serving. *)
Lemma moves_send_head_file (path : string) :
  moves Unanswered Finished (Simple.send_head_file P path).
Proof.
  pose proof moves_send_error as He. pose proof moves_open as Ho.
  unfold Simple.send_head_file, Base.date_time_string. answer.
Qed.

Lemma moves_list_directory (path : string) :
  moves Unanswered Finished (Simple.list_directory P path).
Proof.
  pose proof moves_send_error as He. pose proof moves_listdir as Hl.
  pose proof moves_list_entries as Hn.
  unfold Simple.list_directory, get_path. answer.
Qed.

Lemma moves_send_head : moves Unanswered Finished (Simple.send_head P).
Proof.
  pose proof moves_isdir as H1. pose proof moves_isfile as H2.
  pose proof moves_send_head_file as H3.
  pose proof moves_list_directory as H4.
  unfold Simple.send_head, get_path. answer.
Qed.

(** The methods, and the answer to a method that is not one. *)
Lemma moves_dispatch : moves Unanswered Finished (Base.dispatch P).
Proof.
  pose proof moves_send_head as Hs. pose proof moves_send_error as He.
  unfold Base.dispatch. eapply moves_bind; [apply moves_gets | intros cmd].
  cbn [self_do CORS.handler_methods]. unfold Simple.lookup.
  repeat match goal with
         | |- context [if ?b then _ else _] => destruct b
         end;
    unfold Simple.do_GET, Simple.do_HEAD, Simple.copyfile, CORS.do_OPTIONS;
    answer.
Qed.


(** The request line is kept as it was read. *)
Definition same_request (h h' : handler) : Prop :=
  requestline h' = requestline h.

Lemma same_request_refl (h : handler) : same_request h h.
Proof. reflexivity. Qed.

Lemma same_request_trans (a b c : handler) :
  same_request a b -> same_request b c -> same_request a c.
Proof. unfold same_request. congruence. Qed.

Ltac same_request :=
  pres_structure same_request_refl same_request_trans
    ltac:(apply preserves_modify; intros; reflexivity).

Lemma same_request_response_calls : response_calls P same_request.
Proof.
  constructor.
  - apply same_request_refl.
  - apply same_request_trans.
  - intros h. reflexivity.
  - intros. unfold Base.send_header, Base.buffer_append. same_request.
  - unfold Base.send_header, Base.buffer_append. same_request.
  - intros. unfold Base.send_response_only, Base.buffer_append. same_request.
  - intros. unfold CORS.log_message, CORS.stdout_write, CORS.stdout_flush.
    same_request.
  - unfold CORS.end_headers, Base.send_header, Base.end_headers,
      Base.flush_headers, Base.buffer_append.
    same_request.
  - intros body. unfold write_error_body, Base.wfile_write_bytes.
    same_request.
  - intros c. unfold Simple.oscall_log. same_request.
Qed.

Lemma requestline_after_error (code : Z) (message explain : option string)
  (h h' : handler) (u : unit) :
  Base.send_error P code message explain h = (Ok u, h') ->
  requestline h' = requestline h.
Proof.
  intros E.
  pose proof (response_send_error P _ same_request_response_calls
                code message explain h) as R.
  unfold exec in R. now rewrite E in R.
Qed.

Lemma requestline_after_dispatch (h : handler) :
  requestline (exec (Base.dispatch P) h) = requestline h.
Proof.
  apply (response_dispatch P _ same_request_response_calls).
  intros data. unfold Simple.copyfile, Base.wfile_write_bytes. same_request.
Qed.

(** Blank lines and long lines. *)
Lemma blank_long (raw : string) :
  (65536 <? Py.len raw)%Z = true -> blank_line raw = false.
Proof.
  intros H. unfold blank_line. apply Z.ltb_lt in H.
  destruct (Z.leb_spec (Py.len raw) 65536); [lia | reflexivity].
Qed.

Lemma blank_short (raw : string) :
  (65536 <? Py.len raw)%Z = false ->
  blank_line raw
  = (List.length (Py.split_ws (Py.rstrip Py.is_crlf raw)) =? 0)%nat.
Proof.
  intros H. unfold blank_line. apply Z.ltb_ge in H.
  destruct (Z.leb_spec (Py.len raw) 65536); [reflexivity | lia].
Qed.

Lemma blank_empty (raw : string) :
  Py.is_empty raw = true -> blank_line raw = true.
Proof. destruct raw; [reflexivity | discriminate]. Qed.

(** What a run of [read_request] has come to: the request is accepted
    and nothing is answered yet; or the line is blank and nothing is
    answered; or an error is the answer. *)
Ltac headers_were_read :=
  repeat match goal with
    | Hr : Base.read_headers ?f ?a ?s = (Ok _, ?x) |- _ =>
        let r := fresh "r" in
        let rest := fresh "rest" in
        let Er := fresh "Er" in
        destruct (read_headers_run f a s) as (r & rest & Er);
        rewrite Er in Hr; inversion Hr; subst; clear Hr Er
    end.

Ltac outcome_end h Hb Hlen Hblank :=
  inv_run; headers_were_read; inv_run;
  try match goal with
      | H : _ && false = true |- _ =>
          rewrite andb_false_r in H; discriminate H
      | H : _ && false && _ = true |- _ =>
          rewrite andb_false_r in H; discriminate H
      end;
  try discriminate;
  (split; [intros ? | split; [intros ? | intros _]]);
  try discriminate;
  rewrite ?Hblank;
  lazymatch goal with
  | Hs : Base.send_error _ ?code ?m ?e ?s = (Ok _, ?h') |- reached _ _ ?h' =>
      let T := fresh "T" in
      pose proof (moves_send_error code m e eq_refl h s) as T;
      rewrite Hs in T; apply T; repeat split; state_fields;
      first [reflexivity | exact Hb]
  | Hs : Base.send_error _ _ _ _ _ = (Ok _, ?h') |- requestline ?h' = _ =>
      rewrite (requestline_after_error _ _ _ _ _ _ Hs);
      unfold request_line; rewrite Hlen; reflexivity
  | |- requestline _ = _ =>
      unfold request_line; rewrite Hlen; reflexivity
  | |- _ => repeat split; state_fields; first [reflexivity | exact Hb]
  end.

Lemma read_request_outcome (h h' : handler) (ok : bool) :
  headers_buffer h = [] ->
  Base.read_request P h = (Ok ok, h') ->
  let raw := fst (Base.readline 65537 (rfile h)) in
  (ok = true -> reached h Unanswered h' /\ blank_line raw = false)
  /\ (ok = false ->
      reached h (if blank_line raw then Unanswered else Finished) h')
  /\ (blank_line raw = false -> requestline h' = request_line raw).
Proof.
  intros Hb H raw. subst raw.
  unfold Base.read_request, Base.rfile_readline in H. unfold bind at 1 in H.
  destruct (Base.readline 65537 (rfile h)) as [line rest]. cbn [fst].
  rewrite bind_modify in H.
  destruct (65536 <? Py.len line)%Z eqn:Hlen.
  { pose proof (blank_long line Hlen) as Hblank.
    outcome_end h Hb Hlen Hblank. }
  destruct (Py.is_empty line) eqn:Hempty.
  { pose proof (blank_empty line Hempty) as Hblank.
    inv_run. rewrite Hblank.
    split; [discriminate|]. split; [|discriminate].
    intros _. repeat split; state_fields; first [reflexivity | exact Hb]. }
  unfold Base.parse_request, Base.parse_request_headers, Base.parse_headers in H.
  cbv zeta in H.
  change (Base.str_ge Base.protocol_version "HTTP/1.1") with false in H.
  repeat rewrite bind_modify in H.
  rewrite bind_gets in H. rewrite bind_modify in H.
  cbn [raw_requestline set_close_connection set_request_version set_command
       set_raw_requestline] in H.
  pose proof (blank_short line Hlen) as Hblank.
  destruct (_ =? 0)%nat.
  { inv_run. rewrite Hblank.
    split; [discriminate|]. split; [|discriminate].
    intros _. repeat split; state_fields; first [reflexivity | exact Hb]. }
  outcome_end h Hb Hlen Hblank.
Qed.

(** The outcome of a request, from a state in which no answer is begun:
    none when the first line is blank; an answer otherwise, unless the
    handler raises, which it does before it answers. *)
Lemma request_outcome (h : handler) :
  headers_buffer h = [] ->
  let raw := fst (Base.readline 65537 (rfile h)) in
  match CORS.handle_one_request P h with
  | (Ok _, h') =>
      reached h (if blank_line raw then Unanswered else Finished) h'
      /\ (blank_line raw = false -> requestline h' = request_line raw)
  | (Raise _, h') => reached h Unanswered h' /\ blank_line raw = false
  end.
Proof.
  intros Hb raw. subst raw.
  unfold CORS.handle_one_request, Base.handle_one_request.
  destruct (returns_read_request P h) as (ok & h1 & E).
  rewrite (bind_ok _ _ _ _ _ E).
  destruct (read_request_outcome h h1 ok Hb E) as (Ht & Hf & Hr).
  destruct ok; cbn [negb].
  - destruct (Ht eq_refl) as (H1 & Hblank). rewrite Hblank.
    pose proof (moves_dispatch h h1 H1) as T.
    pose proof (requestline_after_dispatch h1) as Rq. unfold exec in Rq.
    destruct (Base.dispatch P h1) as [[u|e] h']; cbn [snd] in Rq.
    + split; [exact T|]. intros _. rewrite Rq. now apply Hr.
    + now split.
  - unfold ret. split; [now apply Hf | exact Hr].
Qed.

End Outcome.

Section Answered.
Context (P : platform).
Import Observe.

(** The header block of an answer carries the three headers. *)
Lemma block_carries_cors (code : Z) (message : string) (hdrs : list hline) :
  no_cors hdrs -> carries_cors (block code message hdrs).
Proof.
  unfold no_cors, carries_cors, block. intros H.
  cbn [filter is_cors_line]. now rewrite filter_app, H.
Qed.

Lemma bodies_carry_cors (bodies : list string) :
  Forall carries_cors (map Body bodies).
Proof. induction bodies; now constructor. Qed.

(** Lines that were logged are flushed. *)
Lemma log_all_pending (entries : list (nat * string)) (t : textio) :
  entries <> [] -> pending (log_all P entries t) = "".
Proof.
  intros H. destruct (exists_last H) as (es & e & ->).
  unfold log_all. rewrite fold_left_app. reflexivity.
Qed.

Lemma answer_log_not_nil (tick : nat) (rl : string) (code : Z) (m : string) :
  answer_log tick rl code m <> [].
Proof. unfold answer_log. destruct (400 <=? code)%Z; discriminate. Qed.

(** The outcome of the request of a connection. *)
Lemma connection_outcome (client_bytes : string) (p : Main.process) :
  let h0 := Main.new_handler client_bytes p in
  let h' := exec (CORS.handle_one_request P) h0 in
  let raw := fst (Base.readline 65537 client_bytes) in
  (blank_line raw = true \/ outcome (CORS.handle_one_request P) h0 <> Ok tt ->
   wfile h' = [] /\ stdout h' = Main.out p)
  /\ (blank_line raw = false ->
      outcome (CORS.handle_one_request P) h0 = Ok tt ->
      requestline h' = request_line raw
      /\ exists code message hdrs bodies,
           wfile h'
           = ((if is_http09 h' then [] else [block code message hdrs])
              ++ map Body bodies)%list
           /\ no_cors hdrs
           /\ stdout h'
              = log_all P
                  (answer_log (Main.ticks p) (request_line raw) code message)
                  (Main.out p)).
Proof.
  intros h0 h' raw. subst h' raw.
  pose proof (request_outcome P h0 eq_refl) as H. cbv zeta in H.
  change (rfile h0) with client_bytes in H.
  unfold exec, outcome.
  destruct (CORS.handle_one_request P h0) as [[[]|e] h']; cbn [fst snd].
  - destruct H as (H & Hr). split.
    + intros [Hb | Hn]; [|now destruct Hn].
      rewrite Hb in H. destruct H as (Ew & _ & Es & _). now split.
    + intros Hb _. rewrite Hb in H. specialize (Hr Hb).
      split; [exact Hr|].
      destruct H as (code & message & hdrs & bodies & Ew & _ & Hn & Es).
      exists code, message, hdrs, bodies. rewrite <- Hr.
      now repeat split.
  - destruct H as ((Ew & _ & Es & _) & Hb). split.
    + intros _. now split.
    + intros _ Hn. discriminate Hn.
Qed.

(** The handler raises in file serving only. *)
Lemma raises_in_file_serving (h h' : handler) (e : exn) :
  CORS.handle_one_request P h = (Raise e, h') ->
  exists h1,
    CORS.read_request P h = (Ok true, h1)
    /\ (command h1 = Some "GET" \/ command h1 = Some "HEAD").
Proof.
  unfold CORS.handle_one_request, CORS.read_request, Base.handle_one_request.
  destruct (returns_read_request P h) as (ok & h1 & E).
  rewrite (bind_ok _ _ _ _ _ E). destruct ok; cbn [negb]; [|discriminate].
  intros H. exists h1. split; [exact E|].
  destruct (read_request_accepts P _ _ E) as (_ & c & Hc).
  destruct (string_dec c "GET") as [->|Hg]; [now left|].
  destruct (string_dec c "HEAD") as [->|Hh]; [now right|].
  exfalso. destruct (string_dec c "OPTIONS") as [->|Ho].
  - rewrite (dispatch_options P _ Hc) in H.
    assert (R : returns (CORS.do_OPTIONS P)).
    { unfold CORS.do_OPTIONS. apply returns_bind;
        [apply returns_send_response | intros; apply returns_end_headers]. }
    destruct (R h1) as (u & h2 & E2). rewrite E2 in H. discriminate.
  - rewrite (dispatch_other P _ _ Hc Hg Hh Ho) in H.
    destruct (returns_send_error P 501
                (Some ("Unsupported method (" ++ Py.repr c ++ ")")) None h1)
      as (u & h2 & E2).
    rewrite E2 in H. discriminate.
Qed.

End Answered.

(** C1, as the code has it.  For a connection whose first line is not
    blank and whose handler ends without an exception: when the version of
    the request, as the server has read it, is not HTTP/0.9, what the
    server sends starts with one header block, which is the status line,
    the headers of the answer, none of which has one of the three names,
    then the three headers with the values given, then the blank line;
    only body bytes follow it.  When the version is HTTP/0.9, what the
    server sends is body bytes, possibly none, and nothing else.  A
    connection whose first line is blank, or whose handler ends with an
    exception, is sent nothing.  In every case each header block that is
    sent carries the three headers.  The handler ends with an exception
    only for a request that it accepts and reads as a [GET] or a [HEAD]
    request. *)
Theorem C1_answers_carry_the_cors_headers
  (P : platform) (client_bytes : string) (p : Main.process) :
  Main.state p = Main.Serving ->
  let h0 := Main.new_handler client_bytes p in
  let h' := exec (CORS.handle_one_request P) h0 in
  let answer := wfile h' in
  let raw := fst (Base.readline 65537 client_bytes) in
  Main.sent (Main.step P p (Main.Connection client_bytes))
  = (Main.sent p ++ [answer])%list
  /\ (Observe.blank_line raw = false ->
      outcome (CORS.handle_one_request P) h0 = Ok tt ->
      (request_version h' <> "HTTP/0.9" ->
       exists code message hdrs bodies,
         answer
         = Head (StatusLine "HTTP/1.0" code message
                 :: hdrs ++ Observe.cors_lines ++ [BlankLine])
           :: map Body bodies
         /\ filter Observe.is_cors_line hdrs = [])
      /\ (request_version h' = "HTTP/0.9" ->
          exists bodies, answer = map Body bodies))
  /\ (Observe.blank_line raw = true
      \/ outcome (CORS.handle_one_request P) h0 <> Ok tt ->
      answer = [])
  /\ Forall Observe.carries_cors answer
  /\ (outcome (CORS.handle_one_request P) h0 <> Ok tt ->
      exists h1,
        CORS.read_request P h0 = (Ok true, h1)
        /\ (command h1 = Some "GET" \/ command h1 = Some "HEAD")).
Proof.
  intros Hs h0 h' answer raw. subst answer.
  destruct (connection_is_one_request P client_bytes p Hs) as (Hsent & _).
  destruct (connection_outcome P client_bytes p) as (Hquiet & Hans).
  fold h0 h' raw in Hquiet, Hans.
  split; [exact Hsent|]. split; [|split; [|split]].
  - intros Hb Ho.
    destruct (Hans Hb Ho) as (_ & code & message & hdrs & bodies & Ew & Hn & _).
    split.
    + intros Hv. apply not_http09 in Hv. rewrite Hv in Ew.
      now exists code, message, hdrs, bodies.
    + intros Hv. exists bodies. unfold is_http09 in Ew.
      now rewrite Hv in Ew.
  - intros H. now destruct (Hquiet H).
  - destruct (Observe.blank_line raw) eqn:Hb.
    { destruct Hquiet as (-> & _); [now left | constructor]. }
    destruct (outcome (CORS.handle_one_request P) h0) as [[]|e] eqn:Ho.
    + destruct (Hans eq_refl eq_refl)
        as (_ & code & message & hdrs & bodies & Ew & Hn & _).
      rewrite Ew. apply Forall_app. split; [|apply bodies_carry_cors].
      destruct (is_http09 h'); [constructor|].
      constructor; [now apply block_carries_cors | constructor].
    + destruct Hquiet as (-> & _); [right; discriminate | constructor].
  - unfold outcome. intros Ho.
    destruct (CORS.handle_one_request P h0) as [[[]|e] h2] eqn:E;
      [now destruct Ho|].
    exact (raises_in_file_serving P _ _ _ E).
Qed.

(** C1 at work: [GET /test-api.html]. *)
Lemma C1_answers_carry_the_cors_headers_witness :
  let p := Main.start Main.Bound in
  let bytes := Demo.request "GET /test-api.html HTTP/1.1" [] in
  let h0 := Main.new_handler bytes p in
  let h' := exec (CORS.handle_one_request Demo.host) h0 in
  let answer := wfile h' in
  let raw := fst (Base.readline 65537 bytes) in
  Main.sent (Main.step Demo.host p (Main.Connection bytes))
  = (Main.sent p ++ [answer])%list
  /\ (Observe.blank_line raw = false ->
      outcome (CORS.handle_one_request Demo.host) h0 = Ok tt ->
      (request_version h' <> "HTTP/0.9" ->
       exists code message hdrs bodies,
         answer
         = Head (StatusLine "HTTP/1.0" code message
                 :: hdrs ++ Observe.cors_lines ++ [BlankLine])
           :: map Body bodies
         /\ filter Observe.is_cors_line hdrs = [])
      /\ (request_version h' = "HTTP/0.9" ->
          exists bodies, answer = map Body bodies))
  /\ (Observe.blank_line raw = true
      \/ outcome (CORS.handle_one_request Demo.host) h0 <> Ok tt ->
      answer = [])
  /\ Forall Observe.carries_cors answer
  /\ (outcome (CORS.handle_one_request Demo.host) h0 <> Ok tt ->
      exists h1,
        CORS.read_request Demo.host h0 = (Ok true, h1)
        /\ (command h1 = Some "GET" \/ command h1 = Some "HEAD")).
Proof.
  apply (C1_answers_carry_the_cors_headers Demo.host
           (Demo.request "GET /test-api.html HTTP/1.1" [])
           (Main.start Main.Bound)).
  reflexivity.
Defined.

(** C1, as stated, fails: a request line without a version is an
    HTTP/0.9 request, and the answer to it is the bytes of the file and
    nothing else. *)
Lemma C1_http09_answer_has_no_headers :
  Main.sent (Main.run Demo.host Main.Bound
               [Main.Connection (Demo.request "GET /test-api.html" [])])
  = [[Body Demo.page]]
  /\ Observe.has_header [Body Demo.page] "Access-Control-Allow-Origin" "*"
     = false.
Proof. split; vm_compute; reflexivity. Qed.

(** C6, as the code has it.  A request that is answered (the first line
    of the connection is not blank and the handler ends without an
    exception) adds to standard output the access-log line of the answer:
    it shows the request line as it was read and the status of the answer;
    when the status is 400 or more, the line is preceded by one line with
    the status and the message of the error, which are those of the status
    line.  Each line is written and flushed at once, and is of the form
    [[YYYY-MM-DD HH:MM:SS] message], the clock showing a year of four
    digits.  A connection that is not answered adds nothing. *)
Theorem C6_log_lines_of_a_request
  (P : platform) (client_bytes : string) (p : Main.process) :
  (forall n, Observe.plausible (localtime P (time_time P n))) ->
  let h0 := Main.new_handler client_bytes p in
  let h' := exec (CORS.handle_one_request P) h0 in
  let raw := fst (Base.readline 65537 client_bytes) in
  (Observe.blank_line raw = false ->
   outcome (CORS.handle_one_request P) h0 = Ok tt ->
   exists code message,
     stdout h'
     = Observe.log_all P
         (Observe.answer_log (Main.ticks p) (Observe.request_line raw)
            code message)
         (Main.out p)
     /\ pending (stdout h') = ""
     /\ (pending (Main.out p) = "" ->
         device (stdout h')
         = device (Main.out p)
           ++ String.concat ""
                (map (fun e => Observe.log_line P (fst e) (snd e))
                   (Observe.answer_log (Main.ticks p)
                      (Observe.request_line raw) code message)))
     /\ (request_version h' <> "HTTP/0.9" ->
         exists lines rest,
           wfile h' = Head (StatusLine "HTTP/1.0" code message :: lines) :: rest))
  /\ (Observe.blank_line raw = true
      \/ outcome (CORS.handle_one_request P) h0 <> Ok tt ->
      stdout h' = Main.out p /\ wfile h' = [])
  /\ (Main.state p = Main.Serving ->
      Main.out (Main.step P p (Main.Connection client_bytes)) = stdout h')
  /\ (forall tick message,
        exists ts,
          Observe.is_timestamp ts = true
          /\ Observe.log_line P tick message
             = Py.encode_utf8 ("[" ++ ts ++ "] " ++ message ++ Base.nl)).
Proof.
  intros Hclock h0 h' raw.
  destruct (connection_outcome P client_bytes p) as (Hquiet & Hans).
  fold h0 h' raw in Hquiet, Hans.
  split; [|split; [|split]].
  - intros Hb Ho.
    destruct (Hans Hb Ho) as (_ & code & message & hdrs & bodies & Ew & _ & Es).
    exists code, message. split; [exact Es|]. split; [|split].
    + rewrite Es. apply log_all_pending, answer_log_not_nil.
    + intros Hp. rewrite Es, (log_all_flushed P _ _ Hp). reflexivity.
    + intros Hv. apply not_http09 in Hv. rewrite Hv in Ew.
      rewrite Ew. unfold block. cbn [app]. now eexists _, _.
  - intros H. destruct (Hquiet H). now split.
  - intros Hs.
    now destruct (connection_is_one_request P client_bytes p Hs) as (_ & Ho & _).
  - intros tick message.
    exists (CORS.strftime (localtime P (time_time P tick))).
    split; [apply strftime_is_timestamp, Hclock | reflexivity].
Qed.

(** C6 at work: [GET /test-api.html]. *)
Lemma C6_log_lines_of_a_request_witness :
  let p := Main.start Main.Bound in
  let bytes := Demo.request "GET /test-api.html HTTP/1.1" [] in
  let h0 := Main.new_handler bytes p in
  let h' := exec (CORS.handle_one_request Demo.host) h0 in
  let raw := fst (Base.readline 65537 bytes) in
  (Observe.blank_line raw = false ->
   outcome (CORS.handle_one_request Demo.host) h0 = Ok tt ->
   exists code message,
     stdout h'
     = Observe.log_all Demo.host
         (Observe.answer_log (Main.ticks p) (Observe.request_line raw)
            code message)
         (Main.out p)
     /\ pending (stdout h') = ""
     /\ (pending (Main.out p) = "" ->
         device (stdout h')
         = device (Main.out p)
           ++ String.concat ""
                (map (fun e => Observe.log_line Demo.host (fst e) (snd e))
                   (Observe.answer_log (Main.ticks p)
                      (Observe.request_line raw) code message)))
     /\ (request_version h' <> "HTTP/0.9" ->
         exists lines rest,
           wfile h' = Head (StatusLine "HTTP/1.0" code message :: lines) :: rest))
  /\ (Observe.blank_line raw = true
      \/ outcome (CORS.handle_one_request Demo.host) h0 <> Ok tt ->
      stdout h' = Main.out p /\ wfile h' = [])
  /\ (Main.state p = Main.Serving ->
      Main.out (Main.step Demo.host p (Main.Connection bytes)) = stdout h')
  /\ (forall tick message,
        exists ts,
          Observe.is_timestamp ts = true
          /\ Observe.log_line Demo.host tick message
             = Py.encode_utf8 ("[" ++ ts ++ "] " ++ message ++ Base.nl)).
Proof.
  apply (C6_log_lines_of_a_request Demo.host
           (Demo.request "GET /test-api.html HTTP/1.1" [])
           (Main.start Main.Bound)).
  intros n. unfold Observe.plausible. simpl. lia.
Defined.

(** C6, as stated, fails: a request for a file that is not there adds two
    lines, the line of the error and then the access-log line. *)
Lemma C6_missing_file_logs_two_lines :
  let h := Demo.connect (Demo.request "GET /missing HTTP/1.1" []) in
  let h' := exec (CORS.handle_one_request Demo.host) h in
  stdout h'
  = Observe.log_all Demo.host
      [ (0%nat, Observe.error_message 404 "File not found");
        (1%nat, Observe.access_message "GET /missing HTTP/1.1" 404) ]
      (stdout h)
  /\ Observe.count_lines (device (stdout h'))
     = (Observe.count_lines (device (stdout h)) + 2)%nat.
Proof. split; vm_compute; reflexivity. Qed.

(** * Further properties of the handler and of the main block *)

(** ** What is written to the connection *)

Section Written.
Context (P : platform) (good : wfile_write -> Prop).

(** The writes since a state are all [good]. *)
Definition written (h h' : handler) : Prop :=
  exists ws, wfile h' = (wfile h ++ ws)%list /\ Forall good ws.

Lemma written_refl (h : handler) : written h h.
Proof. exists []. split; [now rewrite app_nil_r | constructor]. Qed.

Lemma written_trans (a b c : handler) :
  written a b -> written b c -> written a c.
Proof.
  intros (ws1 & E1 & F1) (ws2 & E2 & F2). exists (ws1 ++ ws2)%list. split.
  - rewrite E2, E1. now rewrite app_assoc.
  - apply Forall_app. now split.
Qed.

Lemma written_nothing (h h' : handler) : wfile h' = wfile h -> written h h'.
Proof. intros E. exists []. split; [now rewrite app_nil_r | constructor]. Qed.

Lemma written_one (w : wfile_write) (h h' : handler) :
  good w -> wfile h' = (wfile h ++ [w])%list -> written h h'.
Proof. intros Hw E. exists [w]. split; [exact E | now repeat constructor]. Qed.

Hypothesis good_block :
  forall lines, good (Head (lines ++ Observe.cors_lines ++ [BlankLine])).
Hypothesis good_body : forall data, good (Body data).

Ltac nothing_written :=
  pres_structure written_refl written_trans
    ltac:(apply preserves_modify; intros; apply written_nothing; reflexivity).

Lemma written_send_header (keyword value : string) :
  preserves written (Base.send_header keyword value).
Proof. unfold Base.send_header, Base.buffer_append. nothing_written. Qed.

Lemma written_end_headers : preserves written CORS.end_headers.
Proof.
  intros h. unfold exec. destruct (is_http09 h) eqn:Hv.
  - rewrite end_headers_09 by exact Hv. apply written_refl.
  - rewrite end_headers_1x by exact Hv.
    apply (written_one (Head (headers_buffer h ++ Observe.cors_lines
                              ++ [BlankLine]))); [apply good_block|].
    reflexivity.
Qed.

Lemma written_body (data : string) :
  preserves written (Base.wfile_write_bytes (Body data)).
Proof.
  intros h. apply (written_one (Body data)); [apply good_body | reflexivity].
Qed.

Lemma written_response_calls : response_calls P written.
Proof.
  pose proof written_body as Hb.
  constructor.
  - apply written_refl.
  - apply written_trans.
  - intros h. now apply written_nothing.
  - intros. apply written_send_header.
  - apply written_send_header.
  - intros. unfold Base.send_response_only, Base.buffer_append.
    nothing_written.
  - intros. unfold CORS.log_message, CORS.stdout_write, CORS.stdout_flush.
    nothing_written.
  - apply written_end_headers.
  - intros body. unfold write_error_body.
    pres_structure written_refl written_trans ltac:(apply Hb).
  - intros c. unfold Simple.oscall_log. nothing_written.
Qed.

Lemma written_request_calls : request_calls P written.
Proof.
  constructor.
  - apply written_response_calls.
  - intros data. unfold Simple.copyfile.
    destruct (Py.is_empty data); [apply (preserves_ret _ written_refl)|].
    apply written_body.
  - intros limit h. unfold exec, Base.rfile_readline.
    destruct (Base.readline limit (rfile h)). now apply written_nothing.
  - intros f Hf. apply preserves_modify. intros h.
    destruct Hf; now apply written_nothing.
Qed.

End Written.

(** A header block that ends with the three headers of [end_headers], in
    the order of the source, and the blank line. *)
Definition ends_with_cors (w : wfile_write) : Prop :=
  match w with
  | Head lines => exists sent, lines = (sent ++ Observe.cors_lines ++ [BlankLine])%list
  | Body _ => True
  end.

(** The three headers are the last lines of every header block, before
    the blank line that ends it: whatever the server is sent and whatever
    it answers, nothing follows them in a block and no block lacks them. *)
Theorem cors_headers_end_every_block
  (P : platform) (b : Main.bind_result) (events : list Main.event) :
  Forall (Forall ends_with_cors) (Main.sent (Main.run P b events)).
Proof.
  unfold Main.run.
  assert (H0 : Forall (Forall ends_with_cors) (Main.sent (Main.start b)))
    by (destruct b; constructor).
  revert H0. generalize (Main.start b) as p.
  induction events as [|e events IH]; intros p Hp; simpl; [exact Hp|].
  apply IH. unfold Main.step.
  destruct (Main.state p) eqn:Hs; [|exact Hp|exact Hp].
  destruct e as [bytes|].
  - unfold Main.handle_request.
    assert (K : written ends_with_cors (Main.new_handler bytes p)
                  (exec (CORS.handle P) (Main.new_handler bytes p))).
    { apply request_handle, written_request_calls.
      - intros lines. now exists lines.
      - intros data. exact I. }
    unfold exec in K.
    destruct (CORS.handle P (Main.new_handler bytes p)) as [r h]. simpl in *.
    apply Forall_app. split; [exact Hp|]. constructor; [|constructor].
    destruct K as (ws & E & F). rewrite E. exact F.
  - unfold Main.interrupted, Main.shutdown, Main.serve_forever_finally,
      Main.print_out; simpl. rewrite Hs. exact Hp.
Qed.

(** ** Requests without a version *)

(** A write of body bytes. *)
Definition is_body (w : wfile_write) : Prop :=
  match w with Body _ => True | Head _ => False end.

Section Http09.
Context (P : platform).

(** The calls that build a response leave the version of the request as
    it is, and while it is HTTP/0.9 they write body bytes only. *)
Definition bare (h h' : handler) : Prop :=
  request_version h' = request_version h
  /\ (is_http09 h = true -> written is_body h h').

Lemma bare_refl (h : handler) : bare h h.
Proof. split; [reflexivity | intros _; apply written_refl]. Qed.

Lemma bare_trans (a b c : handler) : bare a b -> bare b c -> bare a c.
Proof.
  intros (V1 & W1) (V2 & W2). split; [congruence|].
  intros Ha. apply (written_trans _ a b c); [now apply W1|].
  apply W2. unfold is_http09 in *. now rewrite V1.
Qed.

Lemma bare_nothing (h h' : handler) :
  request_version h' = request_version h -> wfile h' = wfile h -> bare h h'.
Proof. intros V W. split; [exact V | intros _; now apply written_nothing]. Qed.

Ltac bare_quiet :=
  pres_structure bare_refl bare_trans
    ltac:(apply preserves_modify; intros; apply bare_nothing; reflexivity).

Lemma bare_send_header (keyword value : string) :
  preserves bare (Base.send_header keyword value).
Proof. unfold Base.send_header, Base.buffer_append. bare_quiet. Qed.

Lemma bare_body (data : string) :
  preserves bare (Base.wfile_write_bytes (Body data)).
Proof.
  intros h. split; [reflexivity|]. intros _.
  apply (written_one _ (Body data)); [exact I | reflexivity].
Qed.

Lemma bare_end_headers : preserves bare CORS.end_headers.
Proof.
  intros h. unfold exec. destruct (is_http09 h) eqn:Hv.
  - rewrite end_headers_09 by exact Hv. apply bare_refl.
  - rewrite end_headers_1x by exact Hv. split; [reflexivity | congruence].
Qed.

Lemma bare_response_calls : response_calls P bare.
Proof.
  pose proof bare_body as Hb.
  constructor.
  - apply bare_refl.
  - apply bare_trans.
  - intros h. now apply bare_nothing.
  - intros. apply bare_send_header.
  - apply bare_send_header.
  - intros. unfold Base.send_response_only, Base.buffer_append. bare_quiet.
  - intros. unfold CORS.log_message, CORS.stdout_write, CORS.stdout_flush.
    bare_quiet.
  - apply bare_end_headers.
  - intros body. unfold write_error_body.
    pres_structure bare_refl bare_trans ltac:(apply Hb).
  - intros c. unfold Simple.oscall_log. bare_quiet.
Qed.

Lemma bare_copyfile (data : string) : preserves bare (Simple.copyfile data).
Proof.
  unfold Simple.copyfile.
  destruct (Py.is_empty data); [apply (preserves_ret _ bare_refl)|].
  apply bare_body.
Qed.

(** An error answer that leaves the version HTTP/0.9 was written for that
    version. *)
Lemma bare_error (code : Z) (message explain : option string)
  (h h' : handler) (u : unit) :
  Base.send_error P code message explain h = (Ok u, h') ->
  is_http09 h' = true -> written is_body h h'.
Proof.
  intros E Hv.
  pose proof (response_send_error P bare bare_response_calls
                code message explain h) as (V & W).
  unfold exec in V, W. rewrite E in V, W. cbn [snd] in V, W.
  apply W. unfold is_http09 in *. now rewrite <- V.
Qed.

Lemma version_after_error (code : Z) (message explain : option string)
  (h h' : handler) (u : unit) :
  Base.send_error P code message explain h = (Ok u, h') ->
  request_version h' = request_version h.
Proof.
  intros E.
  pose proof (response_send_error P bare bare_response_calls
                code message explain h) as (V & _).
  unfold exec in V. now rewrite E in V.
Qed.

End Http09.

Section Http09Requests.
Context (P : platform).

(** What a run of [read_request] has come to: an error answer sent from a
    state in which nothing was written yet, or such a state itself. *)
Ltac headers_read :=
  repeat match goal with
    | Hr : Base.read_headers ?f ?a ?s = (Ok _, ?x) |- _ =>
        let r := fresh "r" in
        let rest := fresh "rest" in
        let Er := fresh "Er" in
        destruct (read_headers_run f a s) as (r & rest & Er);
        rewrite Er in Hr; inversion Hr; subst; clear Hr Er
    end.

Ltac rejected_end h Hv :=
  inv_run; headers_read; inv_run;
  try match goal with
      | H : _ && false = true |- _ =>
          rewrite andb_false_r in H; discriminate H
      | H : _ && false && _ = true |- _ =>
          rewrite andb_false_r in H; discriminate H
      end;
  try discriminate;
  lazymatch goal with
  | Hs : Base.send_error _ _ _ _ ?s = (Ok _, ?h') |- written _ _ ?h' =>
      apply (written_trans _ h s h');
      [ apply written_nothing; reflexivity
      | exact (bare_error P _ _ _ _ _ _ Hs Hv) ]
  | |- written _ _ _ => apply written_nothing; reflexivity
  end.

Lemma rejected_bare (h h' : handler) :
  Base.read_request P h = (Ok false, h') ->
  is_http09 h' = true -> written is_body h h'.
Proof.
  intros H Hv. unfold Base.read_request in H.
  destruct (rfile_readline_run 65537 h) as (line & rest & E).
  rewrite (bind_ok _ _ _ _ _ E) in H. rewrite bind_modify in H. clear E.
  destruct (65536 <? Py.len line)%Z.
  { inv_run.
    match goal with
    | Hs : Base.send_error _ _ _ _ _ = _ |- _ =>
        apply version_after_error in Hs
    end.
    unfold is_http09 in Hv. rewrite H0 in Hv. discriminate. }
  destruct (Py.is_empty line); [rejected_end h Hv|].
  unfold Base.parse_request, Base.parse_request_headers, Base.parse_headers in H.
  cbv zeta in H.
  change (Base.str_ge Base.protocol_version "HTTP/1.1") with false in H.
  repeat rewrite bind_modify in H.
  rewrite bind_gets in H. rewrite bind_modify in H.
  cbn [raw_requestline set_close_connection set_request_version set_command
       set_raw_requestline] in H.
  set (requestline := Py.rstrip Py.is_crlf line) in H.
  set (words := Py.split_ws requestline) in H.
  destruct (_ =? 0)%nat; [rejected_end h Hv|].
  rejected_end h Hv.
Qed.
End Http09Requests.

(** A request that leaves the version at HTTP/0.9 once it is read (its
    line names no version, or the version HTTP/0.9, or a version that is
    refused) is answered without a status line and without a header,
    those of [end_headers] included: what is written is body bytes. *)
Theorem http09_answer_is_body_only (P : platform) (h : handler) :
  request_version (exec (Base.read_request P) h) = "HTTP/0.9" ->
  exists ws,
    wfile (exec (CORS.handle_one_request P) h) = (wfile h ++ ws)%list
    /\ Forall is_body ws.
Proof.
  intros Hv. unfold exec in *.
  destruct (returns_read_request P h) as (ok & h1 & E).
  rewrite E in Hv. cbn [snd] in Hv.
  assert (H9 : is_http09 h1 = true) by (unfold is_http09; now rewrite Hv).
  unfold CORS.handle_one_request, Base.handle_one_request.
  rewrite (bind_ok _ _ _ _ _ E). destruct ok; cbn [negb].
  - destruct (read_request_accepts P _ _ E) as ((Hw & _) & _).
    destruct (response_dispatch P bare (bare_response_calls P)
                bare_copyfile h1) as (_ & W).
    destruct (W H9) as (ws & Ew & F). exists ws. unfold exec in Ew.
    split; [now rewrite Ew, Hw | exact F].
  - apply (rejected_bare P _ _ E H9).
Qed.

(** At work: a request for a version that is refused. *)
Lemma http09_answer_is_body_only_witness :
  exists ws,
    wfile (exec (CORS.handle_one_request Demo.host)
             (Demo.connect (Demo.request "GET /test-api.html HTTP/2.0" [])))
    = (wfile (Demo.connect (Demo.request "GET /test-api.html HTTP/2.0" []))
       ++ ws)%list
    /\ Forall is_body ws.
Proof.
  apply (http09_answer_is_body_only Demo.host
           (Demo.connect (Demo.request "GET /test-api.html HTTP/2.0" []))).
  vm_compute. reflexivity.
Defined.

(** ** [HEAD] requests *)

(** A write of a header block. *)
Definition is_block (w : wfile_write) : Prop :=
  match w with Head _ => True | Body _ => False end.

Section Head.
Context (P : platform).

(** While the method is [HEAD], header blocks are written and no body. *)
Definition headers_only (h h' : handler) : Prop :=
  command h' = command h
  /\ (command h = Some "HEAD" -> written is_block h h').

Lemma headers_only_refl (h : handler) : headers_only h h.
Proof. split; [reflexivity | intros _; apply written_refl]. Qed.

Lemma headers_only_trans (a b c : handler) :
  headers_only a b -> headers_only b c -> headers_only a c.
Proof.
  intros (V1 & W1) (V2 & W2). split; [congruence|].
  intros Ha. apply (written_trans _ a b c); [now apply W1|].
  apply W2. now rewrite V1.
Qed.

Lemma headers_only_nothing (h h' : handler) :
  command h' = command h -> wfile h' = wfile h -> headers_only h h'.
Proof. intros V W. split; [exact V | intros _; now apply written_nothing]. Qed.

Ltac head_quiet :=
  pres_structure headers_only_refl headers_only_trans
    ltac:(apply preserves_modify; intros; apply headers_only_nothing;
          reflexivity).

Lemma headers_only_send_header (keyword value : string) :
  preserves headers_only (Base.send_header keyword value).
Proof. unfold Base.send_header, Base.buffer_append. head_quiet. Qed.

Lemma headers_only_end_headers : preserves headers_only CORS.end_headers.
Proof.
  intros h. unfold exec. destruct (is_http09 h) eqn:Hv.
  - rewrite end_headers_09 by exact Hv. apply headers_only_refl.
  - rewrite end_headers_1x by exact Hv. split; [reflexivity|]. intros _.
    eapply written_one; [|reflexivity]. exact I.
Qed.

(** The page of an error is not sent to a [HEAD] request. *)
Lemma headers_only_error_body (body : option string) :
  preserves headers_only (write_error_body body).
Proof.
  intros h. split.
  - unfold exec, write_error_body. rewrite bind_gets.
    destruct body as [b|]; [|reflexivity].
    now destruct (negb _ && negb _).
  - intros Hc. unfold exec, write_error_body. rewrite bind_gets, Hc.
    destruct body as [b|]; apply written_refl.
Qed.

Lemma headers_only_response_calls : response_calls P headers_only.
Proof.
  constructor.
  - apply headers_only_refl.
  - apply headers_only_trans.
  - intros h. now apply headers_only_nothing.
  - intros. apply headers_only_send_header.
  - apply headers_only_send_header.
  - intros. unfold Base.send_response_only, Base.buffer_append. head_quiet.
  - intros. unfold CORS.log_message, CORS.stdout_write, CORS.stdout_flush.
    head_quiet.
  - apply headers_only_end_headers.
  - apply headers_only_error_body.
  - intros c. unfold Simple.oscall_log. head_quiet.
Qed.

Lemma body_of_blocks (ws : list wfile_write) :
  Forall is_block ws -> Observe.body ws = "".
Proof.
  induction 1 as [|w ws Hw _ IH]; [reflexivity|].
  destruct w; [|contradiction]. unfold Observe.body in *.
  cbn [map]. rewrite concat_cons. exact IH.
Qed.

End Head.



(** ** The header block of a file *)

(** A request that the server accepts and reads as a [GET] or a [HEAD]
    request of a version other than HTTP/0.9, for a file the server can
    read, not answered 304: one header block is sent, the same for both
    methods, with the lines in this order; a [HEAD] request gets no
    body. *)
Theorem file_header_block
  (P : platform) (client_bytes : string) (p : Main.process)
  (h1 : handler) (c content : string) (mtime : Z) :
  CORS.read_request P (Main.new_handler client_bytes p) = (Ok true, h1) ->
  command h1 = Some c ->
  c = "GET" \/ c = "HEAD" ->
  request_version h1 <> "HTTP/0.9" ->
  Observe.names_file P (Simple.translate_path P (path h1)) content mtime ->
  Simple.not_modified P (headers h1) mtime = false ->
  let file := Simple.translate_path P (path h1) in
  let h' := exec (CORS.handle_one_request P) (Main.new_handler client_bytes p) in
  Observe.header_lines (wfile h')
  = [ StatusLine "HTTP/1.0" 200 "OK";
      HeaderLine "Server" (Base.version_string P);
      HeaderLine "Date" (formatdate P (time_time P (S (Main.ticks p))));
      HeaderLine "Content-type" (guess_type P file);
      HeaderLine "Content-Length" (Py.str_int (Py.len content));
      HeaderLine "Last-Modified" (formatdate P mtime);
      HeaderLine "Access-Control-Allow-Origin" "*";
      HeaderLine "Access-Control-Allow-Methods"
                 "GET, POST, OPTIONS, PUT, DELETE";
      HeaderLine "Access-Control-Allow-Headers" "Content-Type, Authorization";
      BlankLine ]
  /\ (c = "HEAD" -> Observe.body (wfile h') = "").
Proof.
  intros Hr Hc Hm Hv Hf Hn file h'. subst h'. unfold exec.
  rewrite (handle_accepted P _ _ Hr).
  destruct (fresh_accepted P _ _ _ Hr) as (Ew & Eb & _ & Ek & Eo).
  destruct Hm as [-> | ->].
  - rewrite (dispatch_get P _ Hc).
    rewrite (do_GET_found P content mtime h1 (not_http09 _ Hv) Hf Hn).
    cbn [snd]. fold file.
    destruct (Py.is_empty content);
      unfold after_file, after_status, after_log, with_calls; state_fields;
      rewrite Ew, Eb, Ek; cbn [app Observe.header_lines flat_map];
      rewrite <- ?app_assoc; cbn [app];
      (split; [reflexivity | discriminate]).
  - rewrite (dispatch_head P _ Hc). unfold Simple.do_HEAD.
    rewrite (bind_ok _ _ _ _ _
               (send_head_found P content mtime h1 (not_http09 _ Hv) Hf Hn)).
    cbn [snd ret]. fold file.
    unfold after_file, after_status, after_log, with_calls; state_fields.
    rewrite Ew, Eb, Ek. cbn [app Observe.header_lines flat_map].
    rewrite <- ?app_assoc. cbn [app].
    split; [reflexivity | intros _; reflexivity].
Qed.

(** At work: [HEAD /test-api.html]. *)
Lemma file_header_block_witness :
  let bytes := Demo.request "HEAD /test-api.html HTTP/1.1" [] in
  let h' := exec (CORS.handle_one_request Demo.host)
                 (Main.new_handler bytes (Main.start Main.Bound)) in
  Observe.header_lines (wfile h')
  = [ StatusLine "HTTP/1.0" 200 "OK";
      HeaderLine "Server" "SimpleHTTP/0.6 Python/3.11.2";
      HeaderLine "Date" "Tue, 14 Nov 2023 22:13:20 GMT";
      HeaderLine "Content-type" "text/html";
      HeaderLine "Content-Length" "17";
      HeaderLine "Last-Modified" "Tue, 14 Nov 2023 22:13:20 GMT";
      HeaderLine "Access-Control-Allow-Origin" "*";
      HeaderLine "Access-Control-Allow-Methods"
                 "GET, POST, OPTIONS, PUT, DELETE";
      HeaderLine "Access-Control-Allow-Headers" "Content-Type, Authorization";
      BlankLine ]
  /\ ("HEAD" = "HEAD" -> Observe.body (wfile h') = "").
Proof.
  apply (file_header_block Demo.host
           (Demo.request "HEAD /test-api.html HTTP/1.1" [])
           (Main.start Main.Bound)
           (exec (CORS.read_request Demo.host)
              (Demo.connect (Demo.request "HEAD /test-api.html HTTP/1.1" [])))
           "HEAD" Demo.page 1700000000).
  - vm_compute. reflexivity.
  - vm_compute. reflexivity.
  - right. reflexivity.
  - vm_compute. discriminate.
  - repeat split; vm_compute; reflexivity.
  - vm_compute. reflexivity.
Defined.

(** ** The request as it was sent *)

Section Accepted.
Context (P : platform).

(** The first line of what is left to read, without its end of line. *)
Definition first_line (h : handler) : string :=
  Py.rstrip Py.is_crlf (fst (Base.readline 65537 (rfile h))).

(** A request that is accepted keeps its line as it was sent, and its
    method is the first word of the line. *)
Lemma accepted_line (h h1 : handler) :
  Base.read_request P h = (Ok true, h1) ->
  requestline h1 = first_line h
  /\ command h1 = Some (nth 0 (Py.split_ws (first_line h)) "").
Proof.
  intros H. unfold Base.read_request, Base.rfile_readline in H.
  unfold first_line. unfold bind at 1 in H.
  destruct (Base.readline 65537 (rfile h)) as [line rest]. cbn [fst].
  rewrite bind_modify in H.
  destruct (65536 <? Py.len line)%Z; [inv_run; discriminate|].
  destruct (Py.is_empty line); [inv_run; discriminate|].
  unfold Base.parse_request, Base.parse_request_headers, Base.parse_headers in H.
  cbv zeta in H.
  change (Base.str_ge Base.protocol_version "HTTP/1.1") with false in H.
  repeat rewrite bind_modify in H.
  rewrite bind_gets in H. rewrite bind_modify in H.
  cbn [raw_requestline set_close_connection set_request_version set_command
       set_raw_requestline] in H.
  set (requestline := Py.rstrip Py.is_crlf line) in *.
  set (words := Py.split_ws requestline) in *.
  destruct (_ =? 0)%nat; [discriminate|].
  inv_run;
    repeat match goal with
      | Hr : Base.read_headers ?f ?a ?s = (Ok _, ?x) |- _ =>
          let r := fresh "r" in
          let rest := fresh "rest" in
          let Er := fresh "Er" in
          destruct (read_headers_run f a s) as (r & rest & Er);
          rewrite Er in Hr; inversion Hr; subst; clear Hr Er
      end;
    inv_run;
    try match goal with
        | H : _ && false = true |- _ =>
            rewrite andb_false_r in H; discriminate H
        | H : _ && false && _ = true |- _ =>
            rewrite andb_false_r in H; discriminate H
        end;
    try discriminate.
  all: split; reflexivity.
Qed.

End Accepted.

Section ResponseLog.
Context (P : platform).

(** What [send_response] adds to standard output, whatever the version
    of the request. *)
Lemma stdout_send_response (code : Z) (message : option string) (h : handler) :
  stdout (exec (Base.send_response P code message) h)
  = Observe.log_all P
      [(clock h, Observe.access_message (requestline h) code)] (stdout h).
Proof.
  unfold Base.send_response.
  rewrite (exec_bind_ok _ _ _ _ _ (log_request_run P code h)).
  rewrite <- stdout_after_log.
  assert (H : preserves same_log
                (Base.send_response_only code message;;
                 Base.send_header "Server" (Base.version_string P);;
                 d <- Base.date_time_string P None;;
                 Base.send_header "Date" d)).
  { unfold Base.date_time_string.
    pres_structure same_log_refl same_log_trans
      ltac:(first [ apply (silent_send_response_only P)
                  | apply (silent_send_header P)
                  | apply silent_time_now ]). }
  apply H.
Qed.

End ResponseLog.



(** ** Requests that are not answered, or not read *)

Lemma rfile_readline_eq (limit : Z) (h : handler) :
  Base.rfile_readline limit h
  = (Ok (fst (Base.readline limit (rfile h))),
     set_rfile (snd (Base.readline limit (rfile h))) h).
Proof.
  unfold Base.rfile_readline. now destruct (Base.readline limit (rfile h)).
Qed.

(** A connection that sends nothing, or a first line of white space only
    (of at most 65536 bytes): the handler returns without an answer and
    without a log line, the file system is not looked at, and the
    connection is to be closed. *)
Theorem blank_request_is_ignored (P : platform) (h : handler) :
  (Py.len (fst (Base.readline 65537 (rfile h))) <= 65536)%Z ->
  Py.split_ws (first_line h) = [] ->
  let h' := exec (CORS.handle_one_request P) h in
  outcome (CORS.handle_one_request P) h = Ok tt
  /\ wfile h' = wfile h /\ stdout h' = stdout h /\ oscalls h' = oscalls h
  /\ close_connection h' = true.
Proof.
  intros Hl Hw h'. subst h'. unfold exec, outcome, first_line in *.
  unfold CORS.handle_one_request, Base.handle_one_request, Base.read_request.
  set (line := fst (Base.readline 65537 (rfile h))) in *.
  set (rest := snd (Base.readline 65537 (rfile h))).
  assert (E : exists h1,
             (raw <- Base.rfile_readline 65537;;
              modify (set_raw_requestline raw);;
              (if (65536 <? Py.len raw)%Z
               then
                modify (set_requestline "");;
                modify (set_request_version "");;
                modify (set_command (Some ""));;
                Base.send_error P 414 None None;; ret false
               else
                if Py.is_empty raw
                then modify (set_close_connection true);; ret false
                else Base.parse_request P)) h = (Ok false, h1)
             /\ wfile h1 = wfile h /\ stdout h1 = stdout h
             /\ oscalls h1 = oscalls h /\ close_connection h1 = true).
  { rewrite (bind_ok _ _ _ _ _ (rfile_readline_eq 65537 h)).
    fold line rest. rewrite bind_modify.
    apply Z.ltb_ge in Hl. rewrite Hl.
    destruct (Py.is_empty line).
    - rewrite bind_modify. eexists. split; [reflexivity|]. now repeat split.
    - unfold Base.parse_request. repeat rewrite bind_modify.
      rewrite bind_gets, bind_modify.
      cbn [raw_requestline set_close_connection set_request_version
           set_command set_raw_requestline].
      rewrite Hw. cbn [Datatypes.length Nat.eqb].
      eexists. split; [reflexivity|]. now repeat split. }
  destruct E as (h1 & E & H). rewrite (bind_ok _ _ _ _ _ E).
  cbn [negb ret fst snd]. split; [reflexivity | exact H].
Qed.

(** At work: an empty line. *)
Lemma blank_request_is_ignored_witness :
  let h := Demo.connect crlf in
  let h' := exec (CORS.handle_one_request Demo.host) h in
  outcome (CORS.handle_one_request Demo.host) h = Ok tt
  /\ wfile h' = wfile h /\ stdout h' = stdout h /\ oscalls h' = oscalls h
  /\ close_connection h' = true.
Proof.
  apply (blank_request_is_ignored Demo.host (Demo.connect crlf)).
  - vm_compute. discriminate.
  - vm_compute. reflexivity.
Defined.

Lemma send_error_414 (P : platform) :
  Base.send_error P 414 None None
  = Base.send_error P 414 (Some "Request-URI Too Long") None.
Proof. reflexivity. Qed.

(** A first line of more than 65536 bytes is not read to its end and not
    looked at: the answer has status 414, the access-log line shows an
    empty request line, after the line of the error, and the file system
    is not looked at. *)
Theorem long_request_line_is_414
  (P : platform) (client_bytes : string) (p : Main.process) :
  (65536 < Py.len (fst (Base.readline 65537 client_bytes)))%Z ->
  let h0 := Main.new_handler client_bytes p in
  let h' := exec (CORS.handle_one_request P) h0 in
  outcome (CORS.handle_one_request P) h0 = Ok tt
  /\ Observe.status (wfile h') = Some 414%Z
  /\ stdout h'
     = Observe.log_all P
         [ (Main.ticks p, Observe.error_message 414 "Request-URI Too Long");
           (S (Main.ticks p), Observe.access_message "" 414) ]
         (Main.out p)
  /\ oscalls h' = Main.syscalls p
  /\ rfile h' = snd (Base.readline 65537 client_bytes).
Proof.
  intros Hl h0 h'. subst h' h0. unfold exec, outcome.
  unfold CORS.handle_one_request, Base.handle_one_request, Base.read_request.
  assert (E : (raw <- Base.rfile_readline 65537;;
              modify (set_raw_requestline raw);;
              (if (65536 <? Py.len raw)%Z
               then
                modify (set_requestline "");;
                modify (set_request_version "");;
                modify (set_command (Some ""));;
                Base.send_error P 414 None None;; ret false
               else
                if Py.is_empty raw
                then modify (set_close_connection true);; ret false
                else Base.parse_request P)) (Main.new_handler client_bytes p)
             = (Ok false,
                after_error P 414 "Request-URI Too Long"
                  (set_command (Some "")
                     (set_request_version ""
                        (set_requestline ""
                           (set_raw_requestline
                              (fst (Base.readline 65537 client_bytes))
                              (set_rfile (snd (Base.readline 65537 client_bytes))
                                 (Main.new_handler client_bytes p)))))))).
  { rewrite (bind_ok _ _ _ _ _ (rfile_readline_eq 65537 _)).
    cbn [rfile Main.new_handler]. rewrite bind_modify.
    apply Z.ltb_lt in Hl. rewrite Hl. repeat rewrite bind_modify.
    rewrite send_error_414.
    erewrite bind_ok by (apply send_error_1x; reflexivity). reflexivity. }
  rewrite (bind_ok _ _ _ _ _ E). cbn [negb ret fst snd].
  split; [reflexivity|]. unfold after_error, after_status, after_log.
  state_fields. cbn [Main.new_handler wfile headers_buffer stdout clock oscalls
                     rfile app Observe.status Observe.log_all fold_left
                     Observe.log_to fst snd].
  repeat split.
Qed.

(** At work: a line of 70000 bytes. *)
Lemma long_request_line_is_414_witness :
  let bytes := String.concat "" (repeat "a" (Z.to_nat 70000)) in
  let h0 := Main.new_handler bytes (Main.start Main.Bound) in
  let h' := exec (CORS.handle_one_request Demo.host) h0 in
  outcome (CORS.handle_one_request Demo.host) h0 = Ok tt
  /\ Observe.status (wfile h') = Some 414%Z
  /\ stdout h'
     = Observe.log_all Demo.host
         [ (Main.ticks (Main.start Main.Bound),
            Observe.error_message 414 "Request-URI Too Long");
           (S (Main.ticks (Main.start Main.Bound)),
            Observe.access_message "" 414) ]
         (Main.out (Main.start Main.Bound))
  /\ oscalls h' = Main.syscalls (Main.start Main.Bound)
  /\ rfile h' = snd (Base.readline 65537 bytes).
Proof.
  apply (long_request_line_is_414 Demo.host
           (String.concat "" (repeat "a" (Z.to_nat 70000)))
           (Main.start Main.Bound)).
  vm_compute. reflexivity.
Defined.

(** ** The query and the fragment of a path *)

Lemma split1_app (sep : ascii) (a b : string) :
  Py.contains sep a = false ->
  Py.split1 sep (a ++ String sep b) = (a, Some b).
Proof.
  induction a as [|c a IH]; intros H; simpl in *.
  - now rewrite Ascii.eqb_refl.
  - apply orb_false_elim in H. destruct H as (Hc & Ha).
    rewrite Ascii.eqb_sym in Hc. rewrite Hc. now rewrite (IH Ha).
Qed.

Lemma split1_none (sep : ascii) (a : string) :
  Py.contains sep a = false -> Py.split1 sep a = (a, None).
Proof.
  induction a as [|c a IH]; intros H; simpl in *; [reflexivity|].
  apply orb_false_elim in H. destruct H as (Hc & Ha).
  rewrite Ascii.eqb_sym in Hc. rewrite Hc. now rewrite (IH Ha).
Qed.

Lemma split1_fst_app (sep : ascii) (a b : string) :
  Py.contains sep a = false ->
  fst (Py.split1 sep (a ++ b)) = a ++ fst (Py.split1 sep b).
Proof.
  induction a as [|c a IH]; intros H; simpl in *; [reflexivity|].
  apply orb_false_elim in H. destruct H as (Hc & Ha).
  rewrite Ascii.eqb_sym in Hc. rewrite Hc.
  specialize (IH Ha). destruct (Py.split1 sep (a ++ b)) as [x y].
  simpl in *. now rewrite IH.
Qed.

(** What follows the first question mark or the first number sign of a
    path does not count: the path is translated as the text before them,
    and leads where that text leads. *)
Theorem translate_path_drops_query
  (P : platform) (path rest : string) :
  Py.contains "?" path = false ->
  Simple.translate_path P (path ++ String "?" rest)
  = Simple.translate_path P path
  /\ (Py.contains "#" path = false ->
      Simple.translate_path P (path ++ String "#" rest)
      = Simple.translate_path P path).
Proof.
  intros Hq. split.
  - unfold Simple.translate_path.
    now rewrite (split1_app "?" path rest Hq), (split1_none "?" path Hq).
  - intros Hf. unfold Simple.translate_path.
    rewrite (split1_none "?" path Hq). cbn [fst].
    rewrite (split1_none "#" path Hf). cbn [fst].
    rewrite (split1_fst_app "?" path (String "#" rest) Hq).
    change (Py.split1 "?" (String "#" rest))
      with (let (a, b) := Py.split1 "?" rest in (String "#" a, b)).
    destruct (Py.split1 "?" rest) as [x y]. cbn [fst].
    now rewrite (split1_app "#" path x Hf).
Qed.

(** At work: [/test-api.html?x=1#top]. *)
Lemma translate_path_drops_query_witness :
  Simple.translate_path Demo.host ("/test-api.html" ++ String "?" "x=1#top")
  = Simple.translate_path Demo.host "/test-api.html"
  /\ (Py.contains "#" "/test-api.html" = false ->
      Simple.translate_path Demo.host ("/test-api.html" ++ String "#" "x=1#top")
      = Simple.translate_path Demo.host "/test-api.html").
Proof.
  apply (translate_path_drops_query Demo.host "/test-api.html" "x=1#top").
  reflexivity.
Defined.

(** ** The connection *)

(** [handle] serves one request and leaves the connection to be closed,
    whatever the client asks for: the protocol of the handler is
    HTTP/1.0, so a second request on the connection is not read. *)
Theorem a_connection_serves_one_request (P : platform) (h : handler) :
  CORS.handle P h = CORS.handle_one_request P (set_close_connection true h)
  /\ close_connection (exec (CORS.handle P) h) = true.
Proof.
  split; [apply handle_is_one_request|].
  unfold exec. rewrite handle_is_one_request.
  now apply (closing_handle_one_request P (set_close_connection true h)).
Qed.
